(** * FIDE tracker: the historical-data seeding pipeline

    A shallow embedding of [scraper/seed_historical_data.py] (the fixed-width
    parser, the admission test, the chunked two-pass writer and the
    chronological orchestrator) and of the write path of
    [scraper/upload_data.py], together with the properties the specification
    states about them. The command line of the seeding script, the month
    codes and the main loop of [scraper/download_historical_data.py] and
    the monthly update of [scraper/update_ratings_for_current_month.py]
    are embedded as well, over a small model of the disk and of the calls
    on the operating system, with further properties read off the code.

    Text is modelled as [string]: the files are opened with the latin-1
    codec, so one character is exactly one byte. Python integers are [Z],
    lengths and indices are [nat]. *)

From Stdlib Require Import ZArith NArith Ascii String List Permutation Sorted Lia Bool.
From Stdlib Require Import DecimalString.
From stdpp Require Import base decidable gmap strings list.

Local Open Scope Z_scope.

(* ===================================================================== *)
(** * Fragments of the Python runtime the code relies on                 *)
(* ===================================================================== *)

Module Py.

Definition ord (c : ascii) : N := N_of_ascii c.

Definition chr (n : N) : ascii := ascii_of_N n.

(** The newline and carriage-return characters. *)
Definition LF : ascii := chr 10.
Definition CR : ascii := chr 13.

(** [str.isspace] restricted to code points below 256: the white-space
    characters are 0x09-0x0D, 0x1C-0x20, 0x85 and 0xA0. *)
Definition isspace (c : ascii) : bool :=
  let n := ord c in
  (((9 <=? n) && (n <=? 13)) || ((28 <=? n) && (n <=? 32))
   || (n =? 133) || (n =? 160))%N.

Definition isdigit (c : ascii) : bool :=
  let n := ord c in ((48 <=? n) && (n <=? 57))%N.

Definition digit_value (c : ascii) : Z := Z.of_N (ord c) - 48.

(** [not s] for a string: true exactly on the empty string. *)
Definition is_empty (s : string) : bool :=
  match s with EmptyString => true | String _ _ => false end.

Fixpoint str_drop (n : nat) (s : string) : string :=
  match n, s with
  | O, _ => s
  | S _, EmptyString => EmptyString
  | S n', String _ s' => str_drop n' s'
  end.

Fixpoint str_take (n : nat) (s : string) : string :=
  match n, s with
  | O, _ => EmptyString
  | S _, EmptyString => EmptyString
  | S n', String c s' => String c (str_take n' s')
  end.

(** [s[i:j]] for [0 <= i <= j]; indices past the end are clamped. *)
Definition slice (i j : nat) (s : string) : string :=
  str_take (j - i) (str_drop i s).

Fixpoint lstrip (s : string) : string :=
  match s with
  | EmptyString => EmptyString
  | String c s' => if isspace c then lstrip s' else s
  end.

Fixpoint rstrip (s : string) : string :=
  match s with
  | EmptyString => EmptyString
  | String c s' =>
      let r := rstrip s' in
      if is_empty r && isspace c then EmptyString else String c r
  end.

(** [s.strip()] *)
Definition strip (s : string) : string := rstrip (lstrip s).

(** The digits of a decimal literal after its first digit: digits, each
    optionally preceded by one underscore. [pending] records that the last
    character read was an underscore. *)
Fixpoint int_digits (acc : Z) (pending : bool) (s : string) : option Z :=
  match s with
  | EmptyString => if pending then None else Some acc
  | String c s' =>
      if isdigit c then int_digits (10 * acc + digit_value c) false s'
      else if (ord c =? 95)%N && negb pending then int_digits acc true s'
      else None
  end.

Definition int_unsigned (s : string) : option Z :=
  match s with
  | EmptyString => None
  | String c s' =>
      if isdigit c then int_digits (digit_value c) false s' else None
  end.

(** [int(s)] in base 10; [None] stands for [ValueError]. Surrounding white
    space is ignored, one sign is allowed, and single underscores may
    separate digits. *)
Definition int_of_str (s : string) : option Z :=
  match strip s with
  | EmptyString => None
  | String c s' =>
      if (ord c =? 43)%N then int_unsigned s'
      else if (ord c =? 45)%N then Z.opp <$> int_unsigned s'
      else int_unsigned (String c s')
  end.

(** [s.lower()] on code points below 128 (the only ones whose lower-case
    form can be the letter y). *)
Definition lower_char (c : ascii) : ascii :=
  let n := ord c in
  if ((65 <=? n) && (n <=? 90))%N then chr (n + 32) else c.

Fixpoint lower (s : string) : string :=
  match s with
  | EmptyString => EmptyString
  | String c s' => String (lower_char c) (lower s')
  end.

(** Text-mode [f.readlines()] with universal newlines: the input is cut
    after every line terminator ("\n", "\r" or "\r\n"), each terminator is
    delivered as a single "\n", and a last unterminated line is kept.
    [cur] is the line read so far. *)
Fixpoint readlines_from (cur : string) (s : string) : list string :=
  match s with
  | EmptyString => if is_empty cur then [] else [cur]
  | String c s' =>
      if (ord c =? 10)%N then
        (cur +:+ String LF EmptyString) :: readlines_from EmptyString s'
      else if (ord c =? 13)%N then
        match s' with
        | String c' s'' =>
            if (ord c' =? 10)%N then
              (cur +:+ String LF EmptyString) :: readlines_from EmptyString s''
            else
              (cur +:+ String LF EmptyString) :: readlines_from EmptyString s'
        | EmptyString =>
            (cur +:+ String LF EmptyString) :: readlines_from EmptyString s'
        end
      else readlines_from (cur +:+ String c EmptyString) s'
  end.

Definition readlines (content : string) : list string :=
  readlines_from EmptyString content.

(** [sorted(l, key=key)] for string keys: a stable sort that only uses [<]
    on the keys. An element is inserted in front of the first element whose
    key is not smaller than its own, which keeps equal keys in input order. *)
Fixpoint insert_by_key {A} (key : A -> string) (x : A) (l : list A) : list A :=
  match l with
  | [] => [x]
  | y :: l' =>
      if String.ltb (key y) (key x) then y :: insert_by_key key x l'
      else x :: y :: l'
  end.

Fixpoint sorted {A} (key : A -> string) (l : list A) : list A :=
  match l with
  | [] => []
  | x :: l' => insert_by_key key x (sorted key l')
  end.

(** [range(0, stop, step)] for a positive step. *)
Definition range_step (stop step : nat) : list nat :=
  map (fun k => k * step)%nat (seq 0 (Nat.div (stop + step - 1) step)).

(** [l[i:j]] on lists. *)
Definition list_slice {A} (i j : nat) (l : list A) : list A :=
  take (j - i) (drop i l).

End Py.

(* ===================================================================== *)
(** * [datetime.strptime(s, '%Y-%m-%d')] and [isoformat]                  *)
(* ===================================================================== *)

Module Date.

Definition dash (c : ascii) : bool := (Py.ord c =? 45)%N.

Definition in_range (lo hi : N) (c : ascii) : bool :=
  ((lo <=? Py.ord c) && (Py.ord c <=? hi))%N.

(** The directive [%m] followed by the literal "-": the alternatives
    [1[0-2]], [0[1-9]], [[1-9]] are tried in this order, and an alternative
    is given up when no "-" follows it. Returns the month and the rest. *)
Definition month_dash (s : string) : option (Z * string) :=
  match s with
  | String a (String b (String c rest)) =>
      if (Py.ord a =? 49)%N && in_range 48 50 b && dash c
      then Some (10 + Py.digit_value b, rest)
      else if (Py.ord a =? 48)%N && in_range 49 57 b && dash c
      then Some (Py.digit_value b, rest)
      else if in_range 49 57 a && dash b
      then Some (Py.digit_value a, String c rest)
      else None
  | String a (String b rest) =>
      if in_range 49 57 a && dash b then Some (Py.digit_value a, rest)
      else None
  | _ => None
  end.

(** The directive [%d] at the end of the format: the alternatives
    [3[01]], [[12]\d], [0[1-9]], [[1-9]], [ [1-9]]; the first one that
    matches is taken and nothing may follow it. *)
Definition day_end (s : string) : option Z :=
  match s with
  | String a (String b rest) =>
      if (Py.ord a =? 51)%N && in_range 48 49 b
      then (if Py.is_empty rest then Some (30 + Py.digit_value b) else None)
      else if in_range 49 50 a && Py.isdigit b
      then (if Py.is_empty rest
            then Some (10 * Py.digit_value a + Py.digit_value b) else None)
      else if (Py.ord a =? 48)%N && in_range 49 57 b
      then (if Py.is_empty rest then Some (Py.digit_value b) else None)
      else if in_range 49 57 a
      then None
      else if (Py.ord a =? 32)%N && in_range 49 57 b
      then (if Py.is_empty rest then Some (Py.digit_value b) else None)
      else None
  | String a EmptyString =>
      if in_range 49 57 a then Some (Py.digit_value a) else None
  | EmptyString => None
  end.

Definition is_leap (y : Z) : bool :=
  (y mod 4 =? 0) && (negb (y mod 100 =? 0) || (y mod 400 =? 0)).

Definition days_in_month (y m : Z) : Z :=
  if m =? 2 then (if is_leap y then 29 else 28)
  else if (m =? 4) || (m =? 6) || (m =? 9) || (m =? 11) then 30
  else 31.

(** [datetime.strptime(s, '%Y-%m-%d')]: [None] stands for [ValueError]
    (no match, unconverted data, year 0 or a day the month does not have). *)
Definition strptime (s : string) : option (Z * Z * Z) :=
  match s with
  | String y1 (String y2 (String y3 (String y4 (String d1 rest)))) =>
      if Py.isdigit y1 && Py.isdigit y2 && Py.isdigit y3 && Py.isdigit y4
         && dash d1
      then
        let y := 1000 * Py.digit_value y1 + 100 * Py.digit_value y2
                 + 10 * Py.digit_value y3 + Py.digit_value y4 in
        match month_dash rest with
        | Some (m, rest') =>
            match day_end rest' with
            | Some d =>
                if (1 <=? y) && (d <=? days_in_month y m)
                then Some (y, m, d) else None
            | None => None
            end
        | None => None
        end
      else None
  | _ => None
  end.

Definition digit_char (d : Z) : ascii := Py.chr (Z.to_N (48 + d mod 10)).

Definition pad2 (n : Z) : string :=
  String (digit_char (n / 10)) (String (digit_char n) EmptyString).

Definition pad4 (n : Z) : string :=
  String (digit_char (n / 1000)) (String (digit_char (n / 100)) (pad2 n)).

(** [date.isoformat()] *)
Definition date_isoformat (ymd : Z * Z * Z) : string :=
  let '(y, m, d) := ymd in pad4 y +:+ "-" +:+ pad2 m +:+ "-" +:+ pad2 d.

(** [datetime.isoformat()] of a datetime at midnight. *)
Definition datetime_isoformat (ymd : Z * Z * Z) : string :=
  date_isoformat ymd +:+ "T00:00:00".

(** The (year, month, day) triples of calendar dates. *)
Definition valid_ymd (ymd : Z * Z * Z) : Prop :=
  let '(y, m, d) := ymd in
  1 <= y <= 9999 /\ 1 <= m <= 12 /\ 1 <= d <= 31.

(** Calendar order on (year, month, day). *)
Definition ymd_le (a b : Z * Z * Z) : Prop :=
  let '(y1, m1, d1) := a in
  let '(y2, m2, d2) := b in
  y1 < y2 \/ (y1 = y2 /\ (m1 < m2 \/ (m1 = m2 /\ d1 <= d2))).

End Date.

(* ===================================================================== *)
(** * The fixed-width parser: [parse_fide_text_file]                     *)
(* ===================================================================== *)

(** The dictionary built for every accepted line. *)
Record Player := mkPlayer {
  fide_id : string;
  name : string;
  federation : string;
  rating : Z;
  birth_year : option Z;
  sex : string;
  title : option string;
  rank : option Z
}.

(** What the loop body does with one data line: the two [continue] branches
    that bump a counter, or the [players.append]. *)
Inductive LineResult :=
| SkippedInvalid
| SkippedLowRating
| Accepted (player : Player).

(** The list returned by the parser together with the two counters it prints
    in its summary. *)
Record ParseResult := mkParseResult {
  players : list Player;
  skipped_invalid : nat;
  skipped_low_rating : nat
}.

(** Lines 95-102: the birth year, [None] unless the four characters parse
    to an integer between 1900 and 2024. *)
Definition parse_birth_year (birthday_str : string) : option Z :=
  if negb (Py.is_empty birthday_str) && (4 <=? String.length birthday_str)%nat
  then
    match Py.int_of_str (Py.slice 0 4 birthday_str) with
    | Some birth_year =>
        if (birth_year <? 1900) || (birth_year >? 2024) then None
        else Some birth_year
    | None => None
    end
  else None.

(** The body of the loop over the data lines (lines 49-120). The outer
    handler for [ValueError] and [IndexError] is never entered: slices are
    clamped and the [ValueError] of [int] is caught where it is raised. *)
Definition parse_line (min_rating : Z) (existing_fide_ids : gset string)
    (line : string) : LineResult :=
  if (String.length line <? 123)%nat then SkippedInvalid
  else
    let fide_id := Py.strip (Py.slice 0 15 line) in
    let name := Py.strip (Py.slice 15 76 line) in
    let federation := Py.strip (Py.slice 76 79 line) in
    let sex := Py.strip (Py.slice 79 80 line) in
    let rating_str := Py.strip (Py.slice 113 117 line) in
    let birthday_str := Py.strip (Py.slice 126 130 line) in
    if Py.is_empty fide_id || Py.is_empty rating_str || Py.is_empty name
    then SkippedInvalid
    else
      match Py.int_of_str rating_str with
      | None => SkippedInvalid
      | Some rating =>
          if (rating <? min_rating)
             && negb (bool_decide (fide_id ∈ existing_fide_ids))
          then SkippedLowRating
          else
            Accepted {| fide_id := fide_id;
                        name := name;
                        federation := federation;
                        rating := rating;
                        birth_year := parse_birth_year birthday_str;
                        sex := sex;
                        title := None;
                        rank := None |}
      end.

Definition parse_step (min_rating : Z) (existing_fide_ids : gset string)
    (st : ParseResult) (line : string) : ParseResult :=
  match parse_line min_rating existing_fide_ids line with
  | SkippedInvalid =>
      {| players := players st;
         skipped_invalid := S (skipped_invalid st);
         skipped_low_rating := skipped_low_rating st |}
  | SkippedLowRating =>
      {| players := players st;
         skipped_invalid := skipped_invalid st;
         skipped_low_rating := S (skipped_low_rating st) |}
  | Accepted player =>
      {| players := players st ++ [player];
         skipped_invalid := skipped_invalid st;
         skipped_low_rating := skipped_low_rating st |}
  end.

(** Line 27: [[line for line in lines[1:] if line.strip()]]. *)
Definition data_lines (lines : list string) : list string :=
  List.filter (fun line => negb (Py.is_empty (Py.strip line))) (tail lines).

(** The parser on the lines of an opened file. *)
Definition parse_lines (min_rating : Z) (existing_fide_ids : gset string)
    (lines : list string) : ParseResult :=
  fold_left (parse_step min_rating existing_fide_ids) (data_lines lines)
    {| players := []; skipped_invalid := 0; skipped_low_rating := 0 |}.

(** The birth year as the specification words it: taken from the first
    four characters of the birth-date substring, and null when the
    substring is absent, does not parse as an integer, or parses outside
    1900..2024. *)
Definition birth_year_spec (birth : string) : option Z :=
  match birth with
  | EmptyString => None
  | String _ _ =>
      match Py.int_of_str (Py.slice 0 4 birth) with
      | None => None
      | Some y => if (1900 <=? y) && (y <=? 2024) then Some y else None
      end
  end.

(* ===================================================================== *)
(** * The store                                                          *)
(* ===================================================================== *)

Record PlayerRow := mkPlayerRow {
  pr_fide_id : string;
  pr_name : string;
  pr_birth_year : option Z
}.

Record RankingRow := mkRankingRow {
  rk_fide_id : string;
  rk_rank : option Z;
  rk_rating : Z;
  rk_federation : string;
  rk_scraped_date : string;
  rk_scraped_at : string;
  rk_data_source : string
}.

(** The two tables, each a sequence of rows in insertion order. *)
Record DB := mkDB {
  players_table : list PlayerRow;
  rankings_table : list RankingRow
}.

(** [ignore_duplicates=False] (the default) and [ignore_duplicates=True]. *)
Inductive ConflictMode := UpdateOnConflict | IgnoreOnConflict.

(** Conflict keys: [on_conflict='fide_id'] and
    [on_conflict='fide_id,scraped_date']. *)
Definition player_key (r : PlayerRow) : string := pr_fide_id r.
Definition ranking_key (r : RankingRow) : string * string :=
  (rk_fide_id r, rk_scraped_date r).

Section Upsert.
Context {Row Key : Type} `{EqDecision Key} (key : Row -> Key).

Definition has_key (k : Key) (tbl : list Row) : bool :=
  existsb (fun r => bool_decide (key r = k)) tbl.

(** Modelled from the spec: the store's [upsert] for one row, which is
    served by the database behind the client and is not part of the
    sources. A row whose conflict key is free is inserted; on a conflict
    the stored row is overwritten with the supplied columns
    ([UpdateOnConflict]) or left untouched ([IgnoreOnConflict]). *)
Definition upsert_row (mode : ConflictMode) (tbl : list Row) (r : Row)
    : list Row :=
  if has_key (key r) tbl then
    match mode with
    | UpdateOnConflict =>
        map (fun r' => if bool_decide (key r' = key r) then r else r') tbl
    | IgnoreOnConflict => tbl
    end
  else tbl ++ [r].

(** Modelled from the spec: one [upsert] request carrying several rows
    treats them in order. *)
Definition upsert (mode : ConflictMode) (rows : list Row) (tbl : list Row)
    : list Row :=
  fold_left (upsert_row mode) rows tbl.
End Upsert.

(** A row is settled in a table when its conflict key is stored and every
    row stored under that key equals it. *)
Definition settled {Row Key : Type} (key : Row -> Key) (tbl : list Row)
    (r : Row) : Prop :=
  In (key r) (map key tbl)
  /\ forall r', In r' tbl -> key r' = key r -> r' = r.

(** The calls the code makes on the client. *)
Inductive Request :=
| CreateClient
| SelectFideIds
| UpsertPlayers (rows : list PlayerRow) (mode : ConflictMode)
| UpsertRankings (rows : list RankingRow) (mode : ConflictMode).

(** Modelled from the spec: what a call that succeeds does to the store.
    Connecting and reading change nothing; an upsert treats its table as
    [upsert] above says and leaves the other table alone. *)
Definition apply_request (req : Request) (d : DB) : DB :=
  match req with
  | CreateClient | SelectFideIds => d
  | UpsertPlayers rows mode =>
      {| players_table := upsert player_key mode rows (players_table d);
         rankings_table := rankings_table d |}
  | UpsertRankings rows mode =>
      {| players_table := players_table d;
         rankings_table := upsert ranking_key mode rows (rankings_table d) |}
  end.

(* ===================================================================== *)
(** * Effects: the world the scripts run in                              *)
(* ===================================================================== *)

(** What an observer sees of a run, oldest first: the start of a seeding
    run, a call on the client with its outcome, an answer typed at the
    prompt. *)
Inductive Event :=
| EvSeed (filepath data_date : string)
| EvStore (req : Request) (ok : bool)
| EvPrompt (response : string).

(** [clock] counts the calls made on the client so far; [stdin] holds the
    lines still to be read from the console. *)
Record World := mkWorld {
  db : DB;
  clock : nat;
  stdin : list string;
  trace : list Event
}.

Inductive exn := FileNotFoundError | ValueError | APIError | EOFError.

Inductive Result (A : Type) :=
| Ok (a : A)
| Raise (e : exn).
Arguments Ok {A} a.
Arguments Raise {A} e.

(** State over [World] with exceptions; the world is kept when a
    computation raises, since nothing is rolled back. *)
Definition M (A : Type) : Type := World -> Result A * World.

Definition ret {A} (a : A) : M A := fun w => (Ok a, w).

Definition raise {A} (e : exn) : M A := fun w => (Raise e, w).

Definition bind {A B} (m : M A) (k : A -> M B) : M B :=
  fun w =>
    match m w with
    | (Ok a, w') => k a w'
    | (Raise e, w') => (Raise e, w')
    end.

(** [try: m except Exception as e: h e] *)
Definition try_except {A} (m : M A) (h : exn -> M A) : M A :=
  fun w =>
    match m w with
    | (Ok a, w') => (Ok a, w')
    | (Raise e, w') => h e w'
    end.

Declare Scope py_scope.
Delimit Scope py_scope with py.
Notation "'let*' x ':=' m 'in' k" := (bind m (fun x => k))
  (at level 10, x pattern, m at level 100, k at level 200,
   format "'[v' 'let*'  x  ':='  m  'in' '/' k ']'") : py_scope.
Local Open Scope py_scope.

(** [for x in l: body x] *)
Fixpoint for_each {A} (l : list A) (body : A -> M unit) : M unit :=
  match l with
  | [] => ret tt
  | x :: l' => let* _ := body x in for_each l' body
  end.

Definition emit (e : Event) : M unit :=
  fun w =>
    (Ok tt, {| db := db w; clock := clock w; stdin := stdin w;
               trace := trace w ++ [e] |}).

(** [input(prompt)]: the next console line, [EOFError] when there is none. *)
Definition input : M string :=
  fun w =>
    match stdin w with
    | [] => (Raise EOFError, w)
    | response :: rest =>
        (Ok response, {| db := db w; clock := clock w; stdin := rest;
                         trace := trace w ++ [EvPrompt response] |})
    end.

Section Pipeline.

(** The files on disk: the bytes of each regular file that can be read,
    [None] where no file exists. A path that names a directory, or a
    file the process may not read, is outside this model. *)
Variable fs : string -> option string.

(** Which calls on the client fail: [faults n] tells whether the call
    number [n] raises. Every pattern of failures is one such schedule, so
    a statement for all [faults] covers them all. *)
Variable faults : nat -> bool.

(** One call on the client. The store serves a request as a whole: when
    the call raises, the store is as it was before the call. *)
Definition request (req : Request) : M unit :=
  fun w =>
    let ok := negb (faults (clock w)) in
    (if ok then Ok tt else Raise APIError,
     {| db := if ok then apply_request req (db w) else db w;
        clock := S (clock w);
        stdin := stdin w;
        trace := trace w ++ [EvStore req ok] |}).

Definition get_db_connection : M unit := request CreateClient.

(** [{row["fide_id"] for row in response.data}] *)
Definition get_existing_fide_ids : M (gset string) :=
  let* _ := request SelectFideIds in
  fun w => (Ok (list_to_set (map pr_fide_id (players_table (db w)))), w).

(** [parse_fide_text_file]: returns the players; the counters of the
    summary come along. *)
Definition parse_fide_text_file (filepath : string) (min_rating : Z)
    (existing_fide_ids : gset string) : M ParseResult :=
  match fs filepath with
  | None => raise FileNotFoundError
  | Some content =>
      ret (parse_lines min_rating existing_fide_ids (Py.readlines content))
  end.

Definition player_data (batch : list Player) : list PlayerRow :=
  map (fun p => {| pr_fide_id := fide_id p;
                   pr_name := name p;
                   pr_birth_year := birth_year p |}) batch.

Definition ranking_data (scraped_date scraped_at data_source : string)
    (batch : list Player) : list RankingRow :=
  map (fun p => {| rk_fide_id := fide_id p;
                   rk_rank := rank p;
                   rk_rating := rating p;
                   rk_federation := federation p;
                   rk_scraped_date := scraped_date;
                   rk_scraped_at := scraped_at;
                   rk_data_source := data_source |}) batch.

Definition batch_size : nat := 100.

(** [[players[i:i + batch_size] for i in range(0, len(players), batch_size)]] *)
Definition batches (players : list Player) : list (list Player) :=
  map (fun i => Py.list_slice i (i + batch_size) players)
    (Py.range_step (length players) batch_size).

(** The [try] block of [seed_database] (lines 153-213). *)
Definition write_players_and_rankings (players : list Player)
    (data_date : string) : M unit :=
  match Date.strptime data_date with
  | None => raise ValueError
  | Some ymd =>
      let scraped_date := Date.date_isoformat ymd in
      let scraped_at := Date.datetime_isoformat ymd in
      let* _ := for_each (batches players) (fun batch =>
           request (UpsertPlayers (player_data batch) UpdateOnConflict)) in
      for_each (batches players) (fun batch =>
        request (UpsertRankings
                   (ranking_data scraped_date scraped_at "historical" batch)
                   IgnoreOnConflict))
  end.

Definition seed_database (filepath data_date : string) (min_rating : Z)
    : M unit :=
  let* _ := emit (EvSeed filepath data_date) in
  let* _ := get_db_connection in
  let* existing_fide_ids := get_existing_fide_ids in
  let* parsed := parse_fide_text_file filepath min_rating existing_fide_ids in
  match players parsed with
  | [] => ret tt
  | _ :: _ =>
      try_except (write_players_and_rankings (players parsed) data_date)
        (fun e => raise e)
  end.

(** The loop of [seed_multiple_files] over the sorted list; the body
    tells whether the loop goes on ([break] otherwise). *)
Fixpoint seed_loop (queue : list (string * string)) (min_rating : Z)
    : M unit :=
  match queue with
  | [] => ret tt
  | (filepath, data_date) :: rest =>
      let* go_on :=
        try_except
          (let* _ := seed_database filepath data_date min_rating in ret true)
          (fun e =>
             let* response := input in
             ret (bool_decide (Py.lower response = "y"))) in
      if go_on then seed_loop rest min_rating else ret tt
  end.

Definition seed_multiple_files (file_list : list (string * string))
    (min_rating : Z) : M unit :=
  let file_list_sorted := Py.sorted snd file_list in
  seed_loop file_list_sorted min_rating.

(** [upload_rankings] of [upload_data.py]; [players] is the list loaded
    from the JSON file, [today] and [now] are the two renderings of
    [datetime.utcnow()]. *)
Definition upload_rankings (players : list Player) (today now : string)
    : M unit :=
  match players with
  | [] => ret tt
  | _ :: _ =>
      let* _ := get_db_connection in
      try_except
        (let* _ := request (UpsertPlayers (player_data players) UpdateOnConflict) in
         request (UpsertRankings (ranking_data today now "scraper" players)
                    IgnoreOnConflict))
        (fun e => raise e)
  end.

End Pipeline.

(** The sources a run of the orchestrator has started, in order. *)
Definition processed (evs : list Event) : list (string * string) :=
  omap (fun e => match e with
                 | EvSeed filepath data_date => Some (filepath, data_date)
                 | _ => None
                 end) evs.

(* ===================================================================== *)
(** * Notions used in the statements                                     *)
(* ===================================================================== *)

(** Ascending order of the sort keys, with Python's order on strings. *)
Definition key_le {A : Type} (key : A -> string) (a b : A) : Prop :=
  String.leb (key a) (key b) = true.

(** The identifiers [get_existing_fide_ids] returns on a store. *)
Definition existing_ids (d : DB) : gset string :=
  list_to_set (map pr_fide_id (players_table d)).

(** The upsert calls of one seeding run in the order the code issues them:
    the identity pass over all batches, then the observation pass. *)
Definition identity_pass (ps : list Player) : list Request :=
  map (fun batch => UpsertPlayers (player_data batch) UpdateOnConflict)
    (batches ps).

Definition observation_pass (ymd : Z * Z * Z) (ps : list Player)
    : list Request :=
  map (fun batch =>
         UpsertRankings
           (ranking_data (Date.date_isoformat ymd)
              (Date.datetime_isoformat ymd) "historical" batch)
           IgnoreOnConflict)
    (batches ps).

Definition write_requests (ymd : Z * Z * Z) (ps : list Player)
    : list Request :=
  identity_pass ps ++ observation_pass ymd ps.

(** The store after a sequence of successful calls. *)
Definition apply_requests (reqs : list Request) (d : DB) : DB :=
  fold_left (fun d' q => apply_request q d') reqs d.

Definition ok_events (reqs : list Request) : list Event :=
  map (fun q => EvStore q true) reqs.

(** The events a run adds to the trace of the world it starts in. *)
Definition new_events (w w' : World) : list Event :=
  drop (length (trace w)) (trace w').

(** The world once a seeding run has announced itself, connected and read
    the identifiers. *)
Definition connected (filepath data_date : string) (w : World) : World :=
  {| db := db w;
     clock := S (S (clock w));
     stdin := stdin w;
     trace := trace w ++ [EvSeed filepath data_date;
                          EvStore CreateClient true;
                          EvStore SelectFideIds true] |}.

(** The three kinds of calls in a trace: connecting and reading the
    identifiers, an upsert of the identity pass, an upsert of the
    observation pass. *)
Definition is_prologue_event (e : Event) : Prop :=
  exists ok, e = EvStore CreateClient ok \/ e = EvStore SelectFideIds ok.

Definition is_identity_event (e : Event) : Prop :=
  exists rows ok, e = EvStore (UpsertPlayers rows UpdateOnConflict) ok.

Definition is_observation_event (e : Event) : Prop :=
  exists rows ok, e = EvStore (UpsertRankings rows IgnoreOnConflict) ok.

(** The world once the prompt of the orchestrator has been answered:
    [response] has been read from the console, [more] is left on it. *)
Definition answered (response : string) (more : list string) (w : World)
    : World :=
  {| db := db w;
     clock := clock w;
     stdin := more;
     trace := trace w ++ [EvPrompt response] |}.

(** The records the parser returns for a file content on a given store. *)
Definition admitted_players (min_rating : Z) (d : DB) (content : string)
    : list Player :=
  players (parse_lines min_rating (existing_ids d) (Py.readlines content)).

(** The identifier field of a line and whether the line passes the three
    validation steps (which look at neither threshold nor snapshot). *)
Definition line_fide_id (line : string) : string :=
  Py.strip (Py.slice 0 15 line).

Definition line_is_valid (line : string) : bool :=
  match parse_line 0 ∅ line with
  | SkippedInvalid => false
  | _ => true
  end.

(** Every observation refers to a stored player. *)
Definition referential_integrity (d : DB) : Prop :=
  forall r, In r (rankings_table d) ->
            In (rk_fide_id r) (map pr_fide_id (players_table d)).

(** No two observations share [(fide_id, scraped_date)]. *)
Definition unique_observations (d : DB) : Prop :=
  NoDup (map ranking_key (rankings_table d)).

(* ===================================================================== *)
(** * Sample data                                                        *)
(* ===================================================================== *)

Module Sample.

(** [s.ljust(n)] *)
Fixpoint ljust (n : nat) (s : string) : string :=
  match n, s with
  | O, _ => s
  | S n', EmptyString => String " " (ljust n' EmptyString)
  | S n', String c s' => String c (ljust n' s')
  end.

Definition newline : string := String Py.LF EmptyString.

(** A line of the rating list without its terminator: identifier at 0,
    name at 15, federation at 76, sex at 79, rating at 113 and birth date
    at 126. *)
Definition record_text (fid nm fed sx rt birth : string) : string :=
  ljust 15 fid +:+ ljust 61 nm +:+ ljust 3 fed +:+ ljust 1 sx
  +:+ ljust 33 "" +:+ ljust 4 rt +:+ ljust 9 "" +:+ birth.

Definition record_line (fid nm fed sx rt birth : string) : string :=
  record_text fid nm fed sx rt birth +:+ newline.

Definition header : string := "ID Number      Name" +:+ newline.

Definition carlsen : string :=
  record_line "12345678901234" "Carlsen, Magnus" "NOR" "M" "2839" "1990/11/30".

Definition carlsen_player : Player :=
  {| fide_id := "12345678901234";
     name := "Carlsen, Magnus";
     federation := "NOR";
     rating := 2839;
     birth_year := Some 1990;
     sex := "M";
     title := None;
     rank := None |}.

(** A player rated one point below the default threshold. *)
Definition below : string :=
  record_line "555" "Doe, Jane" "CAN" "F" "2499" "1985".

(** Two observations of one player on one date. *)
Definition obs_first : RankingRow :=
  {| rk_fide_id := "12345678901234"; rk_rank := None; rk_rating := 2839;
     rk_federation := "NOR"; rk_scraped_date := "2025-01-01";
     rk_scraped_at := "2025-01-01T00:00:00";
     rk_data_source := "historical" |}.

Definition obs_second : RankingRow :=
  {| rk_fide_id := "12345678901234"; rk_rank := Some 1; rk_rating := 2840;
     rk_federation := "NOR"; rk_scraped_date := "2025-01-01";
     rk_scraped_at := "2025-01-01T09:30:00";
     rk_data_source := "scraper" |}.

(** [str(n)] *)
Definition decimal (n : nat) : string :=
  NilEmpty.string_of_uint (Nat.to_uint n).

(** A list in which the identifier 777 comes twice, 100 lines apart:
    first rated 2600 under one name, then rated 2400 under another, with
    99 other players rated 2600 in between. *)
Definition twice_first : string :=
  record_line "777" "Alpha, Ann" "CAN" "F" "2600" "1990".

Definition twice_second : string :=
  record_line "777" "Beta, Bea" "CAN" "F" "2400" "1990".

Definition filler (i : nat) : string :=
  record_line (decimal (1000 + i)) "Filler, Fay" "CAN" "F" "2600" "1980".

Definition twice_list : string :=
  fold_right String.append EmptyString
    (header :: twice_first :: map filler (seq 0 99) ++ [twice_second]).

Definition empty_db : DB := {| players_table := []; rankings_table := [] |}.

Definition world0 : World :=
  {| db := empty_db; clock := 0; stdin := []; trace := [] |}.

(** The two sources of the specification's example, given latest
    first. *)
Definition file_a : string * string := ("fileA", "2025-01-01").
Definition file_b : string * string := ("fileB", "2025-02-01").
Definition two_sources : list (string * string) := [file_b; file_a].

(** Two sources given in the order of the calendar, their dates written
    without padding the month: both are dates [strptime] accepts. *)
Definition file_sep : string * string := ("fileSep", "2025-9-01").
Definition file_oct : string * string := ("fileOct", "2025-10-01").
Definition unpadded_sources : list (string * string) := [file_sep; file_oct].

(** A disk on which every path holds a list with a header and no
    record. *)
Definition empty_lists : string -> option string := fun _ => Some header.

(** A disk on which no source exists, so that every run fails. *)
Definition no_files : string -> option string := fun _ => None.

(** The operator at the console answers once. *)
Definition world_answering (response : string) : World :=
  {| db := empty_db; clock := 0; stdin := [response]; trace := [] |}.

Definition no_faults : nat -> bool := fun _ => false.

(** A disk holding one file. *)
Definition one_file (path content : string) : string -> option string :=
  fun p => if bool_decide (p = path) then Some content else None.

End Sample.

(* ===================================================================== *)
(** * The command line of [seed_historical_data.py]                      *)
(* ===================================================================== *)

(** The namespace returned by the argument parser: [--file], [--date],
    [--min-rating] (2500 unless given), [--batch] and [--all]. *)
Record Args := mkArgs {
  arg_file : option string;
  arg_date : option string;
  arg_min_rating : Z;
  arg_batch : bool;
  arg_all : bool
}.

(** Truth value of an optional string: [None] and the empty string are
    false. *)
Definition truthy (o : option string) : bool :=
  match o with
  | Some s => negb (Py.is_empty s)
  | None => false
  end.

(** The preset of [--all]: thirteen monthly lists. *)
Definition files_to_seed : list (string * string) :=
  [("historical_data/standard_oct24frl.txt", "2024-10-01");
   ("historical_data/standard_nov24frl.txt", "2024-11-01");
   ("historical_data/standard_dec24frl.txt", "2024-12-01");
   ("historical_data/standard_jan25frl.txt", "2025-01-01");
   ("historical_data/standard_feb25frl.txt", "2025-02-01");
   ("historical_data/standard_mar25frl.txt", "2025-03-01");
   ("historical_data/standard_apr25frl.txt", "2025-04-01");
   ("historical_data/standard_may25frl.txt", "2025-05-01");
   ("historical_data/standard_jun25frl.txt", "2025-06-01");
   ("historical_data/standard_jul25frl.txt", "2025-07-01");
   ("historical_data/standard_aug25frl.txt", "2025-08-01");
   ("historical_data/standard_sep25frl.txt", "2025-09-01");
   ("historical_data/standard_oct25frl.txt", "2025-10-01")].

(** [s.split(sep)] for a separator of one character; [cur] is the piece
    read so far. *)
Fixpoint split_from (sep : ascii) (cur : string) (s : string) : list string :=
  match s with
  | EmptyString => [cur]
  | String c s' =>
      if Ascii.eqb c sep then cur :: split_from sep EmptyString s'
      else split_from sep (cur +:+ String c EmptyString) s'
  end.

Definition split (sep : ascii) (s : string) : list string :=
  split_from sep EmptyString s.

Section CommandLine.

Variable fs : string -> option string.
Variable faults : nat -> bool.

(** [os.path.exists]: whether the path names anything, a file or a
    directory, readable or not. *)
Variable path_exists : string -> bool.

(** The loop of the batch mode (lines 291-311). Each turn reads one line
    from the console, so the loop is written by recursion on the lines
    still to come, [console], which is the console of [w]. An entry is
    queued when it splits at its comma into exactly two parts, the date
    is accepted by [strptime] and [os.path.exists] holds of the path;
    anything else is reported and skipped. Running out of lines before
    "done" is the [EOFError] of [input]. *)
Fixpoint batch_loop (console : list string)
    (file_list : list (string * string)) (w : World)
    : Result (list (string * string)) * World :=
  match console with
  | [] => (Raise EOFError, w)
  | raw :: rest =>
      let w1 := answered raw rest w in
      let entry := Py.strip raw in
      if bool_decide (Py.lower entry = "done") then (Ok file_list, w1)
      else
        match split "," entry with
        | [part1; part2] =>
            let filepath := Py.strip part1 in
            let date := Py.strip part2 in
            match Date.strptime date with
            | None => batch_loop rest file_list w1
            | Some _ =>
                if negb (path_exists filepath)
                then batch_loop rest file_list w1
                else batch_loop rest (file_list ++ [(filepath, date)]) w1
            end
        | _ => batch_loop rest file_list w1
        end
  end.

Definition read_batch : M (list (string * string)) :=
  fun w => batch_loop (stdin w) [] w.

(** [confirm = input("Proceed? (y/n): ")] and the call it guards. *)
Definition confirm_and_seed (file_list : list (string * string))
    (min_rating : Z) : M unit :=
  bind input (fun confirm =>
    if bool_decide (Py.lower confirm = "y")
    then seed_multiple_files fs faults file_list min_rating
    else ret tt).

(** [main] after the arguments are parsed. *)
Definition main (args : Args) : M unit :=
  if arg_all args then
    confirm_and_seed files_to_seed (arg_min_rating args)
  else if truthy (arg_file args) && truthy (arg_date args) then
    match arg_file args, arg_date args with
    | Some filepath, Some data_date =>
        seed_database fs faults filepath data_date (arg_min_rating args)
    | _, _ => ret tt
    end
  else if arg_batch args then
    bind read_batch (fun file_list =>
      match file_list with
      | [] => ret tt
      | _ :: _ => confirm_and_seed file_list (arg_min_rating args)
      end)
  else ret tt.

End CommandLine.

(** What the batch loop has checked of an entry it queues: something
    exists at the path, [strptime] accepts the date, and both fields are
    stripped. *)
Definition checked_entry (path_exists : string -> bool)
    (source : string * string) : Prop :=
  path_exists source.1 = true /\ is_Some (Date.strptime source.2)
  /\ Py.strip source.1 = source.1 /\ Py.strip source.2 = source.2.

(** A console line that ends the batch loop. *)
Definition is_done (raw : string) : Prop :=
  Py.lower (Py.strip raw) = "done".

(** Two worlds that differ at most in their traces. *)
Definition same_store (w1 w2 : World) : Prop :=
  db w1 = db w2 /\ clock w1 = clock w2 /\ stdin w1 = stdin w2.

(** The answers read at the prompts, in order. *)
Definition prompts (evs : list Event) : list string :=
  omap (fun e => match e with
                 | EvPrompt response => Some response
                 | _ => None
                 end) evs.

(** A request that could overwrite a stored observation. *)
Definition overwrites_observations (q : Request) : Prop :=
  exists rows, q = UpsertRankings rows UpdateOnConflict.

(** The rows the two passes send for one record. *)
Definition player_row_of (p : Player) : PlayerRow :=
  {| pr_fide_id := fide_id p;
     pr_name := name p;
     pr_birth_year := birth_year p |}.

Definition ranking_row_of (scraped_date scraped_at data_source : string)
    (p : Player) : RankingRow :=
  {| rk_fide_id := fide_id p;
     rk_rank := rank p;
     rk_rating := rating p;
     rk_federation := federation p;
     rk_scraped_date := scraped_date;
     rk_scraped_at := scraped_at;
     rk_data_source := data_source |}.

(** Dates of the calendar: a year from 1 to 9999, a month, and a day the
    month has. *)
Definition real_date (ymd : Z * Z * Z) : Prop :=
  let '(y, m, d) := ymd in
  1 <= y <= 9999 /\ 1 <= m <= 12 /\ 1 <= d <= Date.days_in_month y m.



(* ===================================================================== *)
(** * Month codes: [datetime], [relativedelta] and [strftime]            *)
(* ===================================================================== *)

(** A naive [datetime]: the date and the time of day, in microseconds
    since midnight. *)
Record datetime := mkDatetime {
  dt_year : Z;
  dt_month : Z;
  dt_day : Z;
  dt_time : Z
}.

(** The datetimes Python can build. *)
Definition real_datetime (dt : datetime) : Prop :=
  real_date (dt_year dt, dt_month dt, dt_day dt)
  /\ 0 <= dt_time dt < 86400000000.

(** [a <= b] on datetimes: the fields are compared in order. *)
Definition datetime_le (a b : datetime) : bool :=
  (dt_year a <? dt_year b)
  || ((dt_year a =? dt_year b)
      && ((dt_month a <? dt_month b)
          || ((dt_month a =? dt_month b)
              && ((dt_day a <? dt_day b)
                  || ((dt_day a =? dt_day b)
                      && (dt_time a <=? dt_time b)))))).

(** [dt + relativedelta(months=1)]: the next month, the day cut down to
    the length of that month; [None] stands for the [ValueError] of a
    year past 9999. *)
Definition add_month (dt : datetime) : option datetime :=
  let month := dt_month dt + 1 in
  let year := if 12 <? month then dt_year dt + 1 else dt_year dt in
  let month := if 12 <? month then month - 12 else month in
  let day := Z.min (Date.days_in_month year month) (dt_day dt) in
  if 9999 <? year then None
  else Some {| dt_year := year; dt_month := month; dt_day := day;
               dt_time := dt_time dt |}.

(** [strftime('%b')] in the C locale. *)
Definition month_abbr (m : Z) : string :=
  nth (Z.to_nat (m - 1))
    ["Jan"; "Feb"; "Mar"; "Apr"; "May"; "Jun";
     "Jul"; "Aug"; "Sep"; "Oct"; "Nov"; "Dec"] "".

(** [f"{month_name}{year_code}"] with [strftime('%b').lower()] and
    [strftime('%y')]. *)
Definition month_code (current : datetime) : string :=
  let month_name := Py.lower (month_abbr (dt_month current)) in
  let year_code := Date.pad2 (dt_year current mod 100) in
  month_name +:+ year_code.

(** The months counted from year 0. *)
Definition month_index (dt : datetime) : Z :=
  12 * dt_year dt + (dt_month dt - 1).

(** Whether the month of [end_date] is reached on or before [end_date]
    by a datetime with the day and time of [start_date]. *)
Definition last_month_counts (start_date end_date : datetime) : bool :=
  (dt_day start_date <? dt_day end_date)
  || ((dt_day start_date =? dt_day end_date)
      && (dt_time start_date <=? dt_time end_date)).

(** The number of months from [start_date] that begin a turn of the
    loop of [generate_month_codes]. *)
Definition months_between (start_date end_date : datetime) : nat :=
  if month_index start_date <=? month_index end_date
  then (Z.to_nat (month_index end_date - month_index start_date)
        + (if last_month_counts start_date end_date then 1 else 0))%nat
  else 0%nat.

(** The code of the month with a given index. *)
Definition code_of_index (i : Z) : string :=
  month_code {| dt_year := i / 12; dt_month := i mod 12 + 1;
                dt_day := 1; dt_time := 0 |}.

(** The files of one month: the address of the archive, the archive on
    disk and the list it holds. [os.path.join] puts the POSIX separator
    between the directory and the name. *)
Definition archive_url (month_code : string) : string :=
  "http://ratings.fide.com/download/standard_" +:+ month_code +:+ "frl.zip".

Definition zip_path_of (output_dir month_code : string) : string :=
  output_dir +:+ "/" +:+ "standard_" +:+ month_code +:+ "frl.zip".

Definition txt_path_of (output_dir month_code : string) : string :=
  output_dir +:+ "/" +:+ "standard_" +:+ month_code +:+ "frl.txt".

(** What [requests.get] gives: a response with its status code and body,
    or an exception. *)
Inductive Response :=
  | Status (status_code : Z) (content : string)
  | ConnectionError.

(* ===================================================================== *)
(** * The disk and the operating system of the download scripts          *)
(* ===================================================================== *)

Module OS.

(** What a path names. *)
Inductive node :=
  | RegularFile (content : string)
  | Directory.

(** The errors of the operating system. [OSError] stands for a failure
    whose cause the model does not hold: missing permissions, a full
    disk, a read-only file system. *)
Inductive os_error :=
  | FileExistsError
  | FileNotFoundError
  | IsADirectoryError
  | OSError.

(** The disk: what each path names, and the number of calls made on the
    operating system so far. *)
Record Disk := mkDisk {
  nodes : gmap string node;
  os_clock : nat
}.

Definition called (d : Disk) : Disk :=
  {| nodes := nodes d; os_clock := S (os_clock d) |}.

Definition stored (path : string) (n : node) (d : Disk) : Disk :=
  {| nodes := <[path := n]> (nodes d); os_clock := S (os_clock d) |}.

(** The regular files, as the seeding pipeline reads them. *)
Definition files_of (d : Disk) : string -> option string :=
  fun path =>
    match nodes d !! path with
    | Some (RegularFile content) => Some content
    | _ => None
    end.

(** [os.path.exists] *)
Definition path_exists (path : string) (d : Disk) : bool :=
  bool_decide (is_Some (nodes d !! path)).

Section Calls.

(** Which calls on the operating system fail for a cause outside the
    model: [os_faults n] tells whether the call number [n] does. A
    statement for all [os_faults] covers every pattern of such
    failures. *)
Variable os_faults : nat -> bool.

(** [os.makedirs(path, exist_ok=True)], for a path whose parent is in
    place: nothing to do where the directory is there, [FileExistsError]
    where the path names a regular file. *)
Definition makedirs (path : string) (d : Disk) : option os_error * Disk :=
  if os_faults (os_clock d) then (Some OSError, called d)
  else
    match nodes d !! path with
    | Some Directory => (None, called d)
    | Some (RegularFile _) => (Some FileExistsError, called d)
    | None => (None, stored path Directory d)
    end.

(** [with open(path, 'wb') as f: f.write(content)], in a directory that
    is in place. *)
Definition write_file (path content : string) (d : Disk)
    : option os_error * Disk :=
  if os_faults (os_clock d) then (Some OSError, called d)
  else
    match nodes d !! path with
    | Some Directory => (Some IsADirectoryError, called d)
    | _ => (None, stored path (RegularFile content) d)
    end.

(** Reading a file whole. *)
Definition read_file (path : string) (d : Disk)
    : (os_error + string) * Disk :=
  if os_faults (os_clock d) then (inl OSError, called d)
  else
    match nodes d !! path with
    | Some (RegularFile content) => (inr content, called d)
    | Some Directory => (inl IsADirectoryError, called d)
    | None => (inl FileNotFoundError, called d)
    end.

(** [os.remove(path)] *)
Definition remove (path : string) (d : Disk) : option os_error * Disk :=
  if os_faults (os_clock d) then (Some OSError, called d)
  else
    match nodes d !! path with
    | Some (RegularFile _) =>
        (None, {| nodes := delete path (nodes d);
                  os_clock := S (os_clock d) |})
    | Some Directory => (Some IsADirectoryError, called d)
    | None => (Some FileNotFoundError, called d)
    end.

(** What an archive holds: [None] when the bytes are no archive,
    otherwise the directories and files its extraction writes, in order,
    each by its path below the target directory. *)
Variable unzip : string -> option (list (string * node)).

(** [zipfile.ZipFile(path, 'r')]: [None] when the file cannot be read or
    is no archive. *)
Definition open_archive (path : string) (d : Disk)
    : option (list (string * node)) * Disk :=
  match read_file path d with
  | (inl _, d1) => (None, d1)
  | (inr content, d1) => (unzip content, d1)
  end.

(** [zip_ref.extractall(output_dir)]: the entries are written one after
    the other; the first failure stops the extraction and leaves what
    was written before it. *)
Fixpoint extractall (output_dir : string) (entries : list (string * node))
    (d : Disk) : option os_error * Disk :=
  match entries with
  | [] => (None, d)
  | (name, n) :: rest =>
      let path := output_dir +:+ "/" +:+ name in
      let written :=
        match n with
        | Directory => makedirs path d
        | RegularFile content => write_file path content d
        end in
      match written with
      | (Some e, d1) => (Some e, d1)
      | (None, d1) => extractall output_dir rest d1
      end
  end.

End Calls.

End OS.

(** How a script ends: it returns, or an exception leaves it, one of the
    pipeline or one of the operating system. *)
Inductive Outcome (A : Type) :=
  | Returned (a : A)
  | Raised (e : exn)
  | RaisedOS (e : OS.os_error).
Arguments Returned {A} a.
Arguments Raised {A} e.
Arguments RaisedOS {A} e.

(** A value handed to a path function: the code passes a string in one
    place and a boolean in another. *)
Inductive PyVal :=
  | PyStr (s : string)
  | PyBool (b : bool).

(** [os.fspath]: [None] stands for the [TypeError] raised for anything
    that is not a path. *)
Definition fspath (v : PyVal) : option string :=
  match v with
  | PyStr s => Some s
  | PyBool _ => None
  end.

Module DownloadHistorical.

(** The loop of [generate_month_codes]; it runs once per month up to
    [end_date], and [fuel] bounds the number of turns. [None] means the
    bound was reached. *)
Fixpoint month_loop (fuel : nat) (current end_date : datetime)
    (months : list string) : option (Result (list string)) :=
  match fuel with
  | O => None
  | S fuel' =>
      if datetime_le current end_date then
        let months' := months ++ [month_code current] in
        match add_month current with
        | None => Some (Raise ValueError)
        | Some next => month_loop fuel' next end_date months'
        end
      else Some (Ok months)
  end.

Definition generate_month_codes (start_date end_date : datetime)
    : option (Result (list string)) :=
  month_loop
    (S (Z.to_nat (month_index end_date - month_index start_date + 1)))
    start_date end_date [].

Section Network.

Variable http_get : string -> Response.
Variable unzip : string -> option (list (string * OS.node)).
Variable os_faults : nat -> bool.

(** [download_fide_data]: the directory is made before the [try] block,
    so its failure leaves the function; inside the block the archive is
    saved when the status is 200, and every exception is caught. *)
Definition download_fide_data (month_code : string) (d : OS.Disk)
    : Outcome bool * OS.Disk :=
  let url := archive_url month_code in
  match OS.makedirs os_faults "historical_data" d with
  | (Some e, d1) => (RaisedOS e, d1)
  | (None, d1) =>
      let filename := zip_path_of "historical_data" month_code in
      match http_get url with
      | Status status_code content =>
          if status_code =? 200 then
            match OS.write_file os_faults filename content d1 with
            | (None, d2) => (Returned true, d2)
            | (Some _, d2) => (Returned false, d2)
            end
          else (Returned false, d1)
      | ConnectionError => (Returned false, d1)
      end
  end.

(** [extract_and_cleanup]: the first statement of the [try] block takes
    [os.path.basename(zip_path)]; whatever is raised inside the block is
    caught and gives [False]. *)
Definition extract_and_cleanup (zip_path : PyVal) (d : OS.Disk)
    : bool * OS.Disk :=
  match fspath zip_path with
  | None => (false, d)
  | Some path =>
      match OS.open_archive os_faults unzip path d with
      | (None, d1) => (false, d1)
      | (Some entries, d1) =>
          match OS.extractall os_faults "historical_data" entries d1 with
          | (Some _, d2) => (false, d2)
          | (None, d2) =>
              match OS.remove os_faults path d2 with
              | (Some _, d3) => (false, d3)
              | (None, d3) => (true, d3)
              end
          end
      end
  end.

(** The loop of [main] with its two counters. *)
Fixpoint main_loop (month_codes : list string) (successful failed : nat)
    (d : OS.Disk) : Outcome (nat * nat) * OS.Disk :=
  match month_codes with
  | [] => (Returned (successful, failed), d)
  | month_code :: rest =>
      match download_fide_data month_code d with
      | (Returned zip_path, d1) =>
          if zip_path then
            let '(extracted, d2) :=
              extract_and_cleanup (PyBool zip_path) d1 in
            if extracted then main_loop rest (S successful) failed d2
            else main_loop rest successful (S failed) d2
          else main_loop rest successful (S failed) d1
      | (Raised e, d1) => (Raised e, d1)
      | (RaisedOS e, d1) => (RaisedOS e, d1)
      end
  end.

Definition start_date : datetime := mkDatetime 2024 10 1 0.
Definition end_date : datetime := mkDatetime 2025 10 1 0.

(** [main]: the two counters it prints at the end, or the exception that
    leaves it, and the disk. [None] only if the bound on the turns of
    [generate_month_codes] were reached. *)
Definition main (d : OS.Disk)
    : option (Outcome (nat * nat) * OS.Disk) :=
  match generate_month_codes start_date end_date with
  | None => None
  | Some (Raise e) => Some (Raised e, d)
  | Some (Ok month_codes) => Some (main_loop month_codes 0%nat 0%nat d)
  end.

End Network.

End DownloadHistorical.

Module MonthlyUpdate.

(** [get_current_month_code]; [current] is what [datetime.utcnow()]
    returns. *)
Definition get_current_month_code (current : datetime) : string :=
  month_code current.

(** [current_date.replace(day=1).strftime('%Y-%m-%d')], for the years
    from 1000 on, which every platform writes with four digits. *)
Definition first_of_month (current_date : datetime) : string :=
  Date.date_isoformat (dt_year current_date, dt_month current_date, 1).

Section Network.

Variable http_get : string -> Response.
Variable unzip : string -> option (list (string * OS.node)).
Variable os_faults : nat -> bool.
Variable faults : nat -> bool.

(** [download_monthly_data]: the directory is made before the [try]
    block, so its failure leaves the function. Inside the block the
    archive is saved, extracted and removed, and the path of the list is
    returned if something exists there afterwards; every exception is
    caught and gives [None], as does a status other than 200. *)
Definition download_monthly_data (month_code : string) (d : OS.Disk)
    : Outcome (option string) * OS.Disk :=
  let url := archive_url month_code in
  match OS.makedirs os_faults "historical_data" d with
  | (Some e, d1) => (RaisedOS e, d1)
  | (None, d1) =>
      let zip_filename := zip_path_of "historical_data" month_code in
      let txt_filename := txt_path_of "historical_data" month_code in
      match http_get url with
      | Status status_code content =>
          if status_code =? 200 then
            match OS.write_file os_faults zip_filename content d1 with
            | (Some _, d2) => (Returned None, d2)
            | (None, d2) =>
                match OS.open_archive os_faults unzip zip_filename d2 with
                | (None, d3) => (Returned None, d3)
                | (Some entries, d3) =>
                    match OS.extractall os_faults "historical_data"
                            entries d3 with
                    | (Some _, d4) => (Returned None, d4)
                    | (None, d4) =>
                        match OS.remove os_faults zip_filename d4 with
                        | (Some _, d5) => (Returned None, d5)
                        | (None, d5) =>
                            if OS.path_exists txt_filename d5
                            then (Returned (Some txt_filename), d5)
                            else (Returned None, d5)
                        end
                    end
                end
            end
          else (Returned None, d1)
      | ConnectionError => (Returned None, d1)
      end
  end.

(** The call of [seed_database] in [main], which reads the list from
    the disk as it is now. [open] on a directory fails where it fails
    on a missing path, with [IsADirectoryError]. *)
Definition seed_from_disk (txt_file data_date : string) (d : OS.Disk)
    (w : World) : Outcome unit * World :=
  match seed_database (OS.files_of d) faults txt_file data_date 2500 w with
  | (Ok _, w') => (Returned tt, w')
  | (Raise e, w') =>
      match e, OS.nodes d !! txt_file with
      | FileNotFoundError, Some OS.Directory =>
          (RaisedOS OS.IsADirectoryError, w')
      | _, _ => (Raised e, w')
      end
  end.

(** [main]; [now1] and [now2] are the two readings of the clock. What
    the script ends with, the disk and the store it leaves; an
    exception of the download or of the seeding leaves [main]. *)
Definition main (now1 now2 : datetime) (d : OS.Disk) (w : World)
    : Outcome unit * OS.Disk * World :=
  let month_code := get_current_month_code now1 in
  let data_date := first_of_month now2 in
  match download_monthly_data month_code d with
  | (Returned None, d1) => (Returned tt, d1, w)
  | (Returned (Some txt_file), d1) =>
      let '(out, w') := seed_from_disk txt_file data_date d1 w in
      (out, d1, w')
  | (Raised e, d1) => (Raised e, d1, w)
  | (RaisedOS e, d1) => (RaisedOS e, d1, w)
  end.

End Network.

End MonthlyUpdate.

Module Fixtures.

(** A record line that stops after the rating columns. *)
Definition no_birth : string :=
  Sample.record_line "424242" "Roe, Rick" "USA" "M" "2700" "".

Definition no_birth_player : Player :=
  {| fide_id := "424242"; name := "Roe, Rick"; federation := "USA";
     rating := 2700; birth_year := None; sex := "M";
     title := None; rank := None |}.

Definition carlsen_file : string := Sample.header +:+ Sample.carlsen.

(** The same player on a later list, rated below the threshold. *)
Definition carlsen_low : string :=
  Sample.record_line "12345678901234" "Carlsen, Magnus" "NOR" "M" "2400"
    "1990/11/30".

(** What an upload of the live scrape carries for him. *)
Definition carlsen_scraped : Player :=
  {| fide_id := "12345678901234"; name := "Carlsen, Magnus";
     federation := "NOR"; rating := 2839; birth_year := Some 1990;
     sex := ""; title := None; rank := Some 1 |}.

(** The operator has typed these lines at the console. *)
Definition world_typing (lines : list string) : World :=
  {| db := Sample.empty_db; clock := 0; stdin := lines; trace := [] |}.

Definition disk : string -> option string :=
  Sample.one_file "list.txt" carlsen_file.

(** What exists in the working directory: the list, and the directory
    itself. *)
Definition present (path : string) : bool :=
  bool_decide (path = "list.txt") || bool_decide (path = ".").

(** A morning of November 2025, a server that answers every request
    with the same archive, and an archive holding the list of that
    month. *)
Definition november : datetime := mkDatetime 2025 11 3 32400000000.

Definition server : string -> Response := fun _ => Status 200 "PK".

Definition archive : string -> option (list (string * OS.node)) :=
  fun _ => Some [("standard_nov25frl.txt", OS.RegularFile carlsen_file)].

(** An empty working directory, and one in which a regular file has the
    name of the output directory. *)
Definition empty_disk : OS.Disk := {| OS.nodes := ∅; OS.os_clock := 0 |}.

Definition blocked_disk : OS.Disk :=
  {| OS.nodes := {["historical_data" := OS.RegularFile "notes"]};
     OS.os_clock := 0 |}.

End Fixtures.

(** Case analysis on every comparison of integers in sight. *)
Ltac split_comparisons :=
  repeat match goal with
         | |- context [?a <? ?b] => destruct (Z.ltb_spec a b)
         | |- context [?a <=? ?b] => destruct (Z.leb_spec a b)
         | |- context [?a =? ?b] => destruct (Z.eqb_spec a b)
         | H : context [?a <? ?b] |- _ => destruct (Z.ltb_spec a b)
         | H : context [?a <=? ?b] |- _ => destruct (Z.leb_spec a b)
         | H : context [?a =? ?b] |- _ => destruct (Z.eqb_spec a b)
         end.

(* ===================================================================== *)
(** * Facts about the runtime fragments                                  *)
(* ===================================================================== *)

Lemma is_empty_true (s : string) : Py.is_empty s = true <-> s = "".
Proof. destruct s; simpl; split; congruence. Qed.

Lemma is_empty_false (s : string) : Py.is_empty s = false <-> s <> "".
Proof. destruct s; simpl; split; congruence. Qed.

Lemma int_of_str_empty : Py.int_of_str "" = None.
Proof. reflexivity. Qed.

(* ===================================================================== *)
(** * The parser                                                         *)
(* ===================================================================== *)

(** The parser's verdict on a line that passes the three validation steps
    and carries the rating [r]. *)
Lemma parse_line_valid (min_rating : Z) (existing : gset string)
    (line : string) (r : Z) :
  (123 <= String.length line)%nat ->
  Py.strip (Py.slice 0 15 line) <> "" ->
  Py.strip (Py.slice 15 76 line) <> "" ->
  Py.int_of_str (Py.strip (Py.slice 113 117 line)) = Some r ->
  parse_line min_rating existing line =
    if (r <? min_rating)
       && negb (bool_decide (Py.strip (Py.slice 0 15 line) ∈ existing))
    then SkippedLowRating
    else Accepted
           {| fide_id := Py.strip (Py.slice 0 15 line);
              name := Py.strip (Py.slice 15 76 line);
              federation := Py.strip (Py.slice 76 79 line);
              rating := r;
              birth_year :=
                parse_birth_year (Py.strip (Py.slice 126 130 line));
              sex := Py.strip (Py.slice 79 80 line);
              title := None;
              rank := None |}.
Proof.
  intros Hlen Hid Hname Hint. unfold parse_line.
  assert (Hl : (String.length line <? 123)%nat = false)
    by (apply Nat.ltb_ge; exact Hlen).
  rewrite Hl.
  apply is_empty_false in Hid. apply is_empty_false in Hname.
  assert (Hr : Py.is_empty (Py.strip (Py.slice 113 117 line)) = false).
  { apply is_empty_false. intros E. rewrite E in Hint. discriminate. }
  rewrite Hid, Hname, Hr. simpl. rewrite Hint. reflexivity.
Qed.

(** C1. A line that passes validation with rating [r] and identifier [fid]
    is accepted exactly when [r >= min_rating] or [fid] is in the snapshot
    of existing identifiers; otherwise it is dropped and the low-rating
    counter goes up by one. With the threshold 2500 the sample record
    rated 2499 is dropped when its identifier is unknown and accepted when
    it is known. *)
Theorem C1_admission_filter (min_rating : Z) (existing : gset string)
    (line : string) (r : Z) (st : ParseResult) :
  (123 <= String.length line)%nat ->
  Py.strip (Py.slice 0 15 line) <> "" ->
  Py.strip (Py.slice 15 76 line) <> "" ->
  Py.int_of_str (Py.strip (Py.slice 113 117 line)) = Some r ->
  let fid := Py.strip (Py.slice 0 15 line) in
  ((exists p, parse_line min_rating existing line = Accepted p
              /\ fide_id p = fid /\ rating p = r
              /\ parse_step min_rating existing st line =
                 {| players := players st ++ [p];
                    skipped_invalid := skipped_invalid st;
                    skipped_low_rating := skipped_low_rating st |})
   <-> (min_rating <= r \/ fid ∈ existing))
  /\ ((parse_line min_rating existing line = SkippedLowRating
       /\ parse_step min_rating existing st line =
          {| players := players st;
             skipped_invalid := skipped_invalid st;
             skipped_low_rating := S (skipped_low_rating st) |})
      <-> ~ (min_rating <= r \/ fid ∈ existing))
  /\ parse_line 2500 ∅ Sample.below = SkippedLowRating
  /\ (exists p, parse_line 2500 {["555"]} Sample.below = Accepted p
                /\ fide_id p = "555" /\ rating p = 2499).
Proof.
  intros Hlen Hid Hname Hint fid.
  pose proof (parse_line_valid min_rating existing line r Hlen Hid Hname Hint)
    as Hp.
  fold fid in Hp. unfold parse_step. rewrite Hp. clear Hp.
  split; [| split; [| split]].
  - destruct (r <? min_rating) eqn:Hr;
      [apply Z.ltb_lt in Hr | apply Z.ltb_ge in Hr];
      (destruct (bool_decide (fid ∈ existing)) eqn:Hin;
       [apply bool_decide_eq_true in Hin | apply bool_decide_eq_false in Hin]);
      simpl; split.
    all: try (intros _; eexists; repeat split; reflexivity).
    all: try (intros _; first [right; assumption | left; lia]).
    + intros (p & Hp & _); discriminate.
    + intros [H | H]; [lia | contradiction].
  - destruct (r <? min_rating) eqn:Hr;
      [apply Z.ltb_lt in Hr | apply Z.ltb_ge in Hr];
      (destruct (bool_decide (fid ∈ existing)) eqn:Hin;
       [apply bool_decide_eq_true in Hin | apply bool_decide_eq_false in Hin]);
      simpl; split.
    all: try (intros [Hp _]; discriminate).
    all: try (intros H; exfalso; apply H; first [right; assumption | left; lia]).
    + intros _ [H | H]; [lia | contradiction].
    + intros _; split; reflexivity.
  - vm_compute. reflexivity.
  - eexists. split; [vm_compute; reflexivity |]. split; reflexivity.
Qed.

(** The sample record of the specification passes validation; it is kept
    under the default threshold. *)
Lemma C1_admission_filter_witness :
  exists p, parse_line 2500 ∅ Sample.carlsen = Accepted p
            /\ fide_id p = "12345678901234" /\ rating p = 2839.
Proof.
  assert (Hlen : (123 <= String.length Sample.carlsen)%nat)
    by (vm_compute; lia).
  assert (Hid : Py.strip (Py.slice 0 15 Sample.carlsen) <> "")
    by (vm_compute; discriminate).
  assert (Hname : Py.strip (Py.slice 15 76 Sample.carlsen) <> "")
    by (vm_compute; discriminate).
  assert (Hint : Py.int_of_str (Py.strip (Py.slice 113 117 Sample.carlsen))
                 = Some 2839) by (vm_compute; reflexivity).
  destruct (C1_admission_filter 2500 ∅ Sample.carlsen 2839
              {| players := []; skipped_invalid := 0; skipped_low_rating := 0 |}
              Hlen Hid Hname Hint) as [[_ Hadm] _].
  destruct Hadm as (p & Hp & Hf & Hr & _); [left; lia |].
  exists p. split; [exact Hp |]. split; [| exact Hr].
  rewrite Hf. vm_compute. reflexivity.
Defined.

(** ** Magnitude of a parsed integer *)

Lemma digit_value_bounds (c : ascii) :
  Py.isdigit c = true -> 0 <= Py.digit_value c <= 9.
Proof.
  unfold Py.isdigit, Py.digit_value. intros H.
  apply andb_true_iff in H as [H1 H2].
  apply N.leb_le in H1. apply N.leb_le in H2. lia.
Qed.

Lemma int_digits_bound (s : string) :
  forall acc pending y,
    0 <= acc ->
    Py.int_digits acc pending s = Some y ->
    acc <= y < (acc + 1) * 10 ^ Z.of_nat (String.length s).
Proof.
  induction s as [| c s IH]; intros acc pending y Hacc H; simpl in H.
  - destruct pending; [discriminate |]. injection H as <-. simpl. lia.
  - cbn [String.length]. rewrite Nat2Z.inj_succ, Z.pow_succ_r by lia.
    assert (Hpow : 0 < 10 ^ Z.of_nat (String.length s))
      by (apply Z.pow_pos_nonneg; lia).
    destruct (Py.isdigit c) eqn:Hd.
    + pose proof (digit_value_bounds c Hd) as Hb.
      apply IH in H; [| lia]. nia.
    + destruct ((Py.ord c =? 95)%N && negb pending); [| discriminate].
      apply IH in H; [| lia]. nia.
Qed.

Lemma int_unsigned_bound (s : string) (y : Z) :
  Py.int_unsigned s = Some y ->
  0 <= y < 10 ^ Z.of_nat (String.length s).
Proof.
  destruct s as [| c s]; simpl; [discriminate |].
  destruct (Py.isdigit c) eqn:Hd; [| discriminate].
  intros H. pose proof (digit_value_bounds c Hd) as Hb.
  apply int_digits_bound in H; [| lia].
  rewrite Nat2Z.inj_succ, Z.pow_succ_r by lia.
  assert (Hpow : 0 < 10 ^ Z.of_nat (String.length s))
    by (apply Z.pow_pos_nonneg; lia).
  nia.
Qed.

Lemma lstrip_length (s : string) :
  (String.length (Py.lstrip s) <= String.length s)%nat.
Proof.
  induction s as [| c s IH]; simpl; [lia |].
  destruct (Py.isspace c); simpl; lia.
Qed.

Lemma rstrip_length (s : string) :
  (String.length (Py.rstrip s) <= String.length s)%nat.
Proof.
  induction s as [| c s IH]; simpl; [lia |].
  destruct (Py.is_empty (Py.rstrip s) && Py.isspace c); simpl; lia.
Qed.

Lemma strip_length (s : string) :
  (String.length (Py.strip s) <= String.length s)%nat.
Proof.
  unfold Py.strip. pose proof (rstrip_length (Py.lstrip s)).
  pose proof (lstrip_length s). lia.
Qed.

Lemma int_of_str_bound (s : string) (y : Z) :
  Py.int_of_str s = Some y ->
  - 10 ^ Z.of_nat (String.length s) < y < 10 ^ Z.of_nat (String.length s).
Proof.
  unfold Py.int_of_str. pose proof (strip_length s) as Hlen.
  destruct (Py.strip s) as [| c t]; [discriminate |].
  cbn [String.length] in Hlen.
  assert (Hmono : forall n : nat, (n <= String.length s)%nat ->
            10 ^ Z.of_nat n <= 10 ^ Z.of_nat (String.length s))
    by (intros n Hn; apply Z.pow_le_mono_r; lia).
  destruct (Py.ord c =? 43)%N.
  { intros H. apply int_unsigned_bound in H.
    specialize (Hmono (String.length t)). lia. }
  destruct (Py.ord c =? 45)%N.
  { destruct (Py.int_unsigned t) as [z |] eqn:Hz; [| discriminate].
    simpl. intros H. injection H as <-. apply int_unsigned_bound in Hz.
    specialize (Hmono (String.length t)). lia. }
  intros H. apply int_unsigned_bound in H. cbn [String.length] in H.
  specialize (Hmono (S (String.length t))). lia.
Qed.

Lemma str_take_length (n : nat) (s : string) :
  (String.length (Py.str_take n s) <= String.length s)%nat.
Proof.
  revert s. induction n as [| n IH]; intros [| c s]; simpl; try lia.
  specialize (IH s). lia.
Qed.

(** ** The birth year *)

Lemma parse_birth_year_range (b : string) :
  parse_birth_year b = None
  \/ exists y, parse_birth_year b = Some y /\ 1900 <= y <= 2024.
Proof.
  unfold parse_birth_year.
  destruct (negb (Py.is_empty b) && (4 <=? String.length b)%nat);
    [| left; reflexivity].
  destruct (Py.int_of_str (Py.slice 0 4 b)) as [y |]; [| left; reflexivity].
  destruct (y <? 1900) eqn:Hlo; [left; reflexivity |].
  destruct (y >? 2024) eqn:Hhi; [left; reflexivity |].
  right. exists y. split; [reflexivity |].
  apply Z.ltb_ge in Hlo. rewrite Z.gtb_ltb in Hhi. apply Z.ltb_ge in Hhi. lia.
Qed.

(** The code's length test agrees with the wording of the specification:
    fewer than four characters cannot spell a year of the accepted range. *)
Lemma parse_birth_year_spec (b : string) :
  parse_birth_year b = birth_year_spec b.
Proof.
  unfold parse_birth_year, birth_year_spec.
  destruct b as [| c b]; [reflexivity |]. cbn [Py.is_empty negb andb].
  destruct (4 <=? String.length (String c b))%nat eqn:Hlen.
  - destruct (Py.int_of_str (Py.slice 0 4 (String c b))) as [y |];
      [| reflexivity].
    destruct (y <? 1900) eqn:Hlo, (y >? 2024) eqn:Hhi; simpl.
    all: rewrite Z.gtb_ltb in Hhi.
    all: destruct (1900 <=? y) eqn:Hlo', (y <=? 2024) eqn:Hhi'; simpl;
      try reflexivity.
    all: try apply Z.ltb_lt in Hlo; try apply Z.ltb_ge in Hlo.
    all: try apply Z.ltb_lt in Hhi; try apply Z.ltb_ge in Hhi.
    all: try apply Z.leb_le in Hlo'; try apply Z.leb_gt in Hlo'.
    all: try apply Z.leb_le in Hhi'; try apply Z.leb_gt in Hhi'.
    all: lia.
  - apply Nat.leb_gt in Hlen.
    destruct (Py.int_of_str (Py.slice 0 4 (String c b))) as [y |] eqn:Hy;
      [| reflexivity].
    apply int_of_str_bound in Hy.
    pose proof (str_take_length 4 (String c b)) as Ht.
    unfold Py.slice in Hy. cbn [Nat.sub Py.str_drop] in Hy.
    assert (Hp : 10 ^ Z.of_nat (String.length (Py.str_take 4 (String c b)))
                 <= 10 ^ 3) by (apply Z.pow_le_mono_r; lia).
    change (10 ^ 3) with 1000 in Hp.
    destruct (1900 <=? y) eqn:Hlo'; [| reflexivity].
    apply Z.leb_le in Hlo'. lia.
Qed.

(** ** The loop over the data lines *)

Lemma parse_step_bump_invalid (min_rating : Z) (existing : gset string)
    (l : list string) :
  forall st,
    fold_left (parse_step min_rating existing) l
      {| players := players st;
         skipped_invalid := S (skipped_invalid st);
         skipped_low_rating := skipped_low_rating st |}
    = {| players :=
           players (fold_left (parse_step min_rating existing) l st);
         skipped_invalid :=
           S (skipped_invalid
                (fold_left (parse_step min_rating existing) l st));
         skipped_low_rating :=
           skipped_low_rating
             (fold_left (parse_step min_rating existing) l st) |}.
Proof.
  induction l as [| x l IH]; intros st; [reflexivity |].
  cbn [fold_left]. rewrite <- IH. f_equal.
  unfold parse_step.
  destruct (parse_line min_rating existing x); reflexivity.
Qed.

Lemma players_of_fold (min_rating : Z) (existing : gset string)
    (l : list string) :
  forall st p,
    In p (players (fold_left (parse_step min_rating existing) l st)) ->
    In p (players st)
    \/ exists line, In line l
                    /\ parse_line min_rating existing line = Accepted p.
Proof.
  induction l as [| x l IH]; intros st p H; [left; exact H |].
  cbn [fold_left] in H. apply IH in H as [H | (line & Hin & Hl)].
  - unfold parse_step in H.
    destruct (parse_line min_rating existing x) as [| | q] eqn:Hx;
      cbn [players] in H; try (left; exact H).
    apply in_app_or in H as [H | [<- | []]]; [left; exact H |].
    right. exists x. split; [left; reflexivity | exact Hx].
  - right. exists line. split; [right; exact Hin | exact Hl].
Qed.

Lemma parse_line_accepted (min_rating : Z) (existing : gset string)
    (line : string) (p : Player) :
  parse_line min_rating existing line = Accepted p ->
  (123 <= String.length line)%nat
  /\ fide_id p = Py.strip (Py.slice 0 15 line)
  /\ fide_id p <> ""
  /\ name p = Py.strip (Py.slice 15 76 line)
  /\ name p <> ""
  /\ Py.int_of_str (Py.strip (Py.slice 113 117 line)) = Some (rating p)
  /\ (min_rating <= rating p \/ fide_id p ∈ existing)
  /\ birth_year p = parse_birth_year (Py.strip (Py.slice 126 130 line)).
Proof.
  unfold parse_line.
  destruct (String.length line <? 123)%nat eqn:Hlen; [discriminate |].
  apply Nat.ltb_ge in Hlen.
  destruct (Py.is_empty (Py.strip (Py.slice 0 15 line))) eqn:Hid;
    [discriminate |].
  destruct (Py.is_empty (Py.strip (Py.slice 113 117 line))) eqn:Hrt;
    [discriminate |].
  destruct (Py.is_empty (Py.strip (Py.slice 15 76 line))) eqn:Hnm;
    [discriminate |].
  cbn [orb].
  destruct (Py.int_of_str (Py.strip (Py.slice 113 117 line))) as [r |];
    [| discriminate].
  destruct ((r <? min_rating)
            && negb (bool_decide (Py.strip (Py.slice 0 15 line) ∈ existing)))
    eqn:Hadm; [discriminate |].
  intros H. injection H as <-. cbn [fide_id name rating birth_year].
  apply is_empty_false in Hid. apply is_empty_false in Hnm.
  repeat split; try assumption; try reflexivity.
  apply andb_false_iff in Hadm as [Hr | Hin].
  - left. apply Z.ltb_ge in Hr. lia.
  - right. apply negb_false_iff, bool_decide_eq_true in Hin. exact Hin.
Qed.

Lemma parse_step_invalid (min_rating : Z) (existing : gset string)
    (st : ParseResult) (line : string) :
  parse_line min_rating existing line = SkippedInvalid ->
  parse_step min_rating existing st line
  = {| players := players st;
       skipped_invalid := S (skipped_invalid st);
       skipped_low_rating := skipped_low_rating st |}.
Proof. intros H. unfold parse_step. rewrite H. reflexivity. Qed.

Lemma data_lines_cons (header : string) (l : list string) :
  data_lines (header :: l)
  = List.filter (fun line => negb (Py.is_empty (Py.strip line))) l.
Proof. reflexivity. Qed.

(** C5 (amended). A line shorter than 123 characters, measured as the code
    does with the line terminator counted as one character, never yields a
    record. When it is not blank the invalid counter goes up by exactly
    one; a line that is empty after stripping is filtered out before the
    loop and is not counted at all. *)
Theorem C5_short_line (min_rating : Z) (existing : gset string)
    (header : string) (pre : list string) (line : string)
    (post : list string) :
  (String.length line < 123)%nat ->
  let with_line :=
    parse_lines min_rating existing (header :: pre ++ line :: post) in
  let without :=
    parse_lines min_rating existing (header :: pre ++ post) in
  parse_line min_rating existing line = SkippedInvalid
  /\ players with_line = players without
  /\ skipped_low_rating with_line = skipped_low_rating without
  /\ skipped_invalid with_line =
     if Py.is_empty (Py.strip line) then skipped_invalid without
     else S (skipped_invalid without).
Proof.
  intros Hlen with_line without.
  assert (Hline : parse_line min_rating existing line = SkippedInvalid).
  { unfold parse_line. apply Nat.ltb_lt in Hlen. rewrite Hlen. reflexivity. }
  split; [exact Hline |].
  subst with_line without. unfold parse_lines.
  rewrite !data_lines_cons, !List.filter_app. cbn [List.filter].
  destruct (Py.is_empty (Py.strip line)); cbn [negb].
  - repeat split; reflexivity.
  - rewrite !fold_left_app. cbn [fold_left].
    rewrite (parse_step_invalid _ _ _ _ Hline), parse_step_bump_invalid.
    repeat split; reflexivity.
Qed.

Lemma C5_short_line_witness :
  skipped_invalid (parse_lines 2500 ∅ [Sample.header; "short"; Sample.carlsen])
  = S (skipped_invalid (parse_lines 2500 ∅ [Sample.header; Sample.carlsen])).
Proof.
  assert (Hlen : (String.length "short" < 123)%nat) by (vm_compute; lia).
  exact (proj2 (proj2 (proj2
    (C5_short_line 2500 ∅ Sample.header [] "short" [Sample.carlsen] Hlen)))).
Defined.

(** C5 as stated fails: the line consisting of a line terminator alone is
    shorter than 123 characters, yet it is dropped without touching the
    invalid counter. *)
Lemma C5_blank_line_not_counted :
  ~ (forall (min_rating : Z) (existing : gset string) (header : string)
       (pre : list string) (line : string) (post : list string),
       (String.length line < 123)%nat ->
       skipped_invalid
         (parse_lines min_rating existing (header :: pre ++ line :: post))
       = S (skipped_invalid
              (parse_lines min_rating existing (header :: pre ++ post)))).
Proof.
  intros H.
  specialize (H 2500 ∅ Sample.header [] Sample.newline []).
  assert (Hlen : (String.length Sample.newline < 123)%nat)
    by (vm_compute; lia).
  specialize (H Hlen). vm_compute in H. discriminate.
Qed.

(** C8. Every record the parser returns comes from a data line, its birth
    year is the one the specification derives from the first four
    characters of the birth-date substring, and it is null or lies between
    1900 and 2024. Whether a line yields a record never depends on the
    birth-date substring: a line that passes validation and admission is
    turned into a record whatever that substring holds. *)
Theorem C8_birth_year (min_rating : Z) (existing : gset string)
    (lines : list string) (p : Player) :
  In p (players (parse_lines min_rating existing lines)) ->
  (birth_year p = None
   \/ exists y, birth_year p = Some y /\ 1900 <= y <= 2024)
  /\ (exists line,
        In line (data_lines lines)
        /\ parse_line min_rating existing line = Accepted p
        /\ birth_year p
           = birth_year_spec (Py.strip (Py.slice 126 130 line)))
  /\ (forall line r,
        (123 <= String.length line)%nat ->
        Py.strip (Py.slice 0 15 line) <> "" ->
        Py.strip (Py.slice 15 76 line) <> "" ->
        Py.int_of_str (Py.strip (Py.slice 113 117 line)) = Some r ->
        (min_rating <= r \/ Py.strip (Py.slice 0 15 line) ∈ existing) ->
        exists q,
          parse_line min_rating existing line = Accepted q
          /\ rating q = r
          /\ birth_year q
             = birth_year_spec (Py.strip (Py.slice 126 130 line))).
Proof.
  intros Hin. unfold parse_lines in Hin.
  apply players_of_fold in Hin as [[] | (line & Hl & Hp)].
  pose proof (parse_line_accepted _ _ _ _ Hp) as (_&_&_&_&_&_&_& Hb).
  split; [| split].
  - rewrite Hb. apply parse_birth_year_range.
  - exists line. split; [exact Hl |]. split; [exact Hp |].
    rewrite Hb. apply parse_birth_year_spec.
  - intros line' r Hlen Hid Hname Hint Hadm.
    rewrite (parse_line_valid _ _ _ _ Hlen Hid Hname Hint).
    assert (Hc : (r <? min_rating)
                 && negb (bool_decide
                            (Py.strip (Py.slice 0 15 line') ∈ existing))
                 = false).
    { apply andb_false_iff. destruct Hadm as [Hr | Hx].
      - left. apply Z.ltb_ge. lia.
      - right. apply negb_false_iff, bool_decide_eq_true. exact Hx. }
    rewrite Hc. eexists. split; [reflexivity |]. split; [reflexivity |].
    cbn [birth_year]. apply parse_birth_year_spec.
Qed.

Lemma C8_birth_year_witness :
  In Sample.carlsen_player
    (players (parse_lines 2500 ∅ [Sample.header; Sample.carlsen]))
  /\ (birth_year Sample.carlsen_player = None
      \/ exists y, birth_year Sample.carlsen_player = Some y
                   /\ 1900 <= y <= 2024).
Proof.
  assert (Hin : In Sample.carlsen_player
                  (players (parse_lines 2500 ∅
                              [Sample.header; Sample.carlsen])))
    by (vm_compute; left; reflexivity).
  split; [exact Hin |].
  exact (proj1 (C8_birth_year 2500 ∅ [Sample.header; Sample.carlsen]
                  Sample.carlsen_player Hin)).
Defined.

(* ===================================================================== *)
(** * Runs of the writer                                                 *)
(* ===================================================================== *)

Section Runs.
Variable fs : string -> option string.
Variable faults : nat -> bool.

(** A loop that sends one call per element is the loop over the calls. *)
Lemma for_each_request {A} (f : A -> Request) (xs : list A) (w : World) :
  for_each xs (fun x => request faults (f x)) w
  = for_each (map f xs) (request faults) w.
Proof.
  revert w. induction xs as [| x xs IH]; intros w; [reflexivity |].
  cbn [for_each map]. unfold bind.
  destruct (request faults (f x) w) as [[[] | e] w1]; [apply IH | reflexivity].
Qed.

Lemma for_each_app {A} (body : A -> M unit) (l1 l2 : list A) (w : World) :
  bind (for_each l1 body) (fun _ => for_each l2 body) w
  = for_each (l1 ++ l2) body w.
Proof.
  revert w. induction l1 as [| x l1 IH]; intros w; [reflexivity |].
  cbn [for_each app]. unfold bind in *.
  destruct (body x w) as [[[] | e] w1]; [apply IH | reflexivity].
Qed.

(** A sequence of calls runs up to the first call that fails: [n] calls
    succeed and take effect, the next one (if any) fails, nothing is
    undone and nothing further is sent. *)
Lemma run_requests (reqs : list Request) :
  forall w, exists n,
    (n <= length reqs)%nat
    /\ (forall k, (k < n)%nat -> faults (clock w + k) = false)
    /\ ((n < length reqs)%nat -> faults (clock w + n) = true)
    /\ for_each reqs (request faults) w
       = (if (n <? length reqs)%nat then Raise APIError else Ok tt,
          {| db := apply_requests (take n reqs) (db w);
             clock := clock w + (if (n <? length reqs)%nat then S n else n);
             stdin := stdin w;
             trace := trace w ++ ok_events (take n reqs)
                      ++ match reqs !! n with
                         | Some q => [EvStore q false]
                         | None => []
                         end |}).
Proof.
  induction reqs as [| q reqs IH]; intros w.
  - exists 0%nat. repeat split; try (simpl; lia).
    cbn. destruct w; cbn. rewrite Nat.add_0_r, app_nil_r. reflexivity.
  - destruct (faults (clock w)) eqn:Hf.
    + exists 0%nat. repeat split; try (cbn [length]; lia).
      * intros _. rewrite Nat.add_0_r. exact Hf.
      * cbn [for_each]. unfold bind, request. rewrite Hf. cbn.
        rewrite Nat.add_1_r. reflexivity.
    + set (w1 := {| db := apply_request q (db w); clock := S (clock w);
                    stdin := stdin w;
                    trace := trace w ++ [EvStore q true] |}).
      destruct (IH w1) as (n & Hn & Hok & Hfail & Hrun).
      exists (S n). split; [cbn [length]; lia |].
      split; [| split].
      * intros [| k] Hk; [rewrite Nat.add_0_r; exact Hf |].
        specialize (Hok k ltac:(lia)). cbn [clock w1] in Hok.
        rewrite <- Hok. f_equal. lia.
      * intros Hlt. cbn [length] in Hlt.
        specialize (Hfail ltac:(lia)). cbn [clock w1] in Hfail.
        rewrite <- Hfail. f_equal. lia.
      * cbn [for_each]. unfold bind, request at 1. rewrite Hf.
        cbn [negb]. fold w1. rewrite Hrun. cbn [length take lookup].
        change (S n <? S (length reqs))%nat with (n <? length reqs)%nat.
        f_equal. cbn [w1 db clock stdin trace apply_requests fold_left
          ok_events map]. f_equal.
        -- destruct (n <? length reqs)%nat; lia.
        -- rewrite <- app_assoc. reflexivity.
Qed.


Lemma batches_nil : batches [] = [].
Proof. reflexivity. Qed.

Lemma try_except_reraise {A} (m : M A) (w : World) :
  try_except m (fun e => raise e) w = m w.
Proof.
  unfold try_except, raise. destruct (m w) as [[a | e] w']; reflexivity.
Qed.

Lemma write_phase (ps : list Player) (data_date : string)
    (ymd : Z * Z * Z) (w : World) :
  Date.strptime data_date = Some ymd ->
  write_players_and_rankings faults ps data_date w
  = for_each (write_requests ymd ps) (request faults) w.
Proof.
  intros Hd. unfold write_players_and_rankings. rewrite Hd.
  unfold write_requests, identity_pass, observation_pass.
  rewrite <- for_each_app. unfold bind.
  rewrite for_each_request.
  destruct (for_each _ (request faults) w) as [[[] | e] w1];
    [| reflexivity].
  apply for_each_request.
Qed.

(** The prologue of [seed_database] when both calls succeed and the file
    is there. *)
Lemma seed_database_prologue (filepath data_date : string)
    (min_rating : Z) (w : World) (content : string) :
  faults (clock w) = false ->
  faults (S (clock w)) = false ->
  fs filepath = Some content ->
  seed_database fs faults filepath data_date min_rating w
  = match admitted_players min_rating (db w) content with
    | [] => (Ok tt, connected filepath data_date w)
    | _ :: _ =>
        write_players_and_rankings faults
          (admitted_players min_rating (db w) content) data_date
          (connected filepath data_date w)
    end.
Proof.
  intros H1 H2 Hfs.
  unfold seed_database, bind, emit, get_db_connection,
    get_existing_fide_ids, bind, request, parse_fide_text_file.
  cbn [clock db stdin trace]. rewrite H1. cbn [negb clock db stdin trace].
  rewrite H2. cbn [negb clock db stdin trace apply_request].
  rewrite Hfs. unfold ret at 1. cbn [clock db stdin trace].
  unfold admitted_players, existing_ids, connected.
  rewrite <- !app_assoc. cbn [app].
  destruct (players _) as [| p ps]; [reflexivity |].
  rewrite try_except_reraise. reflexivity.
Qed.

Lemma seed_database_run (filepath data_date : string) (min_rating : Z)
    (w : World) (content : string) (ymd : Z * Z * Z) :
  faults (clock w) = false ->
  faults (S (clock w)) = false ->
  fs filepath = Some content ->
  Date.strptime data_date = Some ymd ->
  seed_database fs faults filepath data_date min_rating w
  = for_each
      (write_requests ymd (admitted_players min_rating (db w) content))
      (request faults) (connected filepath data_date w).
Proof.
  intros H1 H2 Hfs Hd.
  rewrite (seed_database_prologue _ _ _ _ _ H1 H2 Hfs).
  destruct (admitted_players min_rating (db w) content) as [| p ps] eqn:E.
  - reflexivity.
  - apply write_phase. exact Hd.
Qed.


Lemma processed_app (l1 l2 : list Event) :
  processed (l1 ++ l2) = processed l1 ++ processed l2.
Proof. unfold processed. apply omap_app. Qed.

Lemma processed_ok_events (reqs : list Request) :
  processed (ok_events reqs) = [].
Proof. induction reqs as [| q reqs IH]; [reflexivity | exact IH]. Qed.

(** Whatever happens, a seeding run logs its start once, leaves the
    console alone, and changes the store by a prefix of its planned
    upsert calls. *)
Lemma seed_database_effect (filepath data_date : string)
    (min_rating : Z) (w : World) :
  exists evs reqs,
    trace (seed_database fs faults filepath data_date min_rating w).2
    = trace w ++ EvSeed filepath data_date :: evs
    /\ processed evs = []
    /\ stdin (seed_database fs faults filepath data_date min_rating w).2
       = stdin w
    /\ db (seed_database fs faults filepath data_date min_rating w).2
       = apply_requests reqs (db w)
    /\ (reqs = []
        \/ exists content ymd n,
             fs filepath = Some content
             /\ Date.strptime data_date = Some ymd
             /\ reqs = take n (write_requests ymd
                                 (admitted_players min_rating (db w)
                                    content))).
Proof.
  destruct (faults (clock w)) eqn:H1.
  { exists [EvStore CreateClient false], [].
    unfold seed_database, bind, emit, get_db_connection, request.
    cbn [clock db stdin trace]. rewrite H1. cbn.
    rewrite <- app_assoc. repeat split; try reflexivity. left; reflexivity. }
  destruct (faults (S (clock w))) eqn:H2.
  { exists [EvStore CreateClient true; EvStore SelectFideIds false], [].
    unfold seed_database, bind, emit, get_db_connection,
      get_existing_fide_ids, bind, request.
    cbn [clock db stdin trace]. rewrite H1. cbn [negb clock db stdin trace].
    rewrite H2. cbn. rewrite <- !app_assoc.
    repeat split; try reflexivity. left; reflexivity. }
  destruct (fs filepath) as [content |] eqn:Hfs.
  2:{ exists [EvStore CreateClient true; EvStore SelectFideIds true], [].
      unfold seed_database, bind, emit, get_db_connection,
        get_existing_fide_ids, bind, request, parse_fide_text_file.
      cbn [clock db stdin trace]. rewrite H1.
      cbn [negb clock db stdin trace]. rewrite H2, Hfs. cbn.
      rewrite <- !app_assoc. repeat split; try reflexivity.
      left; reflexivity. }
  rewrite (seed_database_prologue _ _ _ _ _ H1 H2 Hfs).
  destruct (admitted_players min_rating (db w) content) as [| p ps] eqn:E.
  { exists [EvStore CreateClient true; EvStore SelectFideIds true], [].
    cbn. repeat split; try reflexivity. left; reflexivity. }
  destruct (Date.strptime data_date) as [ymd |] eqn:Hd.
  2:{ exists [EvStore CreateClient true; EvStore SelectFideIds true], [].
      unfold write_players_and_rankings. rewrite Hd. cbn.
      repeat split; try reflexivity. left; reflexivity. }
  rewrite (write_phase _ _ _ _ Hd).
  destruct (run_requests (write_requests ymd (p :: ps))
              (connected filepath data_date w))
    as (n & Hn & _ & _ & Hrun).
  rewrite Hrun. cbn [snd db clock stdin trace connected].
  eexists (EvStore CreateClient true :: EvStore SelectFideIds true
           :: ok_events (take n (write_requests ymd (p :: ps))) ++ _),
          (take n (write_requests ymd (p :: ps))).
  split; [rewrite <- !app_assoc; reflexivity |].
  split.
  { cbn [processed omap]. fold (processed).
    change (processed (ok_events (take n (write_requests ymd (p :: ps)))
              ++ match write_requests ymd (p :: ps) !! n with
                 | Some q => [EvStore q false] | None => [] end) = []).
    rewrite processed_app, processed_ok_events.
    destruct (_ !! n); reflexivity. }
  split; [reflexivity |]. split; [reflexivity |].
  right. exists content, ymd, n. rewrite <- E. repeat split; assumption.
Qed.

End Runs.

(* ===================================================================== *)
(** * Facts about the store's upsert                                     *)
(* ===================================================================== *)

Section UpsertFacts.
Context {Row Key : Type} `{EqDecision Key} (key : Row -> Key).

Lemma has_key_spec (k : Key) (tbl : list Row) :
  has_key key k tbl = true <-> In k (map key tbl).
Proof.
  unfold has_key. rewrite existsb_exists, in_map_iff.
  split; intros (r & H1 & H2); exists r.
  - apply bool_decide_eq_true in H2. split; assumption.
  - split; [assumption | apply bool_decide_eq_true; assumption].
Qed.

Lemma has_key_false (k : Key) (tbl : list Row) :
  has_key key k tbl = false <-> ~ In k (map key tbl).
Proof.
  rewrite <- has_key_spec. destruct (has_key key k tbl); split; congruence.
Qed.

Lemma keys_replace (r : Row) (tbl : list Row) :
  map key (map (fun r' => if bool_decide (key r' = key r) then r else r')
             tbl)
  = map key tbl.
Proof.
  rewrite map_map. apply map_ext. intros r'.
  destruct (bool_decide (key r' = key r)) eqn:E; [| reflexivity].
  apply bool_decide_eq_true in E. congruence.
Qed.

(** The conflict keys after one row: unchanged on a conflict, one more
    otherwise. *)
Lemma keys_upsert_row (mode : ConflictMode) (tbl : list Row) (r : Row) :
  map key (upsert_row key mode tbl r)
  = if has_key key (key r) tbl then map key tbl
    else map key tbl ++ [key r].
Proof.
  unfold upsert_row. destruct (has_key key (key r) tbl).
  - destruct mode; [apply keys_replace | reflexivity].
  - apply map_app.
Qed.

Lemma upsert_row_unique (mode : ConflictMode) (tbl : list Row) (r : Row) :
  NoDup (map key tbl) -> NoDup (map key (upsert_row key mode tbl r)).
Proof.
  intros Hnd. rewrite keys_upsert_row.
  destruct (has_key key (key r) tbl) eqn:Hk; [exact Hnd |].
  apply has_key_false in Hk.
  apply NoDup_app. split; [exact Hnd |]. split.
  - intros k Hin Hin'. apply list_elem_of_In in Hin.
    apply list_elem_of_singleton in Hin'. subst k. contradiction.
  - apply NoDup_singleton.
Qed.

Lemma upsert_cons (mode : ConflictMode) (r : Row) (rows tbl : list Row) :
  upsert key mode (r :: rows) tbl
  = upsert key mode rows (upsert_row key mode tbl r).
Proof. reflexivity. Qed.

Lemma upsert_unique (mode : ConflictMode) (rows tbl : list Row) :
  NoDup (map key tbl) -> NoDup (map key (upsert key mode rows tbl)).
Proof.
  revert tbl. induction rows as [| r rows IH]; intros tbl Hnd;
    [exact Hnd |].
  rewrite upsert_cons. apply IH, upsert_row_unique, Hnd.
Qed.

Lemma upsert_row_keeps_keys (mode : ConflictMode) (tbl : list Row)
    (r : Row) (k : Key) :
  In k (map key tbl) -> In k (map key (upsert_row key mode tbl r)).
Proof.
  intros Hin. rewrite keys_upsert_row.
  destruct (has_key key (key r) tbl); [exact Hin |].
  apply in_or_app. left. exact Hin.
Qed.

Lemma upsert_row_has_key (mode : ConflictMode) (tbl : list Row) (r : Row) :
  In (key r) (map key (upsert_row key mode tbl r)).
Proof.
  rewrite keys_upsert_row.
  destruct (has_key key (key r) tbl) eqn:Hk.
  - apply has_key_spec in Hk. exact Hk.
  - apply in_or_app. right. left. reflexivity.
Qed.

Lemma upsert_keeps_keys (mode : ConflictMode) (rows tbl : list Row)
    (k : Key) :
  In k (map key tbl) -> In k (map key (upsert key mode rows tbl)).
Proof.
  revert tbl. induction rows as [| r rows IH]; intros tbl Hin;
    [exact Hin |].
  rewrite upsert_cons. apply IH, upsert_row_keeps_keys, Hin.
Qed.

Lemma upsert_has_keys (mode : ConflictMode) (rows tbl : list Row)
    (r : Row) :
  In r rows -> In (key r) (map key (upsert key mode rows tbl)).
Proof.
  revert tbl. induction rows as [| r0 rows IH]; intros tbl Hin;
    [destruct Hin |].
  rewrite upsert_cons. destruct Hin as [-> | Hin].
  - apply upsert_keeps_keys, upsert_row_has_key.
  - apply IH, Hin.
Qed.

(** Rows come from the table or from the request. *)
Lemma upsert_row_origin (mode : ConflictMode) (tbl : list Row)
    (r r' : Row) :
  In r' (upsert_row key mode tbl r) -> In r' tbl \/ r' = r.
Proof.
  unfold upsert_row. destruct (has_key key (key r) tbl).
  - destruct mode; [| left; assumption].
    intros Hin. apply in_map_iff in Hin as (x & Hx & Hin).
    destruct (bool_decide (key x = key r)); [right | left]; congruence.
  - intros Hin. apply in_app_or in Hin as [Hin | [<- | []]];
      [left; assumption | right; reflexivity].
Qed.

Lemma upsert_origin (mode : ConflictMode) (rows tbl : list Row)
    (r' : Row) :
  In r' (upsert key mode rows tbl) -> In r' tbl \/ In r' rows.
Proof.
  revert tbl. induction rows as [| r rows IH]; intros tbl Hin;
    [left; exact Hin |].
  rewrite upsert_cons in Hin.
  apply IH in Hin as [Hin | Hin]; [| right; right; exact Hin].
  apply upsert_row_origin in Hin as [Hin | ->];
    [left; exact Hin | right; left; reflexivity].
Qed.

(** Insert-if-absent: a row whose key is taken changes nothing. *)
Lemma upsert_row_ignore_present (tbl : list Row) (r : Row) :
  In (key r) (map key tbl) ->
  upsert_row key IgnoreOnConflict tbl r = tbl.
Proof.
  intros Hin. apply has_key_spec in Hin. unfold upsert_row.
  rewrite Hin. reflexivity.
Qed.

Lemma upsert_row_absent (mode : ConflictMode) (tbl : list Row) (r : Row) :
  ~ In (key r) (map key tbl) -> upsert_row key mode tbl r = tbl ++ [r].
Proof.
  intros Hin. apply has_key_false in Hin. unfold upsert_row.
  rewrite Hin. reflexivity.
Qed.

Lemma upsert_noop (mode : ConflictMode) (rows tbl : list Row) :
  (forall r, In r rows -> upsert_row key mode tbl r = tbl) ->
  upsert key mode rows tbl = tbl.
Proof.
  induction rows as [| r rows IH]; intros H; [reflexivity |].
  rewrite upsert_cons, (H r) by (left; reflexivity).
  apply IH. intros r' Hr'. apply H. right. exact Hr'.
Qed.

Lemma upsert_app (mode : ConflictMode) (rows1 rows2 tbl : list Row) :
  upsert key mode (rows1 ++ rows2) tbl
  = upsert key mode rows2 (upsert key mode rows1 tbl).
Proof. apply fold_left_app. Qed.

Lemma upsert_row_settles (tbl : list Row) (r : Row) :
  settled key (upsert_row key UpdateOnConflict tbl r) r.
Proof.
  split; [apply upsert_row_has_key |].
  unfold upsert_row. destruct (has_key key (key r) tbl) eqn:Hk.
  - intros r' Hin Hkey. apply in_map_iff in Hin as (x & Hx & _).
    destruct (bool_decide (key x = key r)) eqn:E; [congruence |].
    apply bool_decide_eq_false in E. congruence.
  - apply has_key_false in Hk. intros r' Hin Hkey.
    apply in_app_or in Hin as [Hin | [<- | []]]; [| reflexivity].
    exfalso. apply Hk. rewrite <- Hkey. apply in_map. exact Hin.
Qed.

Lemma upsert_row_keeps_settled (tbl : list Row) (r r2 : Row) :
  key r2 <> key r ->
  settled key tbl r -> settled key (upsert_row key UpdateOnConflict tbl r2) r.
Proof.
  intros Hne [Hin Hall]. split; [apply upsert_row_keeps_keys, Hin |].
  intros r' Hr' Hkey.
  apply upsert_row_origin in Hr' as [Hr' | ->]; [| congruence].
  apply Hall; assumption.
Qed.

Lemma upsert_keeps_settled (rows tbl : list Row) (r : Row) :
  ~ In (key r) (map key rows) ->
  settled key tbl r -> settled key (upsert key UpdateOnConflict rows tbl) r.
Proof.
  revert tbl. induction rows as [| r0 rows IH]; intros tbl Hnin Hs;
    [exact Hs |].
  cbn [map] in Hnin. rewrite upsert_cons.
  apply IH; [intros H; apply Hnin; right; exact H |].
  apply upsert_row_keeps_settled; [| exact Hs].
  intros E. apply Hnin. left. exact E.
Qed.

(** After an update-on-conflict request with pairwise distinct keys every
    supplied row is settled. *)
Lemma upsert_settles (rows tbl : list Row) (r : Row) :
  NoDup (map key rows) -> In r rows ->
  settled key (upsert key UpdateOnConflict rows tbl) r.
Proof.
  revert tbl. induction rows as [| r0 rows IH]; intros tbl Hnd Hin;
    [destruct Hin |].
  cbn [map] in Hnd. apply NoDup_cons in Hnd as [Hnin Hnd].
  rewrite upsert_cons. destruct Hin as [-> | Hin].
  - apply upsert_keeps_settled.
    + intros H. apply Hnin, list_elem_of_In, H.
    + apply upsert_row_settles.
  - apply IH; assumption.
Qed.

Lemma upsert_row_settled_noop (mode : ConflictMode) (tbl : list Row)
    (r : Row) :
  settled key tbl r -> upsert_row key mode tbl r = tbl.
Proof.
  intros [Hin Hall]. unfold upsert_row.
  apply has_key_spec in Hin. rewrite Hin. destruct mode; [| reflexivity].
  rewrite <- (map_id tbl) at 2. apply map_ext_in. intros r' Hr'.
  destruct (bool_decide (key r' = key r)) eqn:E; [| reflexivity].
  apply bool_decide_eq_true in E. symmetry. apply Hall; assumption.
Qed.

End UpsertFacts.

(* ===================================================================== *)
(** * Batches                                                            *)
(* ===================================================================== *)

Lemma list_slice_batch {A} (i : nat) (l : list A) :
  Py.list_slice i (i + batch_size) l = take batch_size (drop i l).
Proof.
  unfold Py.list_slice. replace (i + batch_size - i)%nat with batch_size by lia.
  reflexivity.
Qed.

Lemma batches_unfold (ps : list Player) :
  batches ps
  = map (fun k => take batch_size (drop (k * batch_size) ps))
      (seq 0 ((length ps + batch_size - 1) / batch_size)).
Proof.
  unfold batches, Py.range_step. rewrite map_map.
  apply map_ext. intros k. apply list_slice_batch.
Qed.

Lemma chunks_concat {A} (n : nat) :
  forall l : list A,
    (length l <= n * batch_size)%nat ->
    concat (map (fun k => take batch_size (drop (k * batch_size) l))
              (seq 0 n)) = l.
Proof.
  induction n as [| n IH]; intros l Hlen.
  - destruct l; [reflexivity | simpl in Hlen; lia].
  - cbn [seq map concat]. rewrite <- seq_shift, map_map.
    cbn [Nat.mul]. change (drop 0 l) with l.
    transitivity (take batch_size l ++ drop batch_size l);
      [| apply take_drop].
    f_equal.
    etransitivity;
      [| apply (IH (drop batch_size l)); rewrite length_drop; lia].
    f_equal. apply map_ext. intros k. rewrite drop_drop. reflexivity.
Qed.

Lemma batch_count_bounds (n : nat) :
  (n <= (n + batch_size - 1) / batch_size * batch_size)%nat
  /\ ((n + batch_size - 1) / batch_size * batch_size < n + batch_size)%nat.
Proof.
  unfold batch_size.
  pose proof (Nat.div_mod_eq (n + 100 - 1) 100) as H.
  pose proof (Nat.mod_upper_bound (n + 100 - 1) 100 ltac:(lia)) as H'.
  lia.
Qed.

(** The batches are consecutive pieces of the list. *)
Lemma batches_concat (ps : list Player) : concat (batches ps) = ps.
Proof.
  rewrite batches_unfold. apply chunks_concat.
  apply batch_count_bounds.
Qed.

Lemma batches_length (ps : list Player) :
  length (batches ps) = ((length ps + batch_size - 1) / batch_size)%nat.
Proof. rewrite batches_unfold, length_map, length_seq. reflexivity. Qed.

(** Every batch but the last has exactly 100 records, the last one has
    between 1 and 100. *)
Lemma batches_sizes (ps : list Player) (k : nat) (b : list Player) :
  batches ps !! k = Some b ->
  (1 <= length b <= batch_size)%nat
  /\ ((S k < length (batches ps))%nat -> length b = batch_size)
  /\ b = take batch_size (drop (k * batch_size) ps).
Proof.
  intros Hk. pose proof (batches_length ps) as Hlen.
  rewrite batches_unfold in Hk.
  change (map ?f ?l) with (f <$> l) in Hk.
  rewrite list_lookup_fmap in Hk.
  destruct (seq 0 _ !! k) as [k' |] eqn:Hs; [| discriminate].
  apply lookup_seq in Hs as [-> Hlt]. cbn in Hk. injection Hk as <-.
  pose proof (batch_count_bounds (length ps)) as [Hb1 Hb2].
  rewrite length_take, length_drop. rewrite Hlen.
  unfold batch_size in *. repeat split; try lia.
Qed.

Lemma batches_members (ps b : list Player) (p : Player) :
  In b (batches ps) -> In p b -> In p ps.
Proof.
  intros Hb Hp. rewrite <- (batches_concat ps). apply in_concat.
  exists b. split; assumption.
Qed.

(* ===================================================================== *)
(** * The batch writer                                                   *)
(* ===================================================================== *)

(** C10. When the parser returns no record, [seed_database] returns
    normally right after reading the file: the only calls made on the
    client are the connection and the read of the identifiers, no upsert
    is sent in either pass, and both tables are left as they were. *)
Theorem C10_no_records_no_writes (fs : string -> option string)
    (faults : nat -> bool) (filepath data_date : string) (min_rating : Z)
    (w : World) (content : string) :
  faults (clock w) = false ->
  faults (S (clock w)) = false ->
  fs filepath = Some content ->
  admitted_players min_rating (db w) content = [] ->
  let res := seed_database fs faults filepath data_date min_rating w in
  res.1 = Ok tt
  /\ players_table (db res.2) = players_table (db w)
  /\ rankings_table (db res.2) = rankings_table (db w)
  /\ new_events w res.2 = [EvSeed filepath data_date;
                           EvStore CreateClient true;
                           EvStore SelectFideIds true].
Proof.
  intros H1 H2 Hfs Hnil res. subst res.
  rewrite (seed_database_prologue _ _ _ _ _ _ _ H1 H2 Hfs), Hnil.
  cbn [fst snd connected db]. repeat split.
  unfold new_events. cbn [trace]. apply drop_app_length.
Qed.

(** A list that only holds a header and a record below the threshold. *)
Lemma C10_no_records_no_writes_witness :
  (seed_database
     (Sample.one_file "list.txt" (Sample.header +:+ Sample.below))
     Sample.no_faults "list.txt" "2025-01-01" 2500 Sample.world0).1 = Ok tt.
Proof.
  refine (proj1 (C10_no_records_no_writes
                   (Sample.one_file "list.txt"
                      (Sample.header +:+ Sample.below))
                   Sample.no_faults "list.txt" "2025-01-01" 2500
                   Sample.world0 (Sample.header +:+ Sample.below)
                   eq_refl eq_refl eq_refl _)).
  vm_compute. reflexivity.
Defined.

(** C7. The records are cut into consecutive batches of 100, the last one
    possibly shorter, and both passes send one upsert per batch. The
    calls are made in order until the first one that fails: the calls
    before it have taken effect and stay in the store, no later batch of
    either pass is sent, and the run ends with the error. *)
Theorem C7_chunked_writes (fs : string -> option string)
    (faults : nat -> bool) (filepath data_date : string) (min_rating : Z)
    (w : World) (content : string) (ymd : Z * Z * Z) :
  faults (clock w) = false ->
  faults (S (clock w)) = false ->
  fs filepath = Some content ->
  Date.strptime data_date = Some ymd ->
  let ps := admitted_players min_rating (db w) content in
  let reqs := write_requests ymd ps in
  concat (batches ps) = ps
  /\ (forall k b, batches ps !! k = Some b ->
        (1 <= length b <= 100)%nat
        /\ ((S k < length (batches ps))%nat -> length b = 100%nat))
  /\ reqs = map (fun b => UpsertPlayers (player_data b) UpdateOnConflict)
              (batches ps)
            ++ map (fun b => UpsertRankings
                               (ranking_data (Date.date_isoformat ymd)
                                  (Date.datetime_isoformat ymd)
                                  "historical" b)
                               IgnoreOnConflict)
                 (batches ps)
  /\ exists n,
       (n <= length reqs)%nat
       /\ (forall k, (k < n)%nat -> faults (S (S (clock w)) + k)%nat = false)
       /\ ((n < length reqs)%nat -> faults (S (S (clock w)) + n)%nat = true)
       /\ seed_database fs faults filepath data_date min_rating w
          = (if (n <? length reqs)%nat then Raise APIError else Ok tt,
             {| db := apply_requests (take n reqs) (db w);
                clock := (S (S (clock w))
                          + (if (n <? length reqs)%nat then S n else n))%nat;
                stdin := stdin w;
                trace := trace w
                         ++ [EvSeed filepath data_date;
                             EvStore CreateClient true;
                             EvStore SelectFideIds true]
                         ++ ok_events (take n reqs)
                         ++ match reqs !! n with
                            | Some q => [EvStore q false]
                            | None => []
                            end |}).
Proof.
  intros H1 H2 Hfs Hd ps reqs.
  split; [apply batches_concat |].
  split; [intros k b Hk; apply batches_sizes in Hk as (Hs & Hf & _);
          split; assumption |].
  split; [reflexivity |].
  destruct (run_requests faults reqs (connected filepath data_date w))
    as (n & Hn & Hok & Hfail & Hrun).
  exists n. split; [exact Hn |]. split; [exact Hok |].
  split; [exact Hfail |].
  rewrite (seed_database_run _ _ _ _ _ _ _ _ H1 H2 Hfs Hd).
  fold ps. fold reqs. rewrite Hrun. cbn [connected db clock stdin trace].
  rewrite <- app_assoc. reflexivity.
Qed.

(** The sample list is written in one batch per pass. *)
Lemma C7_chunked_writes_witness :
  concat (batches
            (admitted_players 2500 (db Sample.world0)
               (Sample.header +:+ Sample.carlsen)))
  = admitted_players 2500 (db Sample.world0)
      (Sample.header +:+ Sample.carlsen).
Proof.
  refine (proj1 (C7_chunked_writes
                   (Sample.one_file "list.txt"
                      (Sample.header +:+ Sample.carlsen))
                   Sample.no_faults "list.txt" "2025-01-01" 2500
                   Sample.world0 (Sample.header +:+ Sample.carlsen)
                   (2025, 1, 1) eq_refl eq_refl eq_refl _)).
  vm_compute. reflexivity.
Defined.

(** ** Every outcome of a seeding run *)

Section Outcome.
Variable fs : string -> option string.
Variable faults : nat -> bool.

(** A run either stops before any upsert (a failed connection or read, a
    missing file, a malformed date), or finds nothing to write, or sends
    its upserts in order up to the first failure. *)
Lemma seed_database_outcome (filepath data_date : string)
    (min_rating : Z) (w : World) :
  (exists pre e,
      Forall is_prologue_event pre
      /\ seed_database fs faults filepath data_date min_rating w
         = (Raise e,
            {| db := db w;
               clock := clock w + length pre;
               stdin := stdin w;
               trace := trace w ++ EvSeed filepath data_date :: pre |}))
  \/ (exists content,
        fs filepath = Some content
        /\ admitted_players min_rating (db w) content = []
        /\ seed_database fs faults filepath data_date min_rating w
           = (Ok tt, connected filepath data_date w))
  \/ (exists content ymd n,
        fs filepath = Some content
        /\ Date.strptime data_date = Some ymd
        /\ (n <= length (write_requests ymd
                           (admitted_players min_rating (db w) content)))%nat
        /\ seed_database fs faults filepath data_date min_rating w
           = (if (n <? length (write_requests ymd
                                 (admitted_players min_rating (db w)
                                    content)))%nat
              then Raise APIError else Ok tt,
              {| db := apply_requests
                         (take n (write_requests ymd
                                    (admitted_players min_rating (db w)
                                       content)))
                         (db w);
                 clock := S (S (clock w))
                          + (if (n <? length
                                        (write_requests ymd
                                           (admitted_players min_rating
                                              (db w) content)))%nat
                             then S n else n);
                 stdin := stdin w;
                 trace := trace w
                          ++ [EvSeed filepath data_date;
                              EvStore CreateClient true;
                              EvStore SelectFideIds true]
                          ++ ok_events
                               (take n (write_requests ymd
                                          (admitted_players min_rating
                                             (db w) content)))
                          ++ match write_requests ymd
                                     (admitted_players min_rating (db w)
                                        content) !! n with
                             | Some q => [EvStore q false]
                             | None => []
                             end |})).
Proof.
  assert (Hc : is_prologue_event (EvStore CreateClient true))
    by (exists true; left; reflexivity).
  assert (Hs : is_prologue_event (EvStore SelectFideIds true))
    by (exists true; right; reflexivity).
  destruct (faults (clock w)) eqn:H1.
  { left. exists [EvStore CreateClient false], APIError. split.
    - repeat constructor. exists false. left. reflexivity.
    - unfold seed_database, bind, emit, get_db_connection, request.
      cbn [clock db stdin trace]. rewrite H1. cbn.
      rewrite <- app_assoc, Nat.add_1_r. reflexivity. }
  destruct (faults (S (clock w))) eqn:H2.
  { left. exists [EvStore CreateClient true; EvStore SelectFideIds false],
      APIError. split.
    - repeat constructor; [exact Hc |]. exists false. right. reflexivity.
    - unfold seed_database, bind, emit, get_db_connection,
        get_existing_fide_ids, bind, request.
      cbn [clock db stdin trace]. rewrite H1.
      cbn [negb clock db stdin trace]. rewrite H2. cbn.
      rewrite <- !app_assoc. do 2 f_equal. f_equal. lia. }
  destruct (fs filepath) as [content |] eqn:Hfs.
  2:{ left. exists [EvStore CreateClient true; EvStore SelectFideIds true],
        FileNotFoundError. split; [repeat constructor; assumption |].
      unfold seed_database, bind, emit, get_db_connection,
        get_existing_fide_ids, bind, request, parse_fide_text_file.
      cbn [clock db stdin trace]. rewrite H1.
      cbn [negb clock db stdin trace]. rewrite H2, Hfs. cbn.
      rewrite <- !app_assoc. do 2 f_equal. f_equal. lia. }
  rewrite (seed_database_prologue _ _ _ _ _ _ _ H1 H2 Hfs).
  destruct (admitted_players min_rating (db w) content) as [| p ps] eqn:E.
  { right. left. exists content. rewrite E. repeat split. }
  destruct (Date.strptime data_date) as [ymd |] eqn:Hd.
  2:{ left. exists [EvStore CreateClient true; EvStore SelectFideIds true],
        ValueError. split; [repeat constructor; assumption |].
      unfold write_players_and_rankings. rewrite Hd.
      unfold raise, connected. cbn [length]. do 2 f_equal. lia. }
  right. right. exists content, ymd.
  rewrite (write_phase _ _ _ _ _ Hd). rewrite E.
  destruct (run_requests faults (write_requests ymd (p :: ps))
              (connected filepath data_date w))
    as (n & Hn & _ & _ & Hrun).
  exists n. split; [reflexivity |]. split; [reflexivity |].
  split; [exact Hn |]. rewrite Hrun.
  cbn [connected db clock stdin trace]. rewrite <- app_assoc. reflexivity.
Qed.

End Outcome.

(** ** The effect of the two passes on the store *)

Lemma apply_requests_app (reqs1 reqs2 : list Request) (d : DB) :
  apply_requests (reqs1 ++ reqs2) d
  = apply_requests reqs2 (apply_requests reqs1 d).
Proof. apply fold_left_app. Qed.

Lemma player_data_app (b1 b2 : list Player) :
  player_data (b1 ++ b2) = player_data b1 ++ player_data b2.
Proof. apply map_app. Qed.

Lemma ranking_data_app (sd sa src : string) (b1 b2 : list Player) :
  ranking_data sd sa src (b1 ++ b2)
  = ranking_data sd sa src b1 ++ ranking_data sd sa src b2.
Proof. apply map_app. Qed.

Lemma apply_identity (bs : list (list Player)) :
  forall d,
    apply_requests
      (map (fun b => UpsertPlayers (player_data b) UpdateOnConflict) bs) d
    = {| players_table :=
           upsert player_key UpdateOnConflict (player_data (concat bs))
             (players_table d);
         rankings_table := rankings_table d |}.
Proof.
  induction bs as [| b bs IH]; intros d; [destruct d; reflexivity |].
  cbn [map concat]. change (apply_requests (?q :: ?l) d)
    with (apply_requests l (apply_request q d)).
  rewrite IH. cbn [apply_request players_table rankings_table].
  rewrite player_data_app, upsert_app. reflexivity.
Qed.

Lemma apply_observation (sd sa src : string) (bs : list (list Player)) :
  forall d,
    apply_requests
      (map (fun b => UpsertRankings (ranking_data sd sa src b)
                       IgnoreOnConflict) bs) d
    = {| players_table := players_table d;
         rankings_table :=
           upsert ranking_key IgnoreOnConflict
             (ranking_data sd sa src (concat bs)) (rankings_table d) |}.
Proof.
  induction bs as [| b bs IH]; intros d; [destruct d; reflexivity |].
  cbn [map concat]. change (apply_requests (?q :: ?l) d)
    with (apply_requests l (apply_request q d)).
  rewrite IH. cbn [apply_request players_table rankings_table].
  rewrite ranking_data_app, upsert_app. reflexivity.
Qed.

Lemma in_concat_take {A} (n : nat) (ls : list (list A)) (x : A) :
  In x (concat (take n ls)) -> In x (concat ls).
Proof.
  intros H. apply in_concat in H as (l & Hl & Hx). apply in_concat.
  exists l. split; [| exact Hx].
  rewrite <- (take_drop n ls). apply in_or_app. left. exact Hl.
Qed.

(** The store after any prefix of the calls of one run: the players of the
    identity batches sent so far, then the observations of the
    observation batches sent so far. *)
Lemma apply_write_prefix (ymd : Z * Z * Z) (ps : list Player) (n : nat)
    (d : DB) :
  apply_requests (take n (write_requests ymd ps)) d
  = {| players_table :=
         upsert player_key UpdateOnConflict
           (player_data (concat (take n (batches ps)))) (players_table d);
       rankings_table :=
         upsert ranking_key IgnoreOnConflict
           (ranking_data (Date.date_isoformat ymd)
              (Date.datetime_isoformat ymd) "historical"
              (concat (take (n - length (batches ps)) (batches ps))))
           (rankings_table d) |}.
Proof.
  unfold write_requests, identity_pass, observation_pass.
  rewrite take_app, length_map, apply_requests_app, !firstn_map.
  rewrite apply_identity, apply_observation. reflexivity.
Qed.

Lemma write_prefix_integrity (ymd : Z * Z * Z) (ps : list Player) (n : nat)
    (d : DB) :
  referential_integrity d ->
  referential_integrity (apply_requests (take n (write_requests ymd ps)) d).
Proof.
  intros Hri. rewrite apply_write_prefix. intros r Hr.
  cbn [players_table rankings_table] in *.
  change (map pr_fide_id ?t) with (map player_key t).
  apply upsert_origin in Hr as [Hr | Hr].
  - apply upsert_keeps_keys. apply Hri. exact Hr.
  - apply in_map_iff in Hr as (p & <- & Hp). cbn [rk_fide_id].
    destruct (decide (n <= length (batches ps))%nat) as [Hle | Hgt].
    { replace (n - length (batches ps))%nat with 0%nat in Hp by lia.
      destruct Hp. }
    rewrite take_ge by lia. rewrite batches_concat.
    apply in_concat_take in Hp. rewrite batches_concat in Hp.
    change (fide_id p)
      with (player_key {| pr_fide_id := fide_id p; pr_name := name p;
                          pr_birth_year := birth_year p |}).
    apply upsert_has_keys. unfold player_data.
    apply in_map_iff. exists p. split; [reflexivity | exact Hp].
Qed.

Lemma apply_request_unique (q : Request) (d : DB) :
  unique_observations d -> unique_observations (apply_request q d).
Proof.
  unfold unique_observations. destruct q; cbn; try exact id.
  apply upsert_unique.
Qed.

Lemma apply_requests_unique (reqs : list Request) :
  forall d, unique_observations d ->
            unique_observations (apply_requests reqs d).
Proof.
  induction reqs as [| q reqs IH]; intros d Hu; [exact Hu |].
  apply IH, apply_request_unique, Hu.
Qed.

(** ** Order of the two passes *)

Lemma in_take_In {A} (n : nat) (l : list A) (x : A) :
  In x (take n l) -> In x l.
Proof.
  intros H. rewrite <- (take_drop n l). apply in_or_app. left. exact H.
Qed.

Lemma lookup_In {A} (l : list A) (i : nat) (x : A) :
  l !! i = Some x -> In x l.
Proof. intros H. apply list_elem_of_In. eapply list_elem_of_lookup_2, H. Qed.

Lemma identity_pass_events (ps : list Player) (n : nat) :
  Forall is_identity_event (ok_events (take n (identity_pass ps))).
Proof.
  apply Forall_forall. intros e He. apply list_elem_of_In in He.
  apply in_map_iff in He as (q & <- & Hq). apply in_take_In in Hq.
  apply in_map_iff in Hq as (b & <- & _). eexists _, true. reflexivity.
Qed.

Lemma observation_pass_events (ymd : Z * Z * Z) (ps : list Player)
    (n : nat) :
  Forall is_observation_event (ok_events (take n (observation_pass ymd ps))).
Proof.
  apply Forall_forall. intros e He. apply list_elem_of_In in He.
  apply in_map_iff in He as (q & <- & Hq). apply in_take_In in Hq.
  apply in_map_iff in Hq as (b & <- & _). eexists _, true. reflexivity.
Qed.

(** An observation row is sent only for a player whose identity row is in
    the identity request of the same batch. *)
Lemma observation_has_identity (ymd : Z * Z * Z) (ps : list Player)
    (q : Request) (rows : list RankingRow) (mode : ConflictMode)
    (r : RankingRow) :
  In q (observation_pass ymd ps) ->
  q = UpsertRankings rows mode ->
  In r rows ->
  exists rowsP,
    In (EvStore (UpsertPlayers rowsP UpdateOnConflict) true)
       (ok_events (identity_pass ps))
    /\ In (rk_fide_id r) (map pr_fide_id rowsP).
Proof.
  intros Hq -> Hr. apply in_map_iff in Hq as (b & Hb & Hin).
  injection Hb as <- <-. apply in_map_iff in Hr as (p & <- & Hp).
  exists (player_data b). split.
  - unfold ok_events, identity_pass. rewrite map_map.
    apply in_map_iff. exists b. split; [reflexivity | exact Hin].
  - unfold player_data. rewrite map_map. cbn [rk_fide_id pr_fide_id].
    apply in_map_iff. exists p. split; [reflexivity | exact Hp].
Qed.

(** C6. The events of one run of [seed_database] read: the start, the
    connection and the read of the identifiers, then upserts of the
    identity pass, then upserts of the observation pass. As soon as one
    observation upsert is sent, the identity pass is there in full and
    every call of it succeeded; each observation row sent carries a
    fide_id that an identity upsert of the same run has written; and a
    store in which every observation refers to a stored player stays so. *)
Theorem C6_identity_before_observation (fs : string -> option string)
    (faults : nat -> bool) (filepath data_date : string) (min_rating : Z)
    (w : World) :
  let w' := (seed_database fs faults filepath data_date min_rating w).2 in
  (referential_integrity (db w) -> referential_integrity (db w'))
  /\ exists prologue ids obs,
       new_events w w' = EvSeed filepath data_date :: prologue ++ ids ++ obs
       /\ Forall is_prologue_event prologue
       /\ Forall is_identity_event ids
       /\ Forall is_observation_event obs
       /\ (obs <> [] ->
           exists content,
             fs filepath = Some content
             /\ ids = ok_events
                        (identity_pass
                           (admitted_players min_rating (db w) content)))
       /\ (forall rows mode ok r,
             In (EvStore (UpsertRankings rows mode) ok) obs ->
             In r rows ->
             exists rowsP,
               In (EvStore (UpsertPlayers rowsP UpdateOnConflict) true) ids
               /\ In (rk_fide_id r) (map pr_fide_id rowsP)).
Proof.
  intros w'. subst w'.
  destruct (seed_database_outcome fs faults filepath data_date min_rating w)
    as [(pre & e & Hpre & Hrun)
       | [(content & Hfs & Hnil & Hrun)
         | (content & ymd & n & Hfs & Hd & Hn & Hrun)]];
    rewrite Hrun; clear Hrun; cbn [snd db connected]; unfold new_events;
    cbn [trace connected]; rewrite drop_app_length.
  - split; [exact id |]. exists pre, [], []. rewrite !app_nil_r.
    repeat split; try constructor; try assumption.
    + intros H; contradiction.
    + intros rows mode ok r [].
  - split; [exact id |].
    exists [EvStore CreateClient true; EvStore SelectFideIds true], [], [].
    repeat split; try constructor.
    + exists true. left. reflexivity.
    + constructor; [| constructor]. exists true. right. reflexivity.
    + intros H; contradiction.
    + intros rows mode ok r [].
  - split; [apply write_prefix_integrity |].
    set (ps := admitted_players min_rating (db w) content) in *.
    exists [EvStore CreateClient true; EvStore SelectFideIds true].
    unfold write_requests in *. rewrite length_app in Hn.
    destruct (decide (n < length (identity_pass ps))%nat) as [Hlt | Hge].
    + destruct (lookup_lt_is_Some_2 (identity_pass ps) n Hlt) as [q Hq].
      exists (ok_events (take n (identity_pass ps)) ++ [EvStore q false]), [].
      rewrite take_app_le, lookup_app_l, Hq by lia. rewrite app_nil_r.
      split; [reflexivity |]. split.
      { repeat constructor; exists true; [left | right]; reflexivity. }
      split.
      { apply Forall_app. split; [apply identity_pass_events |].
        repeat constructor. apply lookup_In in Hq.
        apply in_map_iff in Hq as (b & <- & _). eexists _, false.
        reflexivity. }
      split; [constructor |]. split; [intros H; contradiction |].
      intros rows mode ok r [].
    + exists (ok_events (identity_pass ps)),
        (ok_events (take (n - length (identity_pass ps))
                      (observation_pass ymd ps))
         ++ match observation_pass ymd ps
                  !! (n - length (identity_pass ps))%nat with
            | Some q => [EvStore q false]
            | None => []
            end).
      rewrite take_app_ge, lookup_app_r by lia.
      split.
      { unfold ok_events. rewrite map_app, <- !app_assoc. reflexivity. }
      split.
      { repeat constructor; exists true; [left | right]; reflexivity. }
      split.
      { rewrite <- (take_ge (identity_pass ps) (length (identity_pass ps)))
          by lia. apply identity_pass_events. }
      split.
      { apply Forall_app. split; [apply observation_pass_events |].
        destruct (_ !! _) as [q |] eqn:Hq; [| constructor].
        repeat constructor. apply lookup_In in Hq.
        apply in_map_iff in Hq as (b & <- & _). eexists _, false.
        reflexivity. }
      split; [intros _; exists content; split; [exact Hfs | reflexivity] |].
      intros rows mode ok r He Hr.
      apply in_app_or in He as [He | He].
      * apply in_map_iff in He as (q & Hq & Hin). injection Hq as -> _.
        apply in_take_In in Hin.
        eapply observation_has_identity; [exact Hin | reflexivity | exact Hr].
      * destruct (_ !! _) as [q |] eqn:Hq; [| destruct He].
        destruct He as [He | []]. injection He as -> _.
        apply lookup_In in Hq.
        eapply observation_has_identity; [exact Hq | reflexivity | exact Hr].
Qed.

(** On the empty store the sample list is written with its identity row
    first. *)
Lemma C6_identity_before_observation_witness :
  referential_integrity
    (db (seed_database
           (Sample.one_file "list.txt" (Sample.header +:+ Sample.carlsen))
           Sample.no_faults "list.txt" "2025-01-01" 2500 Sample.world0).2).
Proof.
  refine (proj1 (C6_identity_before_observation
                   (Sample.one_file "list.txt"
                      (Sample.header +:+ Sample.carlsen))
                   Sample.no_faults "list.txt" "2025-01-01" 2500
                   Sample.world0) _).
  intros r Hr. destruct Hr.
Defined.

(** ** Uniqueness of observations *)

Lemma filter_absent_key {Row Key : Type} `{EqDecision Key}
    (key : Row -> Key) (k : Key) (tbl : list Row) :
  ~ In k (map key tbl) ->
  List.filter (fun r => bool_decide (key r = k)) tbl = [].
Proof.
  induction tbl as [| r tbl IH]; intros Hnin; [reflexivity |].
  cbn [List.filter]. cbn [map] in Hnin.
  rewrite bool_decide_eq_false_2 by (intros E; apply Hnin; left; exact E).
  apply IH. intros H. apply Hnin. right. exact H.
Qed.

Lemma write_requests_mode (ymd : Z * Z * Z) (ps : list Player)
    (rows : list RankingRow) (mode : ConflictMode) :
  In (UpsertRankings rows mode) (write_requests ymd ps) ->
  mode = IgnoreOnConflict.
Proof.
  intros H. apply in_app_or in H as [H | H];
    apply in_map_iff in H as (b & Hb & _); [discriminate |].
  injection Hb as _ <-. reflexivity.
Qed.

Section Writers.
Variable fs : string -> option string.
Variable faults : nat -> bool.

(** [seed_database] sends its observation upserts in insert-if-absent
    mode only. *)
Lemma seed_database_mode (filepath data_date : string) (min_rating : Z)
    (w : World) (rows : list RankingRow) (mode : ConflictMode)
    (ok : bool) :
  In (EvStore (UpsertRankings rows mode) ok)
     (new_events w
        (seed_database fs faults filepath data_date min_rating w).2) ->
  mode = IgnoreOnConflict.
Proof.
  destruct (seed_database_outcome fs faults filepath data_date
              min_rating w)
    as [(pre & e & Hpre & Hrun)
       | [(content & Hfs & Hnil & Hrun)
         | (content & ymd & n & Hfs & Hd & Hn & Hrun)]];
    rewrite Hrun; clear Hrun; unfold new_events;
    cbn [snd trace connected]; rewrite drop_app_length; intros H.
  - destruct H as [H | H]; [discriminate |].
    rewrite Forall_forall in Hpre. apply list_elem_of_In, Hpre in H.
    destruct H as (b & [H | H]); discriminate.
  - destruct H as [H | [H | [H | []]]]; discriminate.
  - cbn [app] in H. destruct H as [H | [H | [H | H]]]; try discriminate.
    apply in_app_or in H as [H | H].
    + apply in_map_iff in H as (q & Hq & Hin). injection Hq as -> _.
      apply in_take_In in Hin. eapply write_requests_mode, Hin.
    + destruct (_ !! n) as [q |] eqn:Hq; [| destruct H].
      destruct H as [H | []]. injection H as -> _.
      apply lookup_In in Hq. eapply write_requests_mode, Hq.
Qed.

(** The calls of [upload_rankings] that take effect, and the mode of its
    observation upsert. *)
Lemma upload_rankings_effect (ups : list Player) (today now : string)
    (w : World) :
  (exists reqs,
      db (upload_rankings faults ups today now w).2
      = apply_requests reqs (db w))
  /\ forall rows mode ok,
       In (EvStore (UpsertRankings rows mode) ok)
          (new_events w (upload_rankings faults ups today now w).2) ->
       mode = IgnoreOnConflict.
Proof.
  remember (upload_rankings faults ups today now w) as res eqn:Hres.
  unfold upload_rankings in Hres. destruct ups as [| p ups].
  { subst res. split; [exists []; reflexivity |].
    unfold new_events. cbn. rewrite drop_all. intros ? ? ? []. }
  unfold bind at 1 in Hres. unfold get_db_connection, request at 1 in Hres.
  cbn [clock db stdin trace] in Hres.
  destruct (faults (clock w)); cbn [negb] in Hres.
  { subst res. cbn [snd db]. split; [exists []; reflexivity |].
    unfold new_events. cbn [trace]. rewrite drop_app_length.
    intros ? ? ? [H | []]. discriminate. }
  rewrite try_except_reraise in Hres. unfold bind, request in Hres.
  cbn [clock db stdin trace] in Hres.
  destruct (faults (S (clock w))); cbn [negb clock db stdin trace] in Hres.
  { subst res. cbn [snd db]. split; [exists [CreateClient]; reflexivity |].
    unfold new_events. cbn [trace]. rewrite <- app_assoc, drop_app_length.
    intros ? ? ? [H | [H | []]]; discriminate. }
  destruct (faults (S (S (clock w)))); cbn [negb] in Hres.
  { subst res. cbn [snd db].
    split; [exists [CreateClient;
                    UpsertPlayers (player_data (p :: ups))
                      UpdateOnConflict]; reflexivity |].
    unfold new_events. cbn [trace].
    rewrite <- !app_assoc, drop_app_length.
    intros ? ? ? [H | [H | [H | []]]]; try discriminate.
    injection H as _ <- _. reflexivity. }
  subst res. cbn [snd db].
  split; [exists [CreateClient;
                  UpsertPlayers (player_data (p :: ups)) UpdateOnConflict;
                  UpsertRankings
                    (ranking_data today now "scraper" (p :: ups))
                    IgnoreOnConflict]; reflexivity |].
  unfold new_events. cbn [trace]. rewrite <- !app_assoc, drop_app_length.
  intros ? ? ? [H | [H | [H | []]]]; try discriminate.
  injection H as _ <- _. reflexivity.
Qed.

End Writers.

(** C3. In the store as the specification describes it, the pair
    (fide_id, scraped_date) stays unique under every upsert; an
    insert-if-absent upsert of a row whose key is taken changes nothing,
    so that two rows with one fresh key leave exactly the first one
    behind. Both writers, [seed_database] and [upload_rankings], send
    their observations in that mode and keep the pair unique. *)
Theorem C3_unique_observations (fs : string -> option string)
    (faults : nat -> bool) (filepath data_date : string) (min_rating : Z)
    (ups : list Player) (today now : string) (w : World)
    (tbl : list RankingRow) (r1 r2 : RankingRow) :
  unique_observations (db w) ->
  NoDup (map ranking_key tbl) ->
  ranking_key r1 = ranking_key r2 ->
  let seeded := (seed_database fs faults filepath data_date min_rating w).2 in
  let uploaded := (upload_rankings faults ups today now w).2 in
  unique_observations (db seeded)
  /\ unique_observations (db uploaded)
  /\ (forall rows mode ok,
        In (EvStore (UpsertRankings rows mode) ok) (new_events w seeded)
        \/ In (EvStore (UpsertRankings rows mode) ok) (new_events w uploaded)
        -> mode = IgnoreOnConflict)
  /\ (forall mode rows,
        NoDup (map ranking_key (upsert ranking_key mode rows tbl)))
  /\ (In (ranking_key r2) (map ranking_key tbl) ->
      upsert ranking_key IgnoreOnConflict [r2] tbl = tbl)
  /\ (~ In (ranking_key r1) (map ranking_key tbl) ->
      upsert ranking_key IgnoreOnConflict [r1; r2] tbl = tbl ++ [r1]
      /\ List.filter
           (fun r => bool_decide (ranking_key r = ranking_key r1))
           (upsert ranking_key IgnoreOnConflict [r1; r2] tbl)
         = [r1]).
Proof.
  intros Hu Hnd Hkey seeded uploaded.
  split; [| split; [| split; [| split; [| split]]]].
  - subst seeded.
    destruct (seed_database_effect fs faults filepath data_date
                min_rating w) as (evs & reqs & _ & _ & _ & Hdb & _).
    rewrite Hdb. apply apply_requests_unique, Hu.
  - subst uploaded.
    destruct (upload_rankings_effect faults ups today now w)
      as [(reqs & Hdb) _].
    rewrite Hdb. apply apply_requests_unique, Hu.
  - intros rows mode ok [H | H].
    + eapply seed_database_mode, H.
    + eapply upload_rankings_effect, H.
  - intros mode rows. apply upsert_unique, Hnd.
  - intros Hin. cbn [upsert fold_left].
    apply upsert_row_ignore_present, Hin.
  - intros Hnin.
    assert (E : upsert ranking_key IgnoreOnConflict [r1; r2] tbl
                = tbl ++ [r1]).
    { cbn [upsert fold_left]. rewrite (upsert_row_absent _ _ _ r1 Hnin).
      apply upsert_row_ignore_present. rewrite <- Hkey, map_app.
      apply in_or_app. right. left. reflexivity. }
    split; [exact E |]. rewrite E, List.filter_app. cbn [List.filter].
    rewrite bool_decide_eq_true_2 by reflexivity.
    rewrite (filter_absent_key ranking_key _ _ Hnin). reflexivity.
Qed.

(* ===================================================================== *)
(** * Running the same list twice                                        *)
(* ===================================================================== *)

(** ** The parser and the snapshot *)

(** Whether a line is counted as invalid depends on the line alone. *)
Lemma parse_line_invalid (min_rating : Z) (existing : gset string)
    (line : string) :
  parse_line min_rating existing line = SkippedInvalid
  <-> line_is_valid line = false.
Proof.
  unfold line_is_valid, parse_line.
  destruct (String.length line <? 123)%nat; [split; reflexivity |].
  destruct (Py.is_empty _ || Py.is_empty _ || Py.is_empty _);
    [split; reflexivity |].
  destruct (Py.int_of_str _) as [r |]; [| split; reflexivity].
  destruct ((r <? min_rating) && _), ((r <? 0) && _);
    split; discriminate.
Qed.

Lemma parse_line_accepted_id (min_rating : Z) (existing : gset string)
    (line : string) (p : Player) :
  parse_line min_rating existing line = Accepted p ->
  line_is_valid line = true /\ fide_id p = line_fide_id line.
Proof.
  intros H. split.
  - destruct (line_is_valid line) eqn:E; [reflexivity |].
    apply (parse_line_invalid min_rating existing) in E. congruence.
  - apply parse_line_accepted in H as (_ & H & _). exact H.
Qed.

(** A larger snapshot keeps every accepted line accepted, with the same
    record. *)
Lemma parse_line_accepted_mono (min_rating : Z) (ex1 ex2 : gset string)
    (line : string) (p : Player) :
  ex1 ⊆ ex2 ->
  parse_line min_rating ex1 line = Accepted p ->
  parse_line min_rating ex2 line = Accepted p.
Proof.
  intros Hsub. unfold parse_line.
  destruct (String.length line <? 123)%nat; [discriminate |].
  destruct (Py.is_empty _ || Py.is_empty _ || Py.is_empty _);
    [discriminate |].
  destruct (Py.int_of_str _) as [r |]; [| discriminate].
  destruct (r <? min_rating); cbn [andb]; [| exact id].
  destruct (bool_decide (_ ∈ ex1)) eqn:E1; cbn [negb]; [| discriminate].
  apply bool_decide_eq_true in E1.
  rewrite bool_decide_eq_true_2 by (apply Hsub, E1). exact id.
Qed.

(** A line dropped for its rating is valid, unknown to the snapshot, and
    dropped under every snapshot that does not know it. *)
Lemma parse_line_low (min_rating : Z) (ex1 ex2 : gset string)
    (line : string) :
  parse_line min_rating ex1 line = SkippedLowRating ->
  line_is_valid line = true
  /\ (line_fide_id line ∉ ex2 ->
      parse_line min_rating ex2 line = SkippedLowRating).
Proof.
  intros H. split.
  - destruct (line_is_valid line) eqn:E; [reflexivity |].
    apply (parse_line_invalid min_rating ex1) in E. congruence.
  - revert H. unfold parse_line, line_fide_id.
    destruct (String.length line <? 123)%nat; [discriminate |].
    destruct (Py.is_empty _ || Py.is_empty _ || Py.is_empty _);
      [discriminate |].
    destruct (Py.int_of_str _) as [r |]; [| discriminate].
    destruct (r <? min_rating); cbn [andb]; [| discriminate].
    intros _ Hnin. rewrite bool_decide_eq_false_2 by exact Hnin.
    reflexivity.
Qed.

Lemma fold_left_agree {A B} (f g : A -> B -> A) (l : list B) :
  (forall x, In x l -> forall a, f a x = g a x) ->
  forall a, fold_left f l a = fold_left g l a.
Proof.
  induction l as [| x l IH]; intros H a; [reflexivity |].
  cbn [fold_left]. rewrite (H x) by (left; reflexivity).
  apply IH. intros y Hy. apply H. right. exact Hy.
Qed.

(** Distinct identifiers on the valid lines give distinct identifiers in
    the records returned. *)
Lemma parse_fold_distinct (min_rating : Z) (existing : gset string)
    (l : list string) :
  forall st,
    NoDup (map fide_id (players st)
           ++ map line_fide_id (List.filter line_is_valid l)) ->
    NoDup (map fide_id
             (players (fold_left (parse_step min_rating existing) l st))).
Proof.
  induction l as [| x l IH]; intros st Hnd.
  - cbn in Hnd. rewrite app_nil_r in Hnd. exact Hnd.
  - cbn [fold_left]. apply IH. cbn [List.filter] in Hnd.
    unfold parse_step.
    destruct (parse_line min_rating existing x) as [| | p] eqn:Hx;
      cbn [players].
    + apply parse_line_invalid in Hx. rewrite Hx in Hnd. exact Hnd.
    + apply (parse_line_low _ _ ∅) in Hx as [Hv _]. rewrite Hv in Hnd.
      cbn [map] in Hnd. apply NoDup_app in Hnd as (Ha & Hd & Hb).
      apply NoDup_cons in Hb as [_ Hb].
      apply NoDup_app. split; [exact Ha |]. split; [| exact Hb].
      intros y Hy Hy'. apply (Hd y Hy). right. exact Hy'.
    + apply parse_line_accepted_id in Hx as [Hv Hid]. rewrite Hv in Hnd.
      cbn [map] in Hnd. rewrite map_app, <- app_assoc. cbn [map app].
      rewrite Hid. exact Hnd.
Qed.

Lemma NoDup_map_inj {A B} (f : A -> B) (l : list A) (x y : A) :
  NoDup (map f l) -> In x l -> In y l -> f x = f y -> x = y.
Proof.
  induction l as [| a l IH]; intros Hnd Hx Hy Hf; [destruct Hx |].
  cbn [map] in Hnd. apply NoDup_cons in Hnd as [Hnin Hnd].
  rewrite list_elem_of_In in Hnin.
  destruct Hx as [-> | Hx], Hy as [-> | Hy].
  - reflexivity.
  - exfalso. apply Hnin. rewrite Hf. apply in_map, Hy.
  - exfalso. apply Hnin. rewrite <- Hf. apply in_map, Hx.
  - apply IH; assumption.
Qed.

(** When no identifier comes on two valid lines, adding to the snapshot
    the identifiers of the records just returned does not change what the
    parser returns. *)
Lemma parse_lines_stable (min_rating : Z) (ex1 ex2 : gset string)
    (lines : list string) :
  NoDup (map line_fide_id (List.filter line_is_valid (data_lines lines))) ->
  ex1 ⊆ ex2 ->
  (forall fid, fid ∈ ex2 ->
     fid ∈ ex1
     \/ In fid (map fide_id (players (parse_lines min_rating ex1 lines)))) ->
  parse_lines min_rating ex2 lines = parse_lines min_rating ex1 lines.
Proof.
  intros Hnd Hsub Hnew. unfold parse_lines at 1 2.
  apply fold_left_agree. intros line Hline st. unfold parse_step.
  destruct (parse_line min_rating ex1 line) as [| | p] eqn:H1.
  - apply parse_line_invalid in H1.
    apply (parse_line_invalid min_rating ex2) in H1. rewrite H1. reflexivity.
  - destruct (parse_line_low _ _ ex2 _ H1) as [Hv Hlow].
    destruct (decide (line_fide_id line ∈ ex2)) as [Hin | Hnin];
      [| rewrite (Hlow Hnin); reflexivity].
    exfalso. destruct (Hnew _ Hin) as [Hin1 | Hin1].
    + destruct (parse_line_low _ _ ex1 _ H1) as [_ Hlow1].
      unfold parse_line, line_fide_id in H1, Hin1. revert H1.
      destruct (String.length line <? 123)%nat; [discriminate |].
      destruct (Py.is_empty _ || Py.is_empty _ || Py.is_empty _);
        [discriminate |].
      destruct (Py.int_of_str _) as [r |]; [| discriminate].
      rewrite (bool_decide_eq_true_2 _ Hin1), andb_false_r. discriminate.
    + apply in_map_iff in Hin1 as (p & Hp & Hin1).
      unfold parse_lines in Hin1.
      apply players_of_fold in Hin1 as [[] | (line' & Hl' & Hacc)].
      destruct (parse_line_accepted_id _ _ _ _ Hacc) as [Hv' Hid'].
      assert (E : line' = line).
      { apply (NoDup_map_inj line_fide_id _ _ _ Hnd).
        - apply filter_In. split; assumption.
        - apply filter_In. split; assumption.
        - congruence. }
      subst line'. congruence.
  - rewrite (parse_line_accepted_mono _ _ _ _ _ Hsub H1). reflexivity.
Qed.

(** ** The store after a complete run *)

Lemma apply_write_all (ymd : Z * Z * Z) (ps : list Player) (d : DB) :
  apply_requests (write_requests ymd ps) d
  = {| players_table :=
         upsert player_key UpdateOnConflict (player_data ps)
           (players_table d);
       rankings_table :=
         upsert ranking_key IgnoreOnConflict
           (ranking_data (Date.date_isoformat ymd)
              (Date.datetime_isoformat ymd) "historical" ps)
           (rankings_table d) |}.
Proof.
  rewrite <- (take_ge (write_requests ymd ps)
                (length (write_requests ymd ps))) at 1 by lia.
  rewrite apply_write_prefix.
  unfold write_requests, identity_pass, observation_pass.
  rewrite length_app, !length_map, !take_ge by lia.
  rewrite batches_concat. reflexivity.
Qed.

Lemma existing_ids_spec (d : DB) (fid : string) :
  fid ∈ existing_ids d <-> In fid (map player_key (players_table d)).
Proof.
  unfold existing_ids. rewrite elem_of_list_to_set, list_elem_of_In.
  reflexivity.
Qed.

(** After a complete run the snapshot holds the former identifiers and
    those of the records written, and nothing else. *)
Lemma existing_ids_after (ymd : Z * Z * Z) (ps : list Player) (d : DB)
    (fid : string) :
  fid ∈ existing_ids (apply_requests (write_requests ymd ps) d)
  <-> fid ∈ existing_ids d \/ In fid (map fide_id ps).
Proof.
  rewrite !existing_ids_spec, apply_write_all. cbn [players_table].
  split.
  - intros H. apply in_map_iff in H as (r & <- & Hr).
    apply upsert_origin in Hr as [Hr | Hr].
    + left. apply in_map, Hr.
    + right. apply in_map_iff in Hr as (p & <- & Hp).
      cbn [player_key pr_fide_id]. apply in_map, Hp.
  - intros [H | H].
    + apply upsert_keeps_keys, H.
    + apply in_map_iff in H as (p & <- & Hp).
      change (fide_id p)
        with (player_key {| pr_fide_id := fide_id p; pr_name := name p;
                            pr_birth_year := birth_year p |}).
      apply upsert_has_keys. apply in_map_iff. exists p.
      split; [reflexivity | exact Hp].
Qed.

(** Once a list with pairwise distinct identifiers is written in full,
    sending any prefix of the same calls again changes nothing. *)
Lemma rewrite_prefix_noop (ymd : Z * Z * Z) (ps : list Player) (n : nat)
    (d : DB) :
  NoDup (map fide_id ps) ->
  apply_requests (take n (write_requests ymd ps))
    (apply_requests (write_requests ymd ps) d)
  = apply_requests (write_requests ymd ps) d.
Proof.
  intros Hnd. rewrite apply_write_prefix, apply_write_all.
  cbn [players_table rankings_table]. f_equal.
  - apply upsert_noop. intros r Hr. apply upsert_row_settled_noop.
    apply upsert_settles.
    + unfold player_data. rewrite map_map. exact Hnd.
    + apply in_map_iff in Hr as (p & <- & Hp). apply in_concat_take in Hp.
      rewrite batches_concat in Hp. unfold player_data.
      apply in_map_iff. exists p. split; [reflexivity | exact Hp].
  - apply upsert_noop. intros r Hr. apply upsert_row_ignore_present.
    apply upsert_has_keys.
    apply in_map_iff in Hr as (p & <- & Hp). apply in_concat_take in Hp.
    rewrite batches_concat in Hp. unfold ranking_data.
    apply in_map_iff. exists p. split; [reflexivity | exact Hp].
Qed.

(** C4 (amended). For a list in which no fide_id comes on more than one
    valid line: once a seeding run has completed, running the same file
    and date again from the store it left, whatever happens to the calls
    of the second run, leaves both tables exactly as the first run left
    them. *)
Theorem C4_rerun_idempotent (fs : string -> option string)
    (faults1 faults2 : nat -> bool) (filepath data_date : string)
    (min_rating : Z) (w0 w1 : World) (content : string) :
  fs filepath = Some content ->
  NoDup (map line_fide_id
           (List.filter line_is_valid
              (data_lines (Py.readlines content)))) ->
  (seed_database fs faults1 filepath data_date min_rating w0).1 = Ok tt ->
  db w1 = db (seed_database fs faults1 filepath data_date min_rating w0).2 ->
  db (seed_database fs faults2 filepath data_date min_rating w1).2 = db w1.
Proof.
  intros Hfs Hnd Hok Hdb.
  assert (Hps : NoDup (map fide_id
                         (admitted_players min_rating (db w0) content))).
  { unfold admitted_players, parse_lines. apply parse_fold_distinct.
    exact Hnd. }
  (* the first run *)
  assert (Hfirst :
    exists ymd1,
      db w1 = apply_requests
                (write_requests ymd1
                   (admitted_players min_rating (db w0) content)) (db w0)
      /\ (admitted_players min_rating (db w0) content <> [] ->
          Date.strptime data_date = Some ymd1)).
  { destruct (seed_database_outcome fs faults1 filepath data_date
                min_rating w0)
      as [(pre & e & _ & Hrun)
         | [(content' & Hfs' & Hnil & Hrun)
           | (content' & ymd & n & Hfs' & Hd & Hn & Hrun)]];
      rewrite Hrun in Hok, Hdb; cbn [fst snd db connected] in Hok, Hdb.
    - discriminate.
    - assert (content' = content) by congruence. subst content'.
      exists (0, 0, 0). rewrite Hnil. split; [exact Hdb | congruence].
    - assert (content' = content) by congruence. subst content'.
      exists ymd. split; [| intros _; exact Hd].
      destruct (n <? _)%nat eqn:Hlt; [discriminate |].
      apply Nat.ltb_ge in Hlt. rewrite take_ge in Hdb by lia. exact Hdb. }
  destruct Hfirst as (ymd1 & Hdb1 & Hdate).
  (* the second run admits the same records *)
  assert (Hsame : admitted_players min_rating (db w1) content
                  = admitted_players min_rating (db w0) content).
  { unfold admitted_players. f_equal. apply parse_lines_stable.
    - exact Hnd.
    - intros fid Hin. rewrite Hdb1. apply existing_ids_after. left.
      exact Hin.
    - intros fid Hin. rewrite Hdb1 in Hin.
      apply existing_ids_after in Hin. exact Hin. }
  destruct (seed_database_outcome fs faults2 filepath data_date
              min_rating w1)
    as [(pre & e & _ & Hrun)
       | [(content' & Hfs' & Hnil & Hrun)
         | (content' & ymd & n & Hfs' & Hd & Hn & Hrun)]];
    rewrite Hrun; cbn [snd db connected]; try reflexivity.
  assert (content' = content) by congruence. subst content'.
  rewrite Hsame.
  destruct (admitted_players min_rating (db w0) content) as [| p ps] eqn:E.
  - unfold write_requests, identity_pass, observation_pass.
    rewrite batches_nil. cbn. rewrite take_nil. reflexivity.
  - assert (ymd1 = ymd)
      by (specialize (Hdate ltac:(discriminate)); congruence).
    subst ymd1. rewrite Hdb1. apply rewrite_prefix_noop. exact Hps.
Qed.

Lemma C4_rerun_idempotent_witness :
  let fs := Sample.one_file "list.txt" (Sample.header +:+ Sample.carlsen) in
  let first :=
    seed_database fs Sample.no_faults "list.txt" "2025-01-01" 2500
      Sample.world0 in
  db (seed_database fs Sample.no_faults "list.txt" "2025-01-01" 2500
        first.2).2
  = db first.2.
Proof.
  intros fs first.
  assert (Hnd : NoDup (map line_fide_id
                         (List.filter line_is_valid
                            (data_lines
                               (Py.readlines
                                  (Sample.header +:+ Sample.carlsen))))))
    by (vm_compute; apply NoDup_singleton).
  assert (Hok : first.1 = Ok tt) by (vm_compute; reflexivity).
  exact (C4_rerun_idempotent fs Sample.no_faults Sample.no_faults
           "list.txt" "2025-01-01" 2500 Sample.world0 first.2
           (Sample.header +:+ Sample.carlsen) eq_refl Hnd Hok eq_refl).
Defined.

(** C4 as stated fails. In [Sample.twice_list] the identifier 777 comes
    twice. On the empty store the first run writes the line rated 2600 and
    drops the one rated 2400; the second run finds 777 in the snapshot,
    admits the line rated 2400 as well, and its second identity batch
    overwrites the name the first run had written. *)
Lemma C4_rerun_changes_player :
  ~ (forall (fs : string -> option string) (faults : nat -> bool)
       (filepath data_date : string) (min_rating : Z) (w0 : World),
       let first :=
         seed_database fs faults filepath data_date min_rating w0 in
       let second :=
         seed_database fs faults filepath data_date min_rating first.2 in
       first.1 = Ok tt -> db second.2 = db first.2).
Proof.
  intros H.
  specialize (H (Sample.one_file "list.txt" Sample.twice_list)
                Sample.no_faults "list.txt" "2025-01-01" 2500
                Sample.world0).
  cbv zeta in H.
  assert (Hok : (seed_database
                   (Sample.one_file "list.txt" Sample.twice_list)
                   Sample.no_faults "list.txt" "2025-01-01" 2500
                   Sample.world0).1 = Ok tt) by (vm_compute; reflexivity).
  pose proof (H Hok) as Hdb.
  apply (f_equal (fun d => map pr_name (take 1 (players_table d)))) in Hdb.
  vm_compute in Hdb. discriminate.
Qed.

Lemma C3_unique_observations_witness :
  upsert ranking_key IgnoreOnConflict
    [Sample.obs_first; Sample.obs_second] []
  = [Sample.obs_first].
Proof.
  assert (Hu : unique_observations (db Sample.world0))
    by (apply NoDup_nil_2).
  assert (Hnd : NoDup (map ranking_key [])) by (apply NoDup_nil_2).
  pose proof (C3_unique_observations
                (Sample.one_file "list.txt"
                   (Sample.header +:+ Sample.carlsen))
                Sample.no_faults "list.txt" "2025-01-01" 2500
                [Sample.carlsen_player] "2025-01-01" "2025-01-01T09:30:00"
                Sample.world0 [] Sample.obs_first Sample.obs_second
                Hu Hnd eq_refl) as H.
  cbv zeta in H. destruct H as (_ & _ & _ & _ & _ & H).
  destruct H as [H _]; [intros [] | exact H].
Defined.

(* ===================================================================== *)
(** * String order and [sorted]                                          *)
(* ===================================================================== *)

Lemma ltb_false_leb (a b : string) :
  String.ltb b a = false <-> String.leb a b = true.
Proof.
  unfold String.ltb, String.leb. rewrite (String.compare_antisym a b).
  destruct (String.compare b a); simpl; split; congruence.
Qed.

Lemma ltb_true_leb (a b : string) :
  String.ltb a b = true -> String.leb a b = true.
Proof.
  unfold String.ltb, String.leb. destruct (String.compare a b); congruence.
Qed.

Lemma leb_cons (x y : ascii) (s t : string) :
  String.leb (String x s) (String y t) = true
  <-> (Py.ord x < Py.ord y)%N \/ (x = y /\ String.leb s t = true).
Proof.
  unfold String.leb. cbn [String.compare]. unfold Ascii.compare, Py.ord.
  destruct (N.compare_spec (N_of_ascii x) (N_of_ascii y)) as [E | L | G].
  - assert (x = y).
    { rewrite <- (ascii_N_embedding x), <- (ascii_N_embedding y), E.
      reflexivity. }
    subst y. split; [intros H; right; split; [reflexivity | exact H] |].
    intros [H | [_ H]]; [lia | exact H].
  - split; [intros _; left; exact L | reflexivity].
  - split; [discriminate |]. intros [H | [-> _]]; lia.
Qed.

Lemma leb_refl (s : string) : String.leb s s = true.
Proof.
  induction s as [| c s IH]; [reflexivity |].
  apply leb_cons. right. split; [reflexivity | exact IH].
Qed.

Lemma leb_trans (a : string) :
  forall b c,
    String.leb a b = true -> String.leb b c = true -> String.leb a c = true.
Proof.
  induction a as [| x a IH]; intros [| y b] [| z c] Hab Hbc;
    try reflexivity; try discriminate.
  apply leb_cons in Hab. apply leb_cons in Hbc. apply leb_cons.
  destruct Hab as [Hab | [-> Hab]], Hbc as [Hbc | [-> Hbc]].
  - left. lia.
  - left. exact Hab.
  - left. exact Hbc.
  - right. split; [reflexivity |]. eapply IH; eassumption.
Qed.

Lemma ltb_irrefl (s : string) : String.ltb s s = false.
Proof. apply ltb_false_leb, leb_refl. Qed.

Section Sorted.
Context {A : Type} (key : A -> string).

Lemma insert_by_key_perm (x : A) (l : list A) :
  Permutation (Py.insert_by_key key x l) (x :: l).
Proof.
  induction l as [| y l IH]; cbn [Py.insert_by_key]; [reflexivity |].
  destruct (String.ltb (key y) (key x)); [| reflexivity].
  rewrite IH. apply perm_swap.
Qed.

Lemma sorted_perm (l : list A) : Permutation (Py.sorted key l) l.
Proof.
  induction l as [| x l IH]; cbn [Py.sorted]; [reflexivity |].
  rewrite insert_by_key_perm, IH. reflexivity.
Qed.

Lemma insert_by_key_sorted (x : A) (l : list A) :
  StronglySorted (key_le key) l ->
  StronglySorted (key_le key) (Py.insert_by_key key x l).
Proof.
  induction 1 as [| y l Hs IH Hy]; cbn [Py.insert_by_key].
  - repeat constructor.
  - destruct (String.ltb (key y) (key x)) eqn:E.
    + constructor; [exact IH |].
      rewrite insert_by_key_perm. constructor; [| exact Hy].
      apply ltb_true_leb, E.
    + apply ltb_false_leb in E.
      constructor; [constructor; assumption |].
      constructor; [exact E |].
      eapply Forall_impl; [exact Hy |].
      intros z Hz. eapply leb_trans; eassumption.
Qed.

Lemma sorted_sorted (l : list A) : StronglySorted (key_le key) (Py.sorted key l).
Proof.
  induction l as [| x l IH]; cbn [Py.sorted]; [constructor |].
  apply insert_by_key_sorted, IH.
Qed.

(** Stability: the elements with a given key keep their input order. *)
Lemma insert_by_key_stable (k : string) (x : A) (l : list A) :
  List.filter (fun a => bool_decide (key a = k)) (Py.insert_by_key key x l)
  = List.filter (fun a => bool_decide (key a = k)) (x :: l).
Proof.
  induction l as [| y l IH]; cbn [Py.insert_by_key]; [reflexivity |].
  destruct (String.ltb (key y) (key x)) eqn:E; [| reflexivity].
  cbn [List.filter] in *. rewrite IH.
  destruct (bool_decide (key y = k)) eqn:Ey,
           (bool_decide (key x = k)) eqn:Ex; try reflexivity.
  apply bool_decide_eq_true in Ey, Ex. rewrite Ey, Ex, ltb_irrefl in E.
  discriminate.
Qed.

Lemma sorted_stable (k : string) (l : list A) :
  List.filter (fun a => bool_decide (key a = k)) (Py.sorted key l)
  = List.filter (fun a => bool_decide (key a = k)) l.
Proof.
  induction l as [| x l IH]; cbn [Py.sorted]; [reflexivity |].
  rewrite insert_by_key_stable. cbn [List.filter]. rewrite IH.
  reflexivity.
Qed.

Lemma sorted_length (l : list A) : length (Py.sorted key l) = length l.
Proof. apply Permutation_length, sorted_perm. Qed.

End Sorted.

(** ** Dates in ISO format sort like the calendar *)

Lemma digit_char_ord (d : Z) :
  Py.ord (Date.digit_char d) = Z.to_N (48 + d mod 10).
Proof.
  unfold Py.ord, Date.digit_char, Py.chr. apply N_ascii_embedding.
  pose proof (Z.mod_pos_bound d 10 ltac:(lia)). lia.
Qed.

Lemma digit_char_lt (a b : Z) :
  (Py.ord (Date.digit_char a) < Py.ord (Date.digit_char b))%N ->
  a mod 10 < b mod 10.
Proof.
  rewrite !digit_char_ord.
  pose proof (Z.mod_pos_bound a 10 ltac:(lia)).
  pose proof (Z.mod_pos_bound b 10 ltac:(lia)). lia.
Qed.

Lemma digit_char_eq (a b : Z) :
  Date.digit_char a = Date.digit_char b -> a mod 10 = b mod 10.
Proof.
  intros H. apply (f_equal Py.ord) in H. rewrite !digit_char_ord in H.
  pose proof (Z.mod_pos_bound a 10 ltac:(lia)).
  pose proof (Z.mod_pos_bound b 10 ltac:(lia)). lia.
Qed.

Lemma dash_not_lt (c : ascii) : ~ (Py.ord c < Py.ord c)%N.
Proof. lia. Qed.

Lemma digits2 (n : Z) :
  0 <= n <= 99 -> n = 10 * ((n / 10) mod 10) + n mod 10.
Proof. intros H. Z.to_euclidean_division_equations. lia. Qed.

Lemma digits4 (n : Z) :
  0 <= n <= 9999 ->
  n = 1000 * ((n / 1000) mod 10) + 100 * ((n / 100) mod 10)
      + 10 * ((n / 10) mod 10) + n mod 10.
Proof. intros H. Z.to_euclidean_division_equations. lia. Qed.

(** For calendar dates written by [isoformat], Python's string order is
    the order of the calendar. *)
Lemma isoformat_leb_calendar (a b : Z * Z * Z) :
  Date.valid_ymd a -> Date.valid_ymd b ->
  String.leb (Date.date_isoformat a) (Date.date_isoformat b) = true ->
  Date.ymd_le a b.
Proof.
  destruct a as [[y1 m1] d1], b as [[y2 m2] d2].
  unfold Date.valid_ymd, Date.ymd_le, Date.date_isoformat, Date.pad4,
    Date.pad2.
  intros Va Vb H. cbv [String.append] in H.
  repeat match goal with
         | H : String.leb (String _ _) (String _ _) = true |- _ =>
             apply leb_cons in H; destruct H as [H | [? H]]
         end.
  all: repeat match goal with
              | H : (Py.ord ?c < Py.ord ?c)%N |- _ =>
                  exfalso; exact (dash_not_lt c H)
              | H : (Py.ord (Date.digit_char _)
                     < Py.ord (Date.digit_char _))%N |- _ =>
                  apply digit_char_lt in H
              | H : Date.digit_char _ = Date.digit_char _ |- _ =>
                  apply digit_char_eq in H
              end.
  all: pose proof (digits4 y1 ltac:(lia)); pose proof (digits4 y2 ltac:(lia));
    pose proof (digits2 m1 ltac:(lia)); pose proof (digits2 m2 ltac:(lia));
    pose proof (digits2 d1 ltac:(lia)); pose proof (digits2 d2 ltac:(lia)).
  all: repeat match goal with
              | |- context [?x mod 10] =>
                  let v := fresh "v" in
                  pose proof (Z.mod_pos_bound x 10 ltac:(lia));
                  generalize dependent (x mod 10); intros v; intros
              | H : context [?x mod 10] |- _ =>
                  let v := fresh "v" in
                  pose proof (Z.mod_pos_bound x 10 ltac:(lia));
                  generalize dependent (x mod 10); intros v; intros
              end.
  all: lia.
Qed.

(* ===================================================================== *)
(** * The orchestrator                                                   *)
(* ===================================================================== *)

Lemma lower_y (response : string) :
  Py.lower response = "y" <-> response = "y" \/ response = "Y".
Proof.
  split.
  - destruct response as [| c [| c' s]]; cbn; try discriminate.
    intros H. injection H as H.
    destruct c as [[] [] [] [] [] [] [] []]; vm_compute in H;
      try discriminate; first [left; reflexivity | right; reflexivity].
  - intros [-> | ->]; reflexivity.
Qed.

Section Orchestrator.
Variable fs : string -> option string.
Variable faults : nat -> bool.

(** One turn of the loop. *)
Lemma seed_loop_step (filepath data_date : string)
    (rest : list (string * string)) (min_rating : Z) (w : World) :
  seed_loop fs faults ((filepath, data_date) :: rest) min_rating w
  = match seed_database fs faults filepath data_date min_rating w with
    | (Ok _, w0) => seed_loop fs faults rest min_rating w0
    | (Raise _, w0) =>
        match stdin w0 with
        | [] => (Raise EOFError, w0)
        | response :: more =>
            if bool_decide (Py.lower response = "y")
            then seed_loop fs faults rest min_rating
                   (answered response more w0)
            else (Ok tt, answered response more w0)
        end
    end.
Proof.
  cbn [seed_loop]. unfold bind at 1, try_except, bind at 1.
  destruct (seed_database fs faults filepath data_date min_rating w)
    as [[[] | e] w0]; [reflexivity |].
  unfold bind, input. destruct (stdin w0) as [| response more];
    [reflexivity |].
  unfold ret, answered. destruct (bool_decide _); reflexivity.
Qed.

(** The sources started by the loop are a prefix of its queue; the first
    source is always started; and the whole queue is started when every
    answer available at the prompt is a yes. *)
Lemma seed_loop_processed (queue : list (string * string))
    (min_rating : Z) :
  forall w,
    exists evs n,
      trace (seed_loop fs faults queue min_rating w).2 = trace w ++ evs
      /\ processed evs = take n queue
      /\ (queue <> [] -> (0 < n)%nat)
      /\ ((forall response, In response (stdin w) ->
                            Py.lower response = "y") ->
          (length queue <= length (stdin w))%nat ->
          processed evs = queue).
Proof.
  induction queue as [| [filepath data_date] rest IH]; intros w.
  { exists [], 0%nat. cbn. rewrite app_nil_r. repeat split; congruence. }
  rewrite seed_loop_step.
  destruct (seed_database_effect fs faults filepath data_date
              min_rating w) as (evs0 & reqs & Htr & Hpr & Hin & _).
  destruct (seed_database fs faults filepath data_date min_rating w)
    as [[[] | e] w0]; cbn [snd] in Htr, Hin.
  - destruct (IH w0) as (evs1 & n & Htr1 & Hpr1 & _ & Hall).
    exists (EvSeed filepath data_date :: evs0 ++ evs1), (S n).
    split; [rewrite Htr1, Htr, <- app_assoc; reflexivity |].
    assert (Hp : processed (EvSeed filepath data_date :: evs0 ++ evs1)
                 = (filepath, data_date) :: processed evs1).
    { change (processed (EvSeed filepath data_date :: ?l))
        with ((filepath, data_date) :: processed l).
      rewrite processed_app, Hpr. reflexivity. }
    rewrite Hp. split; [rewrite Hpr1; reflexivity |].
    split; [intros _; lia |].
    intros Hy Hlen. f_equal. apply Hall.
    + rewrite Hin. exact Hy.
    + rewrite Hin. cbn [length] in Hlen. lia.
  - assert (Hp0 : processed (EvSeed filepath data_date :: evs0)
                  = [(filepath, data_date)]).
    { change (processed (EvSeed filepath data_date :: ?l))
        with ((filepath, data_date) :: processed l).
      rewrite Hpr. reflexivity. }
    destruct (stdin w0) as [| response more] eqn:Hstd.
    { exists (EvSeed filepath data_date :: evs0), 1%nat.
      cbn [snd]. split; [exact Htr |]. rewrite Hp0.
      split; [reflexivity |]. split; [intros _; lia |].
      intros _ Hlen. rewrite <- Hin in Hlen. cbn [length] in Hlen. lia. }
    destruct (bool_decide (Py.lower response = "y")) eqn:Hresp.
    + destruct (IH (answered response more w0))
        as (evs1 & n & Htr1 & Hpr1 & _ & Hall).
      exists (EvSeed filepath data_date :: evs0
              ++ EvPrompt response :: evs1), (S n).
      split.
      { rewrite Htr1. cbn [answered trace]. rewrite Htr, <- !app_assoc.
        reflexivity. }
      assert (Hp : processed (EvSeed filepath data_date :: evs0
                              ++ EvPrompt response :: evs1)
                   = (filepath, data_date) :: processed evs1).
      { change (processed (EvSeed filepath data_date :: ?l))
          with ((filepath, data_date) :: processed l).
        rewrite processed_app, Hpr. reflexivity. }
      rewrite Hp. split; [rewrite Hpr1; reflexivity |].
      split; [intros _; lia |].
      intros Hy Hlen. f_equal. apply Hall; cbn [answered stdin].
      * intros r Hr. apply Hy. rewrite <- Hin. right. exact Hr.
      * rewrite <- Hin in Hlen. cbn [length] in Hlen. lia.
    + exists (EvSeed filepath data_date :: evs0 ++ [EvPrompt response]),
        1%nat.
      cbn [snd answered trace]. split; [rewrite Htr, <- app_assoc;
                                        reflexivity |].
      assert (Hp : processed (EvSeed filepath data_date :: evs0
                              ++ [EvPrompt response])
                   = [(filepath, data_date)]).
      { change (processed (EvSeed filepath data_date :: ?l))
          with ((filepath, data_date) :: processed l).
        rewrite processed_app, Hpr. reflexivity. }
      rewrite Hp. split; [reflexivity |]. split; [intros _; lia |].
      intros Hy _. exfalso. apply bool_decide_eq_false in Hresp.
      apply Hresp, Hy. rewrite <- Hin. left. reflexivity.
Qed.

End Orchestrator.

Lemma StronglySorted_lookup {A} (R : A -> A -> Prop) (l : list A) :
  StronglySorted R l ->
  forall i j a b,
    (i < j)%nat -> l !! i = Some a -> l !! j = Some b -> R a b.
Proof.
  induction 1 as [| x l Hs IH Hx]; intros i j a b Hij Hi Hj;
    [discriminate |].
  destruct j as [| j]; [lia |]. cbn in Hj.
  destruct i as [| i].
  - cbn in Hi. injection Hi as <-. rewrite Forall_forall in Hx.
    apply Hx. eapply list_elem_of_lookup_2, Hj.
  - cbn in Hi. apply (IH i j); [lia | assumption | assumption].
Qed.

(** What the sort of the orchestrator does ensure. It works on the list
    sorted by the date strings (a permutation of the input, ascending in
    the order of strings, equal dates in input order); for dates written
    in ISO form, zero-padded, this is the order of the calendar. The
    sources it starts are, in order, the first ones of the sorted list:
    at least the first one, and all of them when the operator never
    declines to go on. Given fileB dated 2025-02-01 before fileA dated
    2025-01-01, fileA is started first. *)
Lemma sorted_by_date_string (fs : string -> option string)
    (faults : nat -> bool) (file_list : list (string * string))
    (min_rating : Z) (w : World) :
  let queue := Py.sorted snd file_list in
  let started :=
    processed
      (new_events w
         (seed_multiple_files fs faults file_list min_rating w).2) in
  Permutation queue file_list
  /\ StronglySorted (key_le snd) queue
  /\ (forall d,
        List.filter (fun x => bool_decide (x.2 = d)) queue
        = List.filter (fun x => bool_decide (x.2 = d)) file_list)
  /\ (forall i j a b ymd_a ymd_b,
        (i < j)%nat -> queue !! i = Some a -> queue !! j = Some b ->
        a.2 = Date.date_isoformat ymd_a ->
        b.2 = Date.date_isoformat ymd_b ->
        Date.valid_ymd ymd_a -> Date.valid_ymd ymd_b ->
        Date.ymd_le ymd_a ymd_b)
  /\ (exists n, started = take n queue /\ (file_list <> [] -> (0 < n)%nat))
  /\ ((forall response, In response (stdin w) -> Py.lower response = "y") ->
      (length file_list <= length (stdin w))%nat ->
      started = queue)
  /\ Py.sorted snd Sample.two_sources = [Sample.file_a; Sample.file_b]
  /\ (forall fs' faults' min_rating' w0,
        let started' :=
          processed
            (new_events w0
               (seed_multiple_files fs' faults' Sample.two_sources
                  min_rating' w0).2) in
        started' = [Sample.file_a]
        \/ started' = [Sample.file_a; Sample.file_b]).
Proof.
  intros queue started.
  assert (Hsorted : StronglySorted (key_le snd) queue)
    by apply sorted_sorted.
  assert (Hrun : forall fs' faults' l m w0,
            exists n,
              processed
                (new_events w0 (seed_multiple_files fs' faults' l m w0).2)
              = take n (Py.sorted snd l)
              /\ (l <> [] -> (0 < n)%nat)
              /\ ((forall response, In response (stdin w0) ->
                                    Py.lower response = "y") ->
                  (length l <= length (stdin w0))%nat ->
                  processed
                    (new_events w0
                       (seed_multiple_files fs' faults' l m w0).2)
                  = Py.sorted snd l)).
  { intros fs' faults' l m w0. unfold seed_multiple_files.
    destruct (seed_loop_processed fs' faults' (Py.sorted snd l) m w0)
      as (evs & n & Htr & Hpr & Hpos & Hall).
    unfold new_events. rewrite Htr, drop_app_length. exists n.
    split; [exact Hpr |]. split.
    - intros Hne. apply Hpos. intros E. apply Hne.
      apply (f_equal length) in E. rewrite sorted_length in E.
      destruct l; [reflexivity | discriminate].
    - intros Hy Hlen. apply Hall; [exact Hy |].
      rewrite sorted_length. exact Hlen. }
  split; [apply sorted_perm |]. split; [exact Hsorted |].
  split; [intros d; apply (sorted_stable snd) |].
  split.
  { intros i j a b ymd_a ymd_b Hij Hi Hj Ha Hb Va Vb.
    apply isoformat_leb_calendar; [exact Va | exact Vb |].
    rewrite <- Ha, <- Hb.
    exact (StronglySorted_lookup _ _ Hsorted i j a b Hij Hi Hj). }
  destruct (Hrun fs faults file_list min_rating w) as (n & Hn & Hpos & Hall).
  split; [exists n; split; assumption |]. split; [exact Hall |].
  split; [reflexivity |].
  intros fs' faults' m w0 started'.
  destruct (Hrun fs' faults' Sample.two_sources m w0) as (k & Hk & Hkpos & _).
  subst started'. rewrite Hk.
  change (Py.sorted snd Sample.two_sources)
    with [Sample.file_a; Sample.file_b].
  specialize (Hkpos ltac:(discriminate)).
  destruct k as [| [| k]]; [lia | left; reflexivity | right].
  cbn [take]. rewrite take_nil. reflexivity.
Qed.

(** With no file on disk both runs fail; the operator says yes once. *)
Lemma sorted_by_date_string_example :
  processed
    (new_events (Sample.world_answering "y")
       (seed_multiple_files Sample.no_files Sample.no_faults
          Sample.two_sources 2500 (Sample.world_answering "y")).2)
  = [Sample.file_a] \/
  processed
    (new_events (Sample.world_answering "y")
       (seed_multiple_files Sample.no_files Sample.no_faults
          Sample.two_sources 2500 (Sample.world_answering "y")).2)
  = [Sample.file_a; Sample.file_b].
Proof.
  pose proof (sorted_by_date_string Sample.no_files Sample.no_faults
                Sample.two_sources 2500 (Sample.world_answering "y")) as H.
  cbv zeta in H. destruct H as (_ & _ & _ & _ & _ & _ & _ & H).
  exact (H Sample.no_files Sample.no_faults 2500
           (Sample.world_answering "y")).
Qed.

(** C2 fails on the code. The sort compares the date strings, not the
    dates: "2025-9-01" and "2025-10-01" are both accepted by [strptime],
    the first is the earlier date, and as strings the second is the
    smaller one. Given fileSep dated 2025-9-01 and fileOct dated
    2025-10-01, in this order, the orchestrator starts fileOct first,
    whatever the disk, the store and the console; with both lists in
    place and a store that answers, it ends normally having worked on
    October before September. *)
Theorem C2_unpadded_dates_out_of_order :
  Date.strptime Sample.file_sep.2 = Some (2025, 9, 1)
  /\ Date.strptime Sample.file_oct.2 = Some (2025, 10, 1)
  /\ Date.ymd_le (2025, 9, 1) (2025, 10, 1)
  /\ ~ Date.ymd_le (2025, 10, 1) (2025, 9, 1)
  /\ Py.sorted snd Sample.unpadded_sources
     = [Sample.file_oct; Sample.file_sep]
  /\ (forall fs faults min_rating w,
        let started :=
          processed
            (new_events w
               (seed_multiple_files fs faults Sample.unpadded_sources
                  min_rating w).2) in
        started = [Sample.file_oct]
        \/ started = [Sample.file_oct; Sample.file_sep])
  /\ (let res := seed_multiple_files Sample.empty_lists Sample.no_faults
                   Sample.unpadded_sources 2500 Sample.world0 in
      res.1 = Ok tt
      /\ processed (trace res.2) = [Sample.file_oct; Sample.file_sep]).
Proof.
  split; [vm_compute; reflexivity |].
  split; [vm_compute; reflexivity |].
  split; [unfold Date.ymd_le; lia |].
  split; [unfold Date.ymd_le; lia |].
  split; [vm_compute; reflexivity |].
  split; [| vm_compute; split; reflexivity].
  intros fs faults min_rating w started. subst started.
  unfold seed_multiple_files.
  change (Py.sorted snd Sample.unpadded_sources)
    with [Sample.file_oct; Sample.file_sep].
  destruct (seed_loop_processed fs faults [Sample.file_oct; Sample.file_sep]
              min_rating w) as (evs & n & Htr & Hpr & Hpos & _).
  unfold new_events. rewrite Htr, drop_app_length, Hpr.
  specialize (Hpos ltac:(discriminate)).
  destruct n as [| [| n]]; [lia | left; reflexivity | right].
  cbn [take]. rewrite take_nil. reflexivity.
Qed.


Section Continuation.
Variable fs : string -> option string.
Variable faults : nat -> bool.

(** A non-empty queue always has its first source started. *)
Lemma seed_loop_starts_head (filepath data_date : string)
    (rest : list (string * string)) (min_rating : Z) (w : World) :
  exists evs,
    trace (seed_loop fs faults ((filepath, data_date) :: rest)
             min_rating w).2
    = trace w ++ EvSeed filepath data_date :: evs.
Proof.
  rewrite seed_loop_step.
  destruct (seed_database_effect fs faults filepath data_date
              min_rating w) as (evs0 & reqs & Htr & _).
  destruct (seed_database fs faults filepath data_date min_rating w)
    as [[[] | e] w0]; cbn [snd] in Htr.
  - destruct (seed_loop_processed fs faults rest min_rating w0)
      as (evs1 & _ & Htr1 & _).
    exists (evs0 ++ evs1). rewrite Htr1, Htr, <- app_assoc. reflexivity.
  - destruct (stdin w0) as [| response more].
    { exists evs0. exact Htr. }
    destruct (bool_decide (Py.lower response = "y")).
    + destruct (seed_loop_processed fs faults rest min_rating
                  (answered response more w0)) as (evs1 & _ & Htr1 & _).
      exists (evs0 ++ EvPrompt response :: evs1).
      rewrite Htr1. cbn [answered trace].
      rewrite Htr, <- !app_assoc. reflexivity.
    + exists (evs0 ++ [EvPrompt response]). cbn [snd answered trace].
      rewrite Htr, <- app_assoc. reflexivity.
Qed.

End Continuation.

(** C9 (amended). When a seeding run fails, the orchestrator reads one
    line from the console. If the answer is y or Y, the loop goes on with
    the rest of the sorted list and starts the next source; any other
    answer ends the loop at once and normally, with no further source
    started and the store as the failed run left it; with no answer
    available the orchestrator itself fails. *)
Theorem C9_continuation_from_console (fs : string -> option string)
    (faults : nat -> bool) (filepath data_date : string)
    (rest : list (string * string)) (min_rating : Z) (w : World) (e : exn) :
  (seed_database fs faults filepath data_date min_rating w).1 = Raise e ->
  let w0 := (seed_database fs faults filepath data_date min_rating w).2 in
  let run :=
    seed_loop fs faults ((filepath, data_date) :: rest) min_rating w in
  (forall file_list w',
      seed_multiple_files fs faults file_list min_rating w'
      = seed_loop fs faults (Py.sorted snd file_list) min_rating w')
  /\ match stdin w0 with
     | [] => run = (Raise EOFError, w0)
     | response :: more =>
         (Py.lower response = "y" <-> response = "y" \/ response = "Y")
         /\ (Py.lower response = "y" ->
             run = seed_loop fs faults rest min_rating
                     (answered response more w0)
             /\ forall next_path next_date rest',
                  rest = (next_path, next_date) :: rest' ->
                  exists evs,
                    trace run.2
                    = trace (answered response more w0)
                      ++ EvSeed next_path next_date :: evs)
         /\ (Py.lower response <> "y" ->
             run = (Ok tt, answered response more w0)
             /\ processed (new_events w run.2) = [(filepath, data_date)])
     end.
Proof.
  intros Hfail w0 run. split; [reflexivity |].
  subst run w0. rewrite seed_loop_step.
  destruct (seed_database_effect fs faults filepath data_date min_rating w)
    as (evs0 & reqs & Htr & Hpr & _).
  destruct (seed_database fs faults filepath data_date min_rating w)
    as [[[] | e'] w0]; cbn [fst snd] in *; [discriminate |].
  destruct (stdin w0) as [| response more]; [reflexivity |].
  split; [apply lower_y |]. split.
  - intros Hy. rewrite (bool_decide_eq_true_2 _ Hy).
    split; [reflexivity |].
    intros next_path next_date rest' ->. apply seed_loop_starts_head.
  - intros Hn. rewrite (bool_decide_eq_false_2 _ Hn).
    split; [reflexivity |].
    unfold new_events. cbn [snd answered trace].
    rewrite Htr, <- app_assoc, drop_app_length, processed_app.
    change (processed (EvSeed filepath data_date :: evs0))
      with ((filepath, data_date) :: processed evs0).
    rewrite Hpr. reflexivity.
Qed.

(** No file is on disk, the first source fails, and the operator answers
    n: the run stops after the first source. *)
Lemma C9_continuation_from_console_witness :
  seed_loop Sample.no_files Sample.no_faults
    [Sample.file_a; Sample.file_b] 2500 (Sample.world_answering "n")
  = (Ok tt,
     answered "n" []
       (seed_database Sample.no_files Sample.no_faults "fileA" "2025-01-01"
          2500 (Sample.world_answering "n")).2).
Proof.
  pose proof (C9_continuation_from_console Sample.no_files Sample.no_faults
                "fileA" "2025-01-01" [Sample.file_b] 2500
                (Sample.world_answering "n") FileNotFoundError eq_refl)
    as H.
  cbv zeta in H. destruct H as [_ H].
  change (stdin (seed_database Sample.no_files Sample.no_faults "fileA"
                   "2025-01-01" 2500 (Sample.world_answering "n")).2)
    with ["n"] in H.
  destruct H as (_ & _ & H).
  destruct H as [H _]; [discriminate | exact H].
Defined.

(** C9 as stated fails: the decision is not handed in by the caller. With
    the same arguments, store and files, the sources started depend on
    what is typed at the console. *)
Lemma C9_decision_read_from_console :
  ~ (forall (fs : string -> option string) (faults : nat -> bool)
       (file_list : list (string * string)) (min_rating : Z)
       (w w' : World),
       db w = db w' -> clock w = clock w' -> trace w = trace w' ->
       processed
         (new_events w
            (seed_multiple_files fs faults file_list min_rating w).2)
       = processed
           (new_events w'
              (seed_multiple_files fs faults file_list min_rating w').2)).
Proof.
  intros H.
  specialize (H Sample.no_files Sample.no_faults Sample.two_sources 2500
                (Sample.world_answering "y") (Sample.world_answering "n")
                eq_refl eq_refl eq_refl).
  vm_compute in H. discriminate.
Qed.

(* ===================================================================== *)
(** * More about the parser                                              *)
(* ===================================================================== *)

(** ** Every data line is accounted for *)

Lemma parse_fold_accounting (min_rating : Z) (existing : gset string)
    (l : list string) :
  forall st,
    (length (players (fold_left (parse_step min_rating existing) l st))
     + skipped_invalid (fold_left (parse_step min_rating existing) l st)
     + skipped_low_rating (fold_left (parse_step min_rating existing) l st)
     = length (players st) + skipped_invalid st + skipped_low_rating st
       + length l)%nat.
Proof.
  induction l as [| x l IH]; intros st; [cbn; lia |].
  cbn [fold_left length]. rewrite IH. unfold parse_step.
  destruct (parse_line min_rating existing x);
    cbn [players skipped_invalid skipped_low_rating];
    rewrite ?length_app; cbn [length]; lia.
Qed.

(** X1. The records returned and the two counters of the summary add up
    to the number of non-blank lines after the header: no line is lost
    and none is counted twice. *)
Theorem parse_lines_accounting (min_rating : Z) (existing : gset string)
    (lines : list string) :
  (length (players (parse_lines min_rating existing lines))
   + skipped_invalid (parse_lines min_rating existing lines)
   + skipped_low_rating (parse_lines min_rating existing lines)
   = length (data_lines lines))%nat.
Proof. unfold parse_lines. rewrite parse_fold_accounting. cbn. lia. Qed.

(** ** The shape of a record *)

Lemma str_take_bound (n : nat) (s : string) :
  (String.length (Py.str_take n s) <= n)%nat.
Proof.
  revert s. induction n as [| n IH]; intros [| c s]; simpl; try lia.
  specialize (IH s). lia.
Qed.

Lemma str_drop_length (n : nat) (s : string) :
  String.length (Py.str_drop n s) = (String.length s - n)%nat.
Proof.
  revert s. induction n as [| n IH]; intros [| c s]; simpl; try lia.
  apply IH.
Qed.

Lemma slice_length (i j : nat) (s : string) :
  (String.length (Py.slice i j s) <= j - i)%nat
  /\ (String.length (Py.slice i j s) <= String.length s - i)%nat.
Proof.
  unfold Py.slice. split; [apply str_take_bound |].
  rewrite <- str_drop_length. apply str_take_length.
Qed.

Lemma field_length (i j : nat) (s : string) :
  (String.length (Py.strip (Py.slice i j s)) <= j - i)%nat
  /\ (String.length (Py.strip (Py.slice i j s)) <= String.length s - i)%nat.
Proof.
  pose proof (strip_length (Py.slice i j s)).
  pose proof (slice_length i j s). lia.
Qed.

(** A sign takes one of the characters, so a negative result has one
    digit less. *)
Lemma int_of_str_bound_signed (s : string) (y : Z) :
  Py.int_of_str s = Some y ->
  - 10 ^ (Z.of_nat (String.length s) - 1) < y
  < 10 ^ Z.of_nat (String.length s).
Proof.
  unfold Py.int_of_str. pose proof (strip_length s) as Hlen.
  destruct (Py.strip s) as [| c t]; [discriminate |].
  cbn [String.length] in Hlen.
  assert (Hmono : forall a b : Z, 0 <= a <= b -> 10 ^ a <= 10 ^ b)
    by (intros a b Hab; apply Z.pow_le_mono_r; lia).
  assert (Hpos : forall a : Z, 0 <= a -> 0 < 10 ^ a)
    by (intros a Ha; apply Z.pow_pos_nonneg; lia).
  pose proof (Hmono (Z.of_nat (String.length t))
                (Z.of_nat (String.length s) - 1) ltac:(lia)) as H1.
  pose proof (Hmono (Z.of_nat (String.length t))
                (Z.of_nat (String.length s)) ltac:(lia)) as H2.
  pose proof (Hmono (Z.of_nat (S (String.length t)))
                (Z.of_nat (String.length s)) ltac:(lia)) as H3.
  pose proof (Hpos (Z.of_nat (String.length s) - 1) ltac:(lia)) as H4.
  destruct (Py.ord c =? 43)%N.
  { intros H. apply int_unsigned_bound in H. lia. }
  destruct (Py.ord c =? 45)%N.
  { destruct (Py.int_unsigned t) as [z |] eqn:Hz; [| discriminate].
    simpl. intros H. injection H as <-. apply int_unsigned_bound in Hz.
    lia. }
  intros H. apply int_unsigned_bound in H. cbn [String.length] in H. lia.
Qed.

Lemma parse_line_accepted_fields (min_rating : Z) (existing : gset string)
    (line : string) (p : Player) :
  parse_line min_rating existing line = Accepted p ->
  federation p = Py.strip (Py.slice 76 79 line)
  /\ sex p = Py.strip (Py.slice 79 80 line)
  /\ title p = None
  /\ rank p = None.
Proof.
  unfold parse_line.
  destruct (String.length line <? 123)%nat; [discriminate |].
  destruct (Py.is_empty _ || Py.is_empty _ || Py.is_empty _);
    [discriminate |].
  destruct (Py.int_of_str _) as [r |]; [| discriminate].
  destruct ((r <? min_rating) && _); [discriminate |].
  intros H. injection H as <-. repeat split.
Qed.

(** X2. Every record returned has a non-empty identifier of at most 15
    characters, a non-empty name of at most 61, a federation of at most
    3 and a sex of at most 1, a rating between -999 and 9999, no title
    and no rank, and it passes the admission test. *)
Theorem parsed_record_shape (min_rating : Z) (existing : gset string)
    (lines : list string) (p : Player) :
  In p (players (parse_lines min_rating existing lines)) ->
  fide_id p <> "" /\ (String.length (fide_id p) <= 15)%nat
  /\ name p <> "" /\ (String.length (name p) <= 61)%nat
  /\ (String.length (federation p) <= 3)%nat
  /\ (String.length (sex p) <= 1)%nat
  /\ -999 <= rating p <= 9999
  /\ title p = None /\ rank p = None
  /\ (min_rating <= rating p \/ fide_id p ∈ existing).
Proof.
  intros Hin. unfold parse_lines in Hin.
  apply players_of_fold in Hin as [[] | (line & _ & Hp)].
  pose proof (parse_line_accepted _ _ _ _ Hp)
    as (_ & Hid & Hid' & Hnm & Hnm' & Hrt & Hadm & _).
  pose proof (parse_line_accepted_fields _ _ _ _ Hp)
    as (Hfed & Hsex & Htitle & Hrank).
  split; [exact Hid' |]. split; [rewrite Hid; apply field_length |].
  split; [exact Hnm' |]. split; [rewrite Hnm; apply field_length |].
  split; [rewrite Hfed; apply field_length |].
  split; [rewrite Hsex; apply field_length |].
  split.
  { apply int_of_str_bound_signed in Hrt.
    pose proof (proj1 (field_length 113 117 line)) as Hl.
    assert (H1 : 10 ^ Z.of_nat
                   (String.length (Py.strip (Py.slice 113 117 line)))
                 <= 10 ^ 4) by (apply Z.pow_le_mono_r; lia).
    destruct (String.length (Py.strip (Py.slice 113 117 line)))
      as [| [| [| [| [| n]]]]]; cbn in Hrt, Hl; lia. }
  repeat split; assumption.
Qed.

Lemma parsed_record_shape_witness :
  -999 <= rating Sample.carlsen_player <= 9999.
Proof.
  assert (Hin : In Sample.carlsen_player
                  (players (parse_lines 2500 ∅
                              [Sample.header; Sample.carlsen])))
    by (vm_compute; left; reflexivity).
  exact (proj1 (proj2 (proj2 (proj2 (proj2 (proj2 (proj2
    (parsed_record_shape 2500 ∅ [Sample.header; Sample.carlsen]
       Sample.carlsen_player Hin)))))))).
Defined.

(** ** A larger snapshot or a lower threshold only adds records *)

Lemma parse_line_accepted_weaken (min1 min2 : Z) (ex1 ex2 : gset string)
    (line : string) (p : Player) :
  min2 <= min1 -> ex1 ⊆ ex2 ->
  parse_line min1 ex1 line = Accepted p ->
  parse_line min2 ex2 line = Accepted p.
Proof.
  intros Hmin Hsub. unfold parse_line.
  destruct (String.length line <? 123)%nat; [discriminate |].
  destruct (Py.is_empty _ || Py.is_empty _ || Py.is_empty _);
    [discriminate |].
  destruct (Py.int_of_str _) as [r |]; [| discriminate].
  destruct (r <? min1) eqn:E1; cbn [andb].
  - destruct (bool_decide (_ ∈ ex1)) eqn:Ein; cbn [negb]; [| discriminate].
    apply bool_decide_eq_true in Ein.
    rewrite (bool_decide_eq_true_2 _ (Hsub _ Ein)), andb_false_r.
    exact id.
  - apply Z.ltb_ge in E1.
    assert (E2 : (r <? min2) = false) by (apply Z.ltb_ge; lia).
    rewrite E2. exact id.
Qed.

Lemma parse_fold_weaken (min1 min2 : Z) (ex1 ex2 : gset string)
    (l : list string) :
  min2 <= min1 -> ex1 ⊆ ex2 ->
  forall st1 st2,
    players st1 `sublist_of` players st2 ->
    skipped_invalid st1 = skipped_invalid st2 ->
    players (fold_left (parse_step min1 ex1) l st1)
      `sublist_of` players (fold_left (parse_step min2 ex2) l st2)
    /\ skipped_invalid (fold_left (parse_step min1 ex1) l st1)
       = skipped_invalid (fold_left (parse_step min2 ex2) l st2).
Proof.
  intros Hmin Hsub. induction l as [| x l IH]; intros st1 st2 Hs Hi;
    [split; assumption |].
  cbn [fold_left]. apply IH; unfold parse_step.
  - destruct (parse_line min1 ex1 x) as [| | p] eqn:H1.
    + apply parse_line_invalid in H1.
      apply (parse_line_invalid min2 ex2) in H1. rewrite H1. exact Hs.
    + destruct (parse_line min2 ex2 x); cbn [players]; try exact Hs.
      apply sublist_inserts_r, Hs.
    + rewrite (parse_line_accepted_weaken _ _ _ _ _ _ Hmin Hsub H1).
      cbn [players]. apply sublist_app; [exact Hs | reflexivity].
  - destruct (parse_line min1 ex1 x) as [| | p] eqn:H1.
    + apply parse_line_invalid in H1.
      apply (parse_line_invalid min2 ex2) in H1. rewrite H1.
      cbn [skipped_invalid]. congruence.
    + destruct (parse_line min2 ex2 x) as [| | q] eqn:H2;
        cbn [skipped_invalid]; try exact Hi.
      apply parse_line_invalid in H2.
      apply (parse_line_invalid min1 ex1) in H2. congruence.
    + rewrite (parse_line_accepted_weaken _ _ _ _ _ _ Hmin Hsub H1).
      exact Hi.
Qed.

(** X3. Lowering the threshold or enlarging the snapshot of known
    identifiers never loses a record: the records returned before are
    still returned, unchanged and in the same order, and the number of
    invalid lines is the same. *)
Theorem parse_lines_monotone (min1 min2 : Z) (ex1 ex2 : gset string)
    (lines : list string) :
  min2 <= min1 -> ex1 ⊆ ex2 ->
  players (parse_lines min1 ex1 lines)
    `sublist_of` players (parse_lines min2 ex2 lines)
  /\ skipped_invalid (parse_lines min1 ex1 lines)
     = skipped_invalid (parse_lines min2 ex2 lines)
  /\ (skipped_low_rating (parse_lines min2 ex2 lines)
      <= skipped_low_rating (parse_lines min1 ex1 lines))%nat.
Proof.
  intros Hmin Hsub.
  destruct (parse_fold_weaken min1 min2 ex1 ex2 (data_lines lines) Hmin Hsub
              {| players := []; skipped_invalid := 0;
                 skipped_low_rating := 0 |}
              {| players := []; skipped_invalid := 0;
                 skipped_low_rating := 0 |}
              ltac:(reflexivity) eq_refl) as [Hs Hi].
  fold (parse_lines min1 ex1 lines) in Hs, Hi.
  fold (parse_lines min2 ex2 lines) in Hs, Hi.
  split; [exact Hs |]. split; [exact Hi |].
  pose proof (parse_fold_accounting min1 ex1 (data_lines lines)
                {| players := []; skipped_invalid := 0;
                   skipped_low_rating := 0 |}) as H1.
  pose proof (parse_fold_accounting min2 ex2 (data_lines lines)
                {| players := []; skipped_invalid := 0;
                   skipped_low_rating := 0 |}) as H2.
  fold (parse_lines min1 ex1 lines) in H1.
  fold (parse_lines min2 ex2 lines) in H2.
  cbn [players skipped_invalid skipped_low_rating length] in H1, H2.
  apply sublist_length in Hs. lia.
Qed.

Lemma parse_lines_monotone_witness :
  players (parse_lines 2500 ∅ [Sample.header; Sample.carlsen; Sample.below])
    `sublist_of`
  players (parse_lines 2400 ∅ [Sample.header; Sample.carlsen; Sample.below]).
Proof.
  refine (proj1 (parse_lines_monotone 2500 2400 ∅ ∅
                   [Sample.header; Sample.carlsen; Sample.below] _ _)).
  - lia.
  - reflexivity.
Defined.

(** ** Fields carry no surrounding white space *)

Lemma rstrip_idempotent (s : string) : Py.rstrip (Py.rstrip s) = Py.rstrip s.
Proof.
  induction s as [| c s IH]; [reflexivity |]. cbn [Py.rstrip].
  destruct (Py.is_empty (Py.rstrip s) && Py.isspace c) eqn:E;
    [reflexivity |].
  cbn [Py.rstrip]. rewrite IH, E. reflexivity.
Qed.

Lemma rstrip_cons (c : ascii) (s : string) :
  Py.isspace c = false ->
  Py.rstrip (String c s) = String c (Py.rstrip s).
Proof. intros H. cbn [Py.rstrip]. rewrite H, andb_false_r. reflexivity. Qed.

Lemma lstrip_head (s : string) :
  Py.lstrip s = ""
  \/ exists c t, Py.lstrip s = String c t /\ Py.isspace c = false.
Proof.
  induction s as [| c s IH]; [left; reflexivity |]. cbn [Py.lstrip].
  destruct (Py.isspace c) eqn:E; [exact IH |].
  right. exists c, s. split; [reflexivity | exact E].
Qed.

Lemma strip_idempotent (s : string) : Py.strip (Py.strip s) = Py.strip s.
Proof.
  unfold Py.strip. destruct (lstrip_head s) as [-> | (c & t & -> & Hc)];
    [reflexivity |].
  rewrite (rstrip_cons c t Hc). cbn [Py.lstrip]. rewrite Hc.
  rewrite (rstrip_cons c _ Hc), rstrip_idempotent. reflexivity.
Qed.

(** X4. The text fields of every record are stripped: stripping the
    identifier, name, federation or sex of a returned record again
    changes nothing. *)
Theorem parsed_fields_stripped (min_rating : Z) (existing : gset string)
    (lines : list string) (p : Player) :
  In p (players (parse_lines min_rating existing lines)) ->
  Py.strip (fide_id p) = fide_id p
  /\ Py.strip (name p) = name p
  /\ Py.strip (federation p) = federation p
  /\ Py.strip (sex p) = sex p.
Proof.
  intros Hin. unfold parse_lines in Hin.
  apply players_of_fold in Hin as [[] | (line & _ & Hp)].
  pose proof (parse_line_accepted _ _ _ _ Hp) as (_ & Hid & _ & Hnm & _).
  pose proof (parse_line_accepted_fields _ _ _ _ Hp) as (Hfed & Hsex & _).
  rewrite Hid, Hnm, Hfed, Hsex. repeat split; apply strip_idempotent.
Qed.

Lemma parsed_fields_stripped_witness :
  Py.strip (name Sample.carlsen_player) = name Sample.carlsen_player.
Proof.
  assert (Hin : In Sample.carlsen_player
                  (players (parse_lines 2500 ∅
                              [Sample.header; Sample.carlsen])))
    by (vm_compute; left; reflexivity).
  exact (proj1 (proj2
    (parsed_fields_stripped 2500 ∅ [Sample.header; Sample.carlsen]
       Sample.carlsen_player Hin))).
Defined.

(** ** Lines that end before the birth date *)

(** X5. A record read from a line of fewer than 130 characters (the
    terminator counted) has no birth year: the four characters at
    126..129 are not all there. *)
Theorem short_line_no_birth_year (min_rating : Z) (existing : gset string)
    (line : string) (p : Player) :
  (String.length line < 130)%nat ->
  parse_line min_rating existing line = Accepted p ->
  birth_year p = None.
Proof.
  intros Hlen Hp.
  pose proof (parse_line_accepted _ _ _ _ Hp) as (_&_&_&_&_&_&_& Hb).
  rewrite Hb. unfold parse_birth_year.
  pose proof (proj2 (field_length 126 130 line)) as Hl.
  assert (E : (4 <=? String.length (Py.strip (Py.slice 126 130 line)))%nat
              = false) by (apply Nat.leb_gt; lia).
  rewrite E, andb_false_r. reflexivity.
Qed.

Lemma short_line_no_birth_year_witness :
  birth_year Fixtures.no_birth_player = None.
Proof.
  assert (Hlen : (String.length Fixtures.no_birth < 130)%nat)
    by (vm_compute; lia).
  assert (Hp : parse_line 2500 ∅ Fixtures.no_birth
               = Accepted Fixtures.no_birth_player)
    by (vm_compute; reflexivity).
  exact (short_line_no_birth_year 2500 ∅ Fixtures.no_birth
           Fixtures.no_birth_player Hlen Hp).
Defined.

(* ===================================================================== *)
(** * More about the writer                                              *)
(* ===================================================================== *)

(** ** What a run can raise, and when *)

Section RunErrors.
Variable fs : string -> option string.
Variable faults : nat -> bool.

(** The ways a run of the model can end. *)
Lemma seed_database_cases (filepath data_date : string)
    (min_rating : Z) (w : World) :
  let res := seed_database fs faults filepath data_date min_rating w in
  res.1 = Ok tt
  \/ res.1 = Raise APIError
  \/ (res.1 = Raise FileNotFoundError
      /\ fs filepath = None /\ res.2 = connected filepath data_date w)
  \/ (res.1 = Raise ValueError
      /\ Date.strptime data_date = None
      /\ res.2 = connected filepath data_date w).
Proof.
  intros res. subst res.
  destruct (faults (clock w)) eqn:H1.
  { right. left.
    unfold seed_database, bind, emit, get_db_connection, request.
    cbn [clock db stdin trace]. rewrite H1. reflexivity. }
  destruct (faults (S (clock w))) eqn:H2.
  { right. left.
    unfold seed_database, bind, emit, get_db_connection,
      get_existing_fide_ids, bind, request.
    cbn [clock db stdin trace]. rewrite H1. cbn [negb clock]. rewrite H2.
    reflexivity. }
  destruct (fs filepath) as [content |] eqn:Hfs.
  2:{ right. right. left.
      unfold seed_database, bind, emit, get_db_connection,
        get_existing_fide_ids, bind, request, parse_fide_text_file.
      cbn [clock db stdin trace]. rewrite H1.
      cbn [negb clock db stdin trace]. rewrite H2, Hfs. cbn.
      unfold connected. rewrite <- !app_assoc. repeat split. }
  rewrite (seed_database_prologue _ _ _ _ _ _ _ H1 H2 Hfs).
  destruct (admitted_players min_rating (db w) content) as [| p ps];
    [left; reflexivity |].
  destruct (Date.strptime data_date) as [ymd |] eqn:Hd.
  2:{ right. right. right. unfold write_players_and_rankings.
      rewrite Hd. repeat split. }
  rewrite (write_phase _ _ _ _ _ Hd).
  destruct (run_requests faults (write_requests ymd (p :: ps))
              (connected filepath data_date w)) as (n & _ & _ & _ & Hrun).
  rewrite Hrun. cbn [fst].
  destruct (n <? _)%nat; [right; left | left]; reflexivity.
Qed.

(** With the file in place, a date [strptime] accepts and a store that
    answers every call, a run applies every planned upsert. *)
Lemma seed_database_no_faults (filepath data_date : string)
    (min_rating : Z) (w : World) (content : string) (ymd : Z * Z * Z) :
  fs filepath = Some content ->
  Date.strptime data_date = Some ymd ->
  (forall n, faults n = false) ->
  let res := seed_database fs faults filepath data_date min_rating w in
  res.1 = Ok tt
  /\ db res.2
     = apply_requests
         (write_requests ymd
            (admitted_players min_rating (db w) content)) (db w).
Proof.
  intros Hfs Hd Hnf res. subst res.
  rewrite (seed_database_run _ _ _ _ _ _ _ _ (Hnf _) (Hnf _) Hfs Hd).
  destruct (run_requests faults
              (write_requests ymd
                 (admitted_players min_rating (db w) content))
              (connected filepath data_date w))
    as (n & Hn & _ & Hfail & Hrun).
  rewrite Hrun. cbn [fst snd db connected].
  destruct (n <? _)%nat eqn:E.
  - apply Nat.ltb_lt in E. specialize (Hfail E).
    rewrite Hnf in Hfail. discriminate.
  - apply Nat.ltb_ge in E. rewrite take_ge by lia. split; reflexivity.
Qed.

Lemma seed_database_missing (filepath data_date : string)
    (min_rating : Z) (w : World) :
  faults (clock w) = false ->
  faults (S (clock w)) = false ->
  fs filepath = None ->
  seed_database fs faults filepath data_date min_rating w
  = (Raise FileNotFoundError, connected filepath data_date w).
Proof.
  intros H1 H2 Hfs.
  unfold seed_database, bind, emit, get_db_connection,
    get_existing_fide_ids, bind, request, parse_fide_text_file.
  cbn [clock db stdin trace]. rewrite H1.
  cbn [negb clock db stdin trace]. rewrite H2, Hfs. cbn.
  unfold connected. rewrite <- !app_assoc. reflexivity.
Qed.

(** Without a file at the path a run fails, at one of its two first
    calls or at the file, and the store is as it was. *)
Lemma seed_database_without_file (filepath data_date : string)
    (min_rating : Z) (w : World) :
  fs filepath = None ->
  let res := seed_database fs faults filepath data_date min_rating w in
  (res.1 = Raise APIError \/ res.1 = Raise FileNotFoundError)
  /\ db res.2 = db w.
Proof.
  intros Hfs res. subst res.
  destruct (faults (clock w)) eqn:H1.
  { unfold seed_database, bind, emit, get_db_connection, request.
    cbn [clock db stdin trace]. rewrite H1.
    split; [left; reflexivity | reflexivity]. }
  destruct (faults (S (clock w))) eqn:H2.
  { unfold seed_database, bind, emit, get_db_connection,
      get_existing_fide_ids, bind, request.
    cbn [clock db stdin trace]. rewrite H1. cbn [negb clock]. rewrite H2.
    split; [left; reflexivity | reflexivity]. }
  rewrite (seed_database_missing _ _ _ _ H1 H2 Hfs).
  split; [right; reflexivity | reflexivity].
Qed.


(** X7. With the file in place and a date [strptime] accepts, only the
    store can make a run fail; and when no call fails the run ends
    normally with every planned upsert applied. *)
Theorem seed_database_succeeds (filepath data_date : string)
    (min_rating : Z) (w : World) (content : string) (ymd : Z * Z * Z) :
  fs filepath = Some content ->
  Date.strptime data_date = Some ymd ->
  let res := seed_database fs faults filepath data_date min_rating w in
  (res.1 = Ok tt \/ res.1 = Raise APIError)
  /\ ((forall n, faults n = false) ->
      res.1 = Ok tt
      /\ db res.2
         = apply_requests
             (write_requests ymd
                (admitted_players min_rating (db w) content)) (db w)).
Proof.
  intros Hfs Hd res. subst res. split.
  - destruct (seed_database_cases filepath data_date min_rating w)
      as [H | [H | [(_ & H & _) | (_ & H & _)]]];
      [left; exact H | right; exact H | congruence | congruence].
  - intros Hnf.
    exact (seed_database_no_faults filepath data_date min_rating w content
             ymd Hfs Hd Hnf).
Qed.

(** X8. A date [strptime] rejects is only noticed when there is
    something to write: with the two first calls succeeding and the file
    in place, the run raises [ValueError] if the parser returned records
    and ends normally if it returned none; the store is untouched
    either way. *)
Theorem seed_database_bad_date (filepath data_date : string)
    (min_rating : Z) (w : World) (content : string) :
  faults (clock w) = false ->
  faults (S (clock w)) = false ->
  fs filepath = Some content ->
  Date.strptime data_date = None ->
  let res := seed_database fs faults filepath data_date min_rating w in
  res.1 = (match admitted_players min_rating (db w) content with
           | [] => Ok tt
           | _ :: _ => Raise ValueError
           end)
  /\ res.2 = connected filepath data_date w.
Proof.
  intros H1 H2 Hfs Hd res. subst res.
  rewrite (seed_database_prologue _ _ _ _ _ _ _ H1 H2 Hfs).
  destruct (admitted_players min_rating (db w) content) as [| p ps];
    [split; reflexivity |].
  unfold write_players_and_rankings. rewrite Hd. split; reflexivity.
Qed.

End RunErrors.

Lemma seed_database_succeeds_witness :
  (seed_database Fixtures.disk Sample.no_faults "list.txt" "2025-1-5" 2500
     Sample.world0).1 = Ok tt.
Proof.
  refine (proj1 (proj2 (seed_database_succeeds Fixtures.disk
                          Sample.no_faults "list.txt" "2025-1-5" 2500
                          Sample.world0 Fixtures.carlsen_file (2025, 1, 5)
                          eq_refl eq_refl) _)).
  reflexivity.
Defined.

Lemma seed_database_bad_date_witness :
  (seed_database Fixtures.disk Sample.no_faults "list.txt" "January" 2500
     Sample.world0).1 = Raise ValueError.
Proof.
  exact (proj1 (seed_database_bad_date Fixtures.disk Sample.no_faults
                  "list.txt" "January" 2500 Sample.world0
                  Fixtures.carlsen_file eq_refl eq_refl eq_refl eq_refl)).
Defined.


(** ** Stored rows stay *)

Section UpsertGrowth.
Context {Row Key : Type} `{EqDecision Key} (key : Row -> Key).

Lemma upsert_row_keys_prefix (mode : ConflictMode) (tbl : list Row)
    (r : Row) :
  map key tbl `prefix_of` map key (upsert_row key mode tbl r).
Proof.
  rewrite keys_upsert_row. destruct (has_key key (key r) tbl);
    [reflexivity | apply prefix_app_r; reflexivity].
Qed.

Lemma upsert_keys_prefix (mode : ConflictMode) (rows tbl : list Row) :
  map key tbl `prefix_of` map key (upsert key mode rows tbl).
Proof.
  revert tbl. induction rows as [| r rows IH]; intros tbl; [reflexivity |].
  rewrite upsert_cons. etransitivity; [| apply IH].
  apply upsert_row_keys_prefix.
Qed.

Lemma upsert_row_ignore_prefix (tbl : list Row) (r : Row) :
  tbl `prefix_of` upsert_row key IgnoreOnConflict tbl r.
Proof.
  unfold upsert_row. destruct (has_key key (key r) tbl);
    [reflexivity | apply prefix_app_r; reflexivity].
Qed.

Lemma upsert_ignore_prefix (rows tbl : list Row) :
  tbl `prefix_of` upsert key IgnoreOnConflict rows tbl.
Proof.
  revert tbl. induction rows as [| r rows IH]; intros tbl; [reflexivity |].
  rewrite upsert_cons. etransitivity; [| apply IH].
  apply upsert_row_ignore_prefix.
Qed.

(** An insert-if-absent request stores, as supplied, every row whose key
    is free, provided the request does not carry the key twice. *)
Lemma upsert_ignore_inserts (rows : list Row) :
  forall tbl r,
    NoDup (map key rows) -> In r rows -> ~ In (key r) (map key tbl) ->
    In r (upsert key IgnoreOnConflict rows tbl).
Proof.
  induction rows as [| r0 rows IH]; intros tbl r Hnd Hin Hfree;
    [destruct Hin |].
  cbn [map] in Hnd. apply NoDup_cons in Hnd as [Hnin Hnd].
  rewrite list_elem_of_In in Hnin. rewrite upsert_cons.
  destruct Hin as [-> | Hin].
  - destruct (upsert_ignore_prefix rows
                (upsert_row key IgnoreOnConflict tbl r)) as [k ->].
    apply in_or_app. left. rewrite (upsert_row_absent _ _ _ _ Hfree).
    apply in_or_app. right. left. reflexivity.
  - apply IH; [exact Hnd | exact Hin |].
    rewrite keys_upsert_row. destruct (has_key key (key r0) tbl);
      [exact Hfree |].
    intros H'. apply in_app_or in H' as [H' | [H' | []]];
      [exact (Hfree H') |].
    apply Hnin. rewrite H'. apply in_map, Hin.
Qed.

End UpsertGrowth.

Lemma apply_request_grows (q : Request) (d : DB) :
  ~ overwrites_observations q ->
  rankings_table d `prefix_of` rankings_table (apply_request q d)
  /\ map pr_fide_id (players_table d)
       `prefix_of` map pr_fide_id (players_table (apply_request q d)).
Proof.
  intros Hq. destruct q as [| | rows mode | rows mode];
    cbn [apply_request players_table rankings_table];
    try (split; reflexivity).
  - split; [reflexivity |]. apply (upsert_keys_prefix player_key).
  - split; [| reflexivity]. destruct mode.
    + exfalso. apply Hq. exists rows. reflexivity.
    + apply upsert_ignore_prefix.
Qed.

Lemma apply_requests_grows (reqs : list Request) :
  forall d,
    Forall (fun q => ~ overwrites_observations q) reqs ->
    rankings_table d `prefix_of` rankings_table (apply_requests reqs d)
    /\ map pr_fide_id (players_table d)
         `prefix_of` map pr_fide_id (players_table (apply_requests reqs d)).
Proof.
  induction reqs as [| q reqs IH]; intros d Hall; [split; reflexivity |].
  apply Forall_cons in Hall as [Hq Hall].
  change (apply_requests (q :: reqs) d)
    with (apply_requests reqs (apply_request q d)).
  destruct (apply_request_grows q d Hq) as [H1 H2].
  destruct (IH (apply_request q d) Hall) as [H3 H4].
  split; etransitivity; eassumption.
Qed.

Lemma write_requests_keep (ymd : Z * Z * Z) (ps : list Player) (n : nat) :
  Forall (fun q => ~ overwrites_observations q)
    (take n (write_requests ymd ps)).
Proof.
  apply Forall_forall. intros q Hq [rows ->].
  apply list_elem_of_In, in_take_In, write_requests_mode in Hq.
  discriminate.
Qed.

Section RunGrowth.
Variable fs : string -> option string.
Variable faults : nat -> bool.

Lemma seed_database_requests (filepath data_date : string)
    (min_rating : Z) (w : World) :
  exists reqs,
    db (seed_database fs faults filepath data_date min_rating w).2
    = apply_requests reqs (db w)
    /\ Forall (fun q => ~ overwrites_observations q) reqs.
Proof.
  destruct (seed_database_effect fs faults filepath data_date min_rating w)
    as (_ & reqs & _ & _ & _ & Hdb & Hreqs).
  exists reqs. split; [exact Hdb |].
  destruct Hreqs as [-> | (content & ymd & n & _ & _ & ->)];
    [constructor | apply write_requests_keep].
Qed.

Lemma prefix_existing_ids (d d' : DB) :
  map pr_fide_id (players_table d) `prefix_of`
    map pr_fide_id (players_table d') ->
  existing_ids d ⊆ existing_ids d'.
Proof.
  intros [k Hk] fid. rewrite !existing_ids_spec.
  change (map player_key ?t) with (map pr_fide_id t).
  rewrite Hk. intros Hin. apply in_or_app. left. exact Hin.
Qed.

(** X9. Whatever happens during a seeding run, the observations stored
    before it are still there afterwards, unchanged and in place, with
    new ones only added behind them; and no player is ever removed: the
    identifiers stored before keep their places. *)
Theorem seed_database_keeps_rows (filepath data_date : string)
    (min_rating : Z) (w : World) :
  let w' := (seed_database fs faults filepath data_date min_rating w).2 in
  rankings_table (db w) `prefix_of` rankings_table (db w')
  /\ map pr_fide_id (players_table (db w))
       `prefix_of` map pr_fide_id (players_table (db w'))
  /\ existing_ids (db w) ⊆ existing_ids (db w').
Proof.
  intros w'. subst w'.
  destruct (seed_database_requests filepath data_date min_rating w)
    as (reqs & -> & Hall).
  destruct (apply_requests_grows reqs (db w) Hall) as [H1 H2].
  split; [exact H1 |]. split; [exact H2 |].
  apply prefix_existing_ids, H2.
Qed.

(** The identifier of every record of a run that ended normally is
    among the players afterwards. *)
Lemma seed_database_stores_players (filepath data_date : string)
    (min_rating : Z) (w : World) (content : string) (p : Player) :
  fs filepath = Some content ->
  (seed_database fs faults filepath data_date min_rating w).1 = Ok tt ->
  In p (admitted_players min_rating (db w) content) ->
  In (fide_id p)
     (map pr_fide_id
        (players_table
           (db (seed_database fs faults filepath data_date min_rating
                  w).2))).
Proof.
  intros Hfs Hok Hp.
  destruct (seed_database_outcome fs faults filepath data_date min_rating w)
    as [(pre & e & _ & Hrun)
       | [(content' & Hfs' & Hnil & Hrun)
         | (content' & ymd & n & Hfs' & Hd & Hn & Hrun)]];
    rewrite Hrun in Hok |- *; cbn [fst snd db] in Hok |- *.
  - discriminate.
  - assert (content' = content) by congruence. subst content'.
    rewrite Hnil in Hp. destruct Hp.
  - assert (content' = content) by congruence. subst content'.
    destruct (n <? _)%nat eqn:E; [discriminate |].
    apply Nat.ltb_ge in E. rewrite take_ge by lia.
    rewrite apply_write_all. cbn [players_table].
    change (map pr_fide_id ?t) with (map player_key t).
    change (fide_id p) with (player_key (player_row_of p)).
    apply upsert_has_keys. unfold player_data. apply in_map_iff.
    exists p. split; [reflexivity | exact Hp].
Qed.

(** X10. After a run that ended normally every record the parser returned
    is in the store: its identifier is among the players and there is an
    observation for it on the date written in ISO form. When the
    identifiers of the records are pairwise distinct, the player row is
    exactly the one sent, and an observation whose key was free before
    the run is stored exactly as sent, marked historical. *)
Theorem seed_database_postcondition (filepath data_date : string)
    (min_rating : Z) (w : World) (content : string) (p : Player) :
  fs filepath = Some content ->
  (seed_database fs faults filepath data_date min_rating w).1 = Ok tt ->
  In p (admitted_players min_rating (db w) content) ->
  let d' := db (seed_database fs faults filepath data_date min_rating w).2 in
  exists ymd,
    Date.strptime data_date = Some ymd
    /\ In (fide_id p) (map pr_fide_id (players_table d'))
    /\ In (fide_id p, Date.date_isoformat ymd)
          (map ranking_key (rankings_table d'))
    /\ (NoDup (map fide_id (admitted_players min_rating (db w) content)) ->
        settled player_key (players_table d') (player_row_of p)
        /\ (~ In (fide_id p, Date.date_isoformat ymd)
                 (map ranking_key (rankings_table (db w))) ->
            In (ranking_row_of (Date.date_isoformat ymd)
                  (Date.datetime_isoformat ymd) "historical" p)
               (rankings_table d'))).
Proof.
  intros Hfs Hok Hp d'. subst d'.
  destruct (seed_database_outcome fs faults filepath data_date min_rating w)
    as [(pre & e & _ & Hrun)
       | [(content' & Hfs' & Hnil & Hrun)
         | (content' & ymd & n & Hfs' & Hd & Hn & Hrun)]];
    rewrite Hrun in Hok |- *; cbn [fst snd db] in Hok |- *.
  - discriminate.
  - assert (content' = content) by congruence. subst content'.
    rewrite Hnil in Hp. destruct Hp.
  - assert (content' = content) by congruence. subst content'.
    destruct (n <? _)%nat eqn:E; [discriminate |].
    apply Nat.ltb_ge in E. rewrite take_ge by lia.
    rewrite apply_write_all. cbn [players_table rankings_table].
    set (ps := admitted_players min_rating (db w) content) in *.
    assert (Hrow : In (player_row_of p) (player_data ps)).
    { unfold player_data. apply in_map_iff. exists p.
      split; [reflexivity | exact Hp]. }
    assert (Hobs : In (ranking_row_of (Date.date_isoformat ymd)
                         (Date.datetime_isoformat ymd) "historical" p)
                      (ranking_data (Date.date_isoformat ymd)
                         (Date.datetime_isoformat ymd) "historical" ps)).
    { unfold ranking_data. apply in_map_iff. exists p.
      split; [reflexivity | exact Hp]. }
    exists ymd. split; [exact Hd |]. split.
    { change (map pr_fide_id ?t) with (map player_key t).
      exact (upsert_has_keys player_key _ _ _ _ Hrow). }
    split.
    { exact (upsert_has_keys ranking_key _ _ _ _ Hobs). }
    intros Hnd. split.
    + apply upsert_settles; [| exact Hrow].
      unfold player_data. rewrite map_map. exact Hnd.
    + intros Hfree. apply upsert_ignore_inserts; [| exact Hobs | exact Hfree].
      unfold ranking_data. rewrite map_map.
      cbn [ranking_key rk_fide_id rk_scraped_date].
      assert (Hinj : Inj (=) (=)
                       (fun i : string => (i, Date.date_isoformat ymd)))
        by (intros a b Hab; congruence).
      apply (NoDup_fmap_2 (fun i : string => (i, Date.date_isoformat ymd)))
        in Hnd.
      change (map ?f ?l) with (f <$> l) in Hnd.
      rewrite <- list_fmap_compose in Hnd. exact Hnd.
Qed.

(** X11. A run that ends normally has made exactly two calls for the
    connection and the read, and one upsert per batch in each pass:
    2 + 2 * ceil(n / 100) calls for n records. *)
Theorem seed_database_call_count (filepath data_date : string)
    (min_rating : Z) (w : World) (content : string) :
  fs filepath = Some content ->
  (seed_database fs faults filepath data_date min_rating w).1 = Ok tt ->
  let n := length (admitted_players min_rating (db w) content) in
  clock (seed_database fs faults filepath data_date min_rating w).2
  = (clock w + 2 + 2 * ((n + 99) / 100))%nat.
Proof.
  intros Hfs Hok n. subst n.
  destruct (seed_database_outcome fs faults filepath data_date min_rating w)
    as [(pre & e & _ & Hrun)
       | [(content' & Hfs' & Hnil & Hrun)
         | (content' & ymd & n & Hfs' & Hd & Hn & Hrun)]];
    rewrite Hrun in Hok |- *; cbn [fst snd clock connected] in Hok |- *.
  - discriminate.
  - assert (content' = content) by congruence. subst content'.
    rewrite Hnil. cbn. lia.
  - assert (content' = content) by congruence. subst content'.
    destruct (n <? _)%nat eqn:E; [discriminate |].
    apply Nat.ltb_ge in E.
    unfold write_requests, identity_pass, observation_pass in Hn, E.
    rewrite length_app, !length_map, batches_length in Hn, E.
    unfold batch_size in *. 
    replace (length (admitted_players min_rating (db w) content) + 100 - 1)%nat
      with (length (admitted_players min_rating (db w) content) + 99)%nat
      in Hn, E by lia.
    lia.
Qed.

End RunGrowth.

Lemma seed_database_postcondition_witness :
  In "12345678901234"
    (map pr_fide_id
       (players_table
          (db (seed_database Fixtures.disk Sample.no_faults "list.txt"
                 "2025-01-01" 2500 Sample.world0).2))).
Proof.
  assert (Hok : (seed_database Fixtures.disk Sample.no_faults "list.txt"
                   "2025-01-01" 2500 Sample.world0).1 = Ok tt)
    by (vm_compute; reflexivity).
  assert (Hp : In Sample.carlsen_player
                 (admitted_players 2500 (db Sample.world0)
                    Fixtures.carlsen_file))
    by (vm_compute; left; reflexivity).
  destruct (seed_database_postcondition Fixtures.disk Sample.no_faults
              "list.txt" "2025-01-01" 2500 Sample.world0
              Fixtures.carlsen_file Sample.carlsen_player eq_refl Hok Hp)
    as (ymd & _ & H & _).
  exact H.
Defined.

Lemma seed_database_call_count_witness :
  clock (seed_database Fixtures.disk Sample.no_faults "list.txt"
           "2025-01-01" 2500 Sample.world0).2 = 4%nat.
Proof.
  assert (Hok : (seed_database Fixtures.disk Sample.no_faults "list.txt"
                   "2025-01-01" 2500 Sample.world0).1 = Ok tt)
    by (vm_compute; reflexivity).
  exact (seed_database_call_count Fixtures.disk Sample.no_faults
           "list.txt" "2025-01-01" 2500 Sample.world0
           Fixtures.carlsen_file eq_refl Hok).
Defined.

(* ===================================================================== *)
(** * More about the orchestrator                                        *)
(* ===================================================================== *)

Lemma prompts_app (l1 l2 : list Event) :
  prompts (l1 ++ l2) = prompts l1 ++ prompts l2.
Proof. unfold prompts. apply omap_app. Qed.

Lemma prompts_ok_events (reqs : list Request) : prompts (ok_events reqs) = [].
Proof. induction reqs as [| q reqs IH]; [reflexivity | exact IH]. Qed.

Lemma prompts_prologue (pre : list Event) :
  Forall is_prologue_event pre -> prompts pre = [].
Proof.
  induction 1 as [| e pre He _ IH]; [reflexivity |].
  destruct He as (ok & [-> | ->]); exact IH.
Qed.

Section Loop.
Variable fs : string -> option string.
Variable faults : nat -> bool.

(** A seeding run asks nothing at the console. *)
Lemma seed_database_no_prompt (filepath data_date : string)
    (min_rating : Z) (w : World) :
  exists evs,
    trace (seed_database fs faults filepath data_date min_rating w).2
    = trace w ++ evs
    /\ prompts evs = []
    /\ stdin (seed_database fs faults filepath data_date min_rating w).2
       = stdin w.
Proof.
  destruct (seed_database_outcome fs faults filepath data_date min_rating w)
    as [(pre & e & Hpre & Hrun)
       | [(content & Hfs & Hnil & Hrun)
         | (content & ymd & n & Hfs & Hd & Hn & Hrun)]];
    rewrite Hrun; cbn [snd trace stdin connected]; eexists;
    (split; [reflexivity |]); (split; [| reflexivity]).
  - change (prompts (EvSeed filepath data_date :: pre)) with (prompts pre).
    apply prompts_prologue, Hpre.
  - reflexivity.
  - rewrite !prompts_app, prompts_ok_events.
    destruct (_ !! n); reflexivity.
Qed.

(** A relation between worlds that holds along every seeding run and
    every answered prompt holds along the whole loop. *)
Lemma seed_loop_invariant (R : World -> World -> Prop) (min_rating : Z) :
  (forall w, R w w) ->
  (forall a b c, R a b -> R b c -> R a c) ->
  (forall filepath data_date w,
      R w (seed_database fs faults filepath data_date min_rating w).2) ->
  (forall response more w,
      stdin w = response :: more -> R w (answered response more w)) ->
  forall queue w, R w (seed_loop fs faults queue min_rating w).2.
Proof.
  intros Hrefl Htrans Hrun Hans.
  induction queue as [| [filepath data_date] rest IH]; intros w;
    [apply Hrefl |].
  rewrite seed_loop_step. specialize (Hrun filepath data_date w).
  destruct (seed_database fs faults filepath data_date min_rating w)
    as [[[] | e] w0]; cbn [snd] in Hrun.
  - eapply Htrans; [exact Hrun | apply IH].
  - destruct (stdin w0) as [| response more] eqn:Hstd; [exact Hrun |].
    specialize (Hans response more w0 Hstd).
    destruct (bool_decide _); cbn [snd].
    + eapply Htrans; [exact Hrun |]. eapply Htrans; [exact Hans | apply IH].
    + eapply Htrans; eassumption.
Qed.

Lemma seed_loop_result (queue : list (string * string)) (min_rating : Z) :
  forall w,
    (seed_loop fs faults queue min_rating w).1 = Ok tt
    \/ ((seed_loop fs faults queue min_rating w).1 = Raise EOFError
        /\ stdin (seed_loop fs faults queue min_rating w).2 = []).
Proof.
  induction queue as [| [filepath data_date] rest IH]; intros w;
    [left; reflexivity |].
  rewrite seed_loop_step.
  destruct (seed_database fs faults filepath data_date min_rating w)
    as [[[] | e] w0]; [apply IH |].
  destruct (stdin w0) as [| response more] eqn:Hstd;
    [right; split; [reflexivity | exact Hstd] |].
  destruct (bool_decide _); [apply IH | left; reflexivity].
Qed.

(** X12. Errors of the single runs never leave the orchestrator: it ends
    normally, or with [EOFError] when a prompt finds the console empty.
    The console lines it consumes are exactly the answers to its
    prompts, in order. *)
Theorem seed_multiple_files_errors (file_list : list (string * string))
    (min_rating : Z) (w : World) :
  let res := seed_multiple_files fs faults file_list min_rating w in
  (res.1 = Ok tt \/ (res.1 = Raise EOFError /\ stdin res.2 = []))
  /\ stdin w = prompts (new_events w res.2) ++ stdin res.2.
Proof.
  intros res. subst res. unfold seed_multiple_files.
  split; [apply seed_loop_result |].
  assert (H : exists evs,
             trace (seed_loop fs faults (Py.sorted snd file_list)
                      min_rating w).2 = trace w ++ evs
             /\ stdin w
                = prompts evs
                  ++ stdin (seed_loop fs faults (Py.sorted snd file_list)
                              min_rating w).2).
  { apply (seed_loop_invariant
             (fun a b => exists evs,
                  trace b = trace a ++ evs
                  /\ stdin a = prompts evs ++ stdin b)).
    - intros a. exists []. rewrite app_nil_r. split; reflexivity.
    - intros a b c (e1 & Ht1 & Hs1) (e2 & Ht2 & Hs2). exists (e1 ++ e2).
      rewrite Ht2, Ht1, <- app_assoc, prompts_app, Hs1, Hs2, <- app_assoc.
      split; reflexivity.
    - intros filepath data_date a.
      destruct (seed_database_no_prompt filepath data_date min_rating a)
        as (evs & Ht & Hp & Hs).
      exists evs. rewrite Ht, Hp, Hs. split; reflexivity.
    - intros response more a Hstd. exists [EvPrompt response].
      cbn [answered trace stdin]. rewrite Hstd. split; reflexivity. }
  destruct H as (evs & Ht & Hs). unfold new_events.
  rewrite Ht, drop_app_length. exact Hs.
Qed.

(** X13. Across a whole run of the orchestrator, whatever fails and
    whatever is answered: stored observations stay in place unchanged, no
    player is removed, observations keep referring to stored players and
    keep their key unique. *)
Theorem seed_multiple_files_keeps_store (file_list : list (string * string))
    (min_rating : Z) (w : World) :
  let w' := (seed_multiple_files fs faults file_list min_rating w).2 in
  rankings_table (db w) `prefix_of` rankings_table (db w')
  /\ map pr_fide_id (players_table (db w))
       `prefix_of` map pr_fide_id (players_table (db w'))
  /\ existing_ids (db w) ⊆ existing_ids (db w')
  /\ (referential_integrity (db w) -> referential_integrity (db w'))
  /\ (unique_observations (db w) -> unique_observations (db w')).
Proof.
  intros w'. subst w'. unfold seed_multiple_files.
  apply (seed_loop_invariant
           (fun a b =>
              rankings_table (db a) `prefix_of` rankings_table (db b)
              /\ map pr_fide_id (players_table (db a))
                   `prefix_of` map pr_fide_id (players_table (db b))
              /\ existing_ids (db a) ⊆ existing_ids (db b)
              /\ (referential_integrity (db a) ->
                  referential_integrity (db b))
              /\ (unique_observations (db a) ->
                  unique_observations (db b)))).
  - intros a. repeat split; try reflexivity; exact id.
  - intros a b c (A1 & A2 & A3 & A4 & A5) (B1 & B2 & B3 & B4 & B5).
    split; [etransitivity; eassumption |].
    split; [etransitivity; eassumption |].
    split; [etransitivity; eassumption |].
    split; intros H; [apply B4, A4, H | apply B5, A5, H].
  - intros filepath data_date a.
    destruct (seed_database_requests fs faults filepath data_date
                min_rating a) as (reqs0 & Hdb0 & Hall0).
    destruct (apply_requests_grows reqs0 (db a) Hall0) as [H1 H2].
    rewrite <- Hdb0 in H1, H2.
    split; [exact H1 |]. split; [exact H2 |].
    split; [apply prefix_existing_ids, H2 |].
    destruct (seed_database_effect fs faults filepath data_date
                min_rating a) as (_ & reqs & _ & _ & _ & Hdb & Hreqs).
    split.
    + intros Hri. rewrite Hdb.
      destruct Hreqs as [-> | (content & ymd & n & _ & _ & ->)];
        [exact Hri | apply write_prefix_integrity, Hri].
    + intros Hu. rewrite Hdb. apply apply_requests_unique, Hu.
  - intros response more a _. cbn [answered db].
    repeat split; try reflexivity; exact id.
Qed.

End Loop.

(** ** The order of the input does not matter *)

Lemma sorted_lists_equal {A} (R : A -> A -> Prop) (l1 : list A) :
  forall l2,
    StronglySorted R l1 -> StronglySorted R l2 -> Permutation l1 l2 ->
    (forall a b, In a l1 -> In b l1 -> R a b -> R b a -> a = b) ->
    l1 = l2.
Proof.
  induction l1 as [| x l1 IH]; intros l2 H1 H2 Hp Hanti.
  - apply Permutation_nil in Hp. congruence.
  - destruct l2 as [| y l2];
      [symmetry in Hp; apply Permutation_nil in Hp; discriminate |].
    apply StronglySorted_inv in H1 as [H1 Hx].
    apply StronglySorted_inv in H2 as [H2 Hy].
    rewrite Forall_forall in Hx, Hy.
    assert (Hxy : x = y).
    { assert (Hxin : In x (y :: l2))
        by (apply list_elem_of_In; rewrite <- Hp; left).
      assert (Hyin : In y (x :: l1))
        by (apply list_elem_of_In; rewrite Hp; left).
      destruct Hxin as [E | Hxin]; [congruence |].
      destruct Hyin as [E | Hyin]; [congruence |].
      apply Hanti; [left; reflexivity | right; exact Hyin | |].
      - apply Hx, list_elem_of_In, Hyin.
      - apply Hy, list_elem_of_In, Hxin. }
    subst y. f_equal. apply IH; try assumption.
    + eapply Permutation_cons_inv, Hp.
    + intros a b Ha Hb. apply Hanti; right; assumption.
Qed.

Lemma sorted_permutation_invariant {A} (key : A -> string)
    (l1 l2 : list A) :
  Permutation l1 l2 -> NoDup (map key l1) ->
  Py.sorted key l1 = Py.sorted key l2.
Proof.
  intros Hp Hnd.
  apply (sorted_lists_equal (key_le key)); try apply sorted_sorted.
  - rewrite !sorted_perm. exact Hp.
  - intros a b Ha Hb Hab Hba.
    apply (NoDup_map_inj key l1); try assumption.
    + apply list_elem_of_In. rewrite <- (sorted_perm key l1).
      apply list_elem_of_In, Ha.
    + apply list_elem_of_In. rewrite <- (sorted_perm key l1).
      apply list_elem_of_In, Hb.
    + apply String.leb_antisym; assumption.
Qed.

(** X14. When the dates of the sources are pairwise distinct, the order
    in which the caller lists them has no effect at all: any two
    arrangements of the same sources give the same run. *)
Theorem seed_multiple_files_order_irrelevant
    (fs : string -> option string) (faults : nat -> bool)
    (l1 l2 : list (string * string)) (min_rating : Z) (w : World) :
  Permutation l1 l2 ->
  NoDup (map snd l1) ->
  seed_multiple_files fs faults l1 min_rating w
  = seed_multiple_files fs faults l2 min_rating w.
Proof.
  intros Hp Hnd. unfold seed_multiple_files.
  rewrite (sorted_permutation_invariant snd l1 l2 Hp Hnd). reflexivity.
Qed.

Lemma seed_multiple_files_order_irrelevant_witness :
  seed_multiple_files Sample.no_files Sample.no_faults
    [Sample.file_b; Sample.file_a] 2500 (Sample.world_answering "y")
  = seed_multiple_files Sample.no_files Sample.no_faults
      [Sample.file_a; Sample.file_b] 2500 (Sample.world_answering "y").
Proof.
  apply seed_multiple_files_order_irrelevant.
  - apply perm_swap.
  - apply NoDup_ListNoDup. repeat constructor; cbn; intuition discriminate.
Defined.

(** ** Runs that go through *)

Section Smooth.
Variable fs : string -> option string.
Variable faults : nat -> bool.

Lemma seed_loop_smooth (queue : list (string * string)) (min_rating : Z) :
  (forall n, faults n = false) ->
  Forall (fun source => is_Some (fs source.1)
                        /\ is_Some (Date.strptime source.2)) queue ->
  forall w,
    (seed_loop fs faults queue min_rating w).1 = Ok tt
    /\ stdin (seed_loop fs faults queue min_rating w).2 = stdin w
    /\ exists evs,
         trace (seed_loop fs faults queue min_rating w).2 = trace w ++ evs
         /\ processed evs = queue
         /\ prompts evs = [].
Proof.
  intros Hnf. induction 1 as [| [filepath data_date] rest Hs _ IH];
    intros w.
  { cbn. repeat split. exists []. rewrite app_nil_r. repeat split. }
  destruct Hs as [[content Hfs] [ymd Hd]]. cbn [fst snd] in Hfs, Hd.
  rewrite seed_loop_step.
  destruct (seed_database_no_faults fs faults filepath data_date min_rating
              w content ymd Hfs Hd Hnf) as [Hres _].
  destruct (seed_database_effect fs faults filepath data_date min_rating w)
    as (evs0 & _ & Htr & Hpr & _).
  destruct (seed_database_no_prompt fs faults filepath data_date
              min_rating w) as (evs0' & Htr' & Hpm & Hin).
  destruct (seed_database fs faults filepath data_date min_rating w)
    as [[[] | e] w0]; cbn [fst snd] in *; [| discriminate].
  destruct (IH w0) as (Hr & Hs & evs1 & Ht1 & Hp1 & Hm1).
  split; [exact Hr |]. split; [congruence |].
  exists (EvSeed filepath data_date :: evs0 ++ evs1).
  split; [rewrite Ht1, Htr, <- app_assoc; reflexivity |].
  assert (E : evs0' = EvSeed filepath data_date :: evs0).
  { rewrite Htr in Htr'. apply app_inv_head in Htr'. congruence. }
  subst evs0'.
  change (prompts (EvSeed filepath data_date :: evs0)) with (prompts evs0)
    in Hpm.
  split.
  - change (processed (EvSeed filepath data_date :: ?l))
      with ((filepath, data_date) :: processed l).
    rewrite processed_app, Hpr, Hp1. reflexivity.
  - change (prompts (EvSeed filepath data_date :: ?l)) with (prompts l).
    rewrite prompts_app, Hpm, Hm1. reflexivity.
Qed.

(** X15. When every listed file exists, every date is accepted by
    [strptime] and no call on the store fails, the orchestrator ends
    normally, starts every source in date order, and never asks at the
    console: the console is left as it was. *)
Theorem seed_multiple_files_smooth (file_list : list (string * string))
    (min_rating : Z) (w : World) :
  (forall n, faults n = false) ->
  Forall (fun source => is_Some (fs source.1)
                        /\ is_Some (Date.strptime source.2)) file_list ->
  let res := seed_multiple_files fs faults file_list min_rating w in
  res.1 = Ok tt
  /\ stdin res.2 = stdin w
  /\ processed (new_events w res.2) = Py.sorted snd file_list
  /\ prompts (new_events w res.2) = [].
Proof.
  intros Hnf Hall res. subst res. unfold seed_multiple_files.
  assert (Hall' : Forall (fun source => is_Some (fs source.1)
                                        /\ is_Some (Date.strptime source.2))
                    (Py.sorted snd file_list)).
  { rewrite Forall_forall in Hall |- *. intros x Hx. apply Hall.
    rewrite <- (sorted_perm snd file_list). exact Hx. }
  destruct (seed_loop_smooth _ min_rating Hnf Hall' w)
    as (Hr & Hs & evs & Ht & Hp & Hm).
  split; [exact Hr |]. split; [exact Hs |].
  unfold new_events. rewrite Ht, drop_app_length. split; assumption.
Qed.

End Smooth.

Lemma seed_multiple_files_smooth_witness :
  (seed_multiple_files Fixtures.disk Sample.no_faults
     [("list.txt", "2025-02-01"); ("list.txt", "2025-01-01")] 2500
     Sample.world0).1 = Ok tt.
Proof.
  refine (proj1 (seed_multiple_files_smooth Fixtures.disk Sample.no_faults
                   [("list.txt", "2025-02-01"); ("list.txt", "2025-01-01")]
                   2500 Sample.world0 (fun _ => eq_refl) _)).
  repeat constructor; cbn; eexists; reflexivity.
Defined.

(** ** Players stay tracked *)

Lemma parse_line_known (min_rating : Z) (existing : gset string)
    (line : string) :
  line_is_valid line = true ->
  line_fide_id line ∈ existing ->
  exists q, parse_line min_rating existing line = Accepted q
            /\ fide_id q = line_fide_id line.
Proof.
  unfold line_is_valid, parse_line, line_fide_id.
  destruct (String.length line <? 123)%nat; [discriminate |].
  destruct (Py.is_empty _ || Py.is_empty _ || Py.is_empty _);
    [discriminate |].
  destruct (Py.int_of_str _) as [r |]; [| discriminate].
  intros _ Hin. rewrite (bool_decide_eq_true_2 _ Hin), andb_false_r.
  eexists. split; reflexivity.
Qed.

(** X16. A player written by a run that ended normally is tracked from
    then on: in every later state of the store that still holds the
    identifiers of that state, every valid line carrying the player's
    identifier is accepted, whatever its rating and whatever the
    threshold. *)
Theorem admitted_player_stays_tracked (fs : string -> option string)
    (faults : nat -> bool) (filepath data_date : string) (min_rating : Z)
    (w later : World) (content : string) (p : Player)
    (min_rating' : Z) (line : string) :
  fs filepath = Some content ->
  (seed_database fs faults filepath data_date min_rating w).1 = Ok tt ->
  In p (admitted_players min_rating (db w) content) ->
  existing_ids
    (db (seed_database fs faults filepath data_date min_rating w).2)
    ⊆ existing_ids (db later) ->
  line_is_valid line = true ->
  line_fide_id line = fide_id p ->
  exists q,
    parse_line min_rating' (existing_ids (db later)) line = Accepted q
    /\ fide_id q = fide_id p.
Proof.
  intros Hfs Hok Hp Hsub Hv Hid.
  pose proof (seed_database_stores_players fs faults filepath data_date
                min_rating w content p Hfs Hok Hp) as Hin.
  rewrite <- Hid. apply parse_line_known; [exact Hv |].
  apply Hsub, existing_ids_spec. rewrite Hid.
  change (map player_key ?t) with (map pr_fide_id t). exact Hin.
Qed.

Lemma admitted_player_stays_tracked_witness :
  exists q,
    parse_line 2500
      (existing_ids
         (db (seed_database Fixtures.disk Sample.no_faults "list.txt"
                "2025-01-01" 2500 Sample.world0).2))
      Fixtures.carlsen_low = Accepted q
    /\ fide_id q = fide_id Sample.carlsen_player.
Proof.
  assert (Hok : (seed_database Fixtures.disk Sample.no_faults "list.txt"
                   "2025-01-01" 2500 Sample.world0).1 = Ok tt)
    by (vm_compute; reflexivity).
  assert (Hp : In Sample.carlsen_player
                 (admitted_players 2500 (db Sample.world0)
                    Fixtures.carlsen_file))
    by (vm_compute; left; reflexivity).
  assert (Hv : line_is_valid Fixtures.carlsen_low = true)
    by (vm_compute; reflexivity).
  assert (Hid : line_fide_id Fixtures.carlsen_low
                = fide_id Sample.carlsen_player)
    by (vm_compute; reflexivity).
  exact (admitted_player_stays_tracked Fixtures.disk Sample.no_faults
           "list.txt" "2025-01-01" 2500 Sample.world0
           (seed_database Fixtures.disk Sample.no_faults "list.txt"
              "2025-01-01" 2500 Sample.world0).2
           Fixtures.carlsen_file Sample.carlsen_player 2500
           Fixtures.carlsen_low eq_refl Hok Hp (fun x H => H) Hv Hid).
Defined.

(* ===================================================================== *)
(** * The upload of the live scrape                                      *)
(* ===================================================================== *)

Section Upload.
Variable faults : nat -> bool.

Lemma request_then_ret (q : Request) (w : World) :
  bind (request faults q) (fun _ => ret tt) w = request faults q w.
Proof.
  unfold bind, request, ret. destruct (negb (faults (clock w))); reflexivity.
Qed.

(** The three calls of an upload, made in order. *)
Lemma upload_rankings_run (p : Player) (ps : list Player)
    (today now : string) (w : World) :
  upload_rankings faults (p :: ps) today now w
  = for_each
      [CreateClient;
       UpsertPlayers (player_data (p :: ps)) UpdateOnConflict;
       UpsertRankings (ranking_data today now "scraper" (p :: ps))
         IgnoreOnConflict]
      (request faults) w.
Proof.
  unfold upload_rankings. cbn [for_each]. unfold get_db_connection.
  unfold bind at 1 3.
  destruct (request faults CreateClient w) as [[[] | e] w1]; [| reflexivity].
  rewrite try_except_reraise. unfold bind at 1 2.
  destruct (request faults _ w1) as [[[] | e] w2]; [| reflexivity].
  symmetry. apply request_then_ret.
Qed.

(** What an upload leaves in place. *)
Lemma upload_rankings_frame (ups : list Player) (today now : string)
    (w : World) :
  let res := upload_rankings faults ups today now w in
  rankings_table (db w) `prefix_of` rankings_table (db res.2)
  /\ (referential_integrity (db w) -> referential_integrity (db res.2)).
Proof.
  intros res. subst res. destruct ups as [| p ps].
  { cbn. split; [reflexivity | exact id]. }
  rewrite upload_rankings_run.
  destruct (run_requests faults
              [CreateClient;
               UpsertPlayers (player_data (p :: ps)) UpdateOnConflict;
               UpsertRankings (ranking_data today now "scraper" (p :: ps))
                 IgnoreOnConflict] w) as (n & Hn & _ & _ & Hfor).
  rewrite Hfor. cbn [snd db]. clear Hfor.
  cbn [length] in Hn.
  destruct n as [| [| [| [| n]]]]; try lia; cbn [take];
    unfold apply_requests; cbn [fold_left apply_request players_table
                                   rankings_table].
  - split; [reflexivity | exact id].
  - split; [reflexivity | exact id].
  - split; [reflexivity |]. intros Hri r Hr.
    cbn [players_table rankings_table] in *.
    change (map pr_fide_id ?t) with (map player_key t).
    apply upsert_keeps_keys, Hri, Hr.
  - split; [apply upsert_ignore_prefix |]. intros Hri r Hr.
    cbn [players_table rankings_table] in *.
    change (map pr_fide_id ?t) with (map player_key t).
    apply upsert_origin in Hr as [Hr | Hr].
    + apply upsert_keeps_keys, Hri, Hr.
    + apply in_map_iff in Hr as (q & <- & Hq). cbn [rk_fide_id].
      change (fide_id q) with (player_key (player_row_of q)).
      apply upsert_has_keys. unfold player_data. apply in_map_iff.
      exists q. split; [reflexivity | exact Hq].
Qed.

(** X17. An upload of an empty list makes no call at all. Otherwise it
    connects, sends all players in one upsert and then all observations
    in one insert-if-absent upsert, stopping at the first call that
    fails. Observations stored before stay in place unchanged, and
    observations keep referring to stored players. *)
Theorem upload_rankings_outcome (ups : list Player) (today now : string)
    (w : World) :
  let reqs :=
    match ups with
    | [] => []
    | _ :: _ =>
        [CreateClient;
         UpsertPlayers (player_data ups) UpdateOnConflict;
         UpsertRankings (ranking_data today now "scraper" ups)
           IgnoreOnConflict]
    end in
  let res := upload_rankings faults ups today now w in
  (exists n,
      (n <= length reqs)%nat
      /\ (forall k, (k < n)%nat -> faults (clock w + k) = false)
      /\ ((n < length reqs)%nat -> faults (clock w + n) = true)
      /\ res = (if (n <? length reqs)%nat then Raise APIError else Ok tt,
                {| db := apply_requests (take n reqs) (db w);
                   clock := clock w
                            + (if (n <? length reqs)%nat then S n else n);
                   stdin := stdin w;
                   trace := trace w ++ ok_events (take n reqs)
                            ++ match reqs !! n with
                               | Some q => [EvStore q false]
                               | None => []
                               end |}))
  /\ rankings_table (db w) `prefix_of` rankings_table (db res.2)
  /\ (referential_integrity (db w) -> referential_integrity (db res.2)).
Proof.
  intros reqs res.
  assert (Hrun : res = for_each reqs (request faults) w).
  { subst res reqs. destruct ups as [| p ps]; [reflexivity |].
    apply upload_rankings_run. }
  destruct (run_requests faults reqs w) as (n & Hn & Hok & Hfail & Hfor).
  rewrite <- Hrun in Hfor.
  split; [exists n; repeat split; assumption |].
  apply upload_rankings_frame.
Qed.

End Upload.

(** X18. The live scrape never replaces what the seeding wrote: when the
    store already holds an observation for a player on the day of the
    upload, that row is still the one stored under its key after the
    upload, whatever the upload carries for the player. *)
Theorem upload_keeps_seeded_observation (faults : nat -> bool)
    (ups : list Player) (today now : string) (w : World)
    (r : RankingRow) :
  unique_observations (db w) ->
  In r (rankings_table (db w)) ->
  let d' := db (upload_rankings faults ups today now w).2 in
  forall r', In r' (rankings_table d') ->
             ranking_key r' = ranking_key r -> r' = r.
Proof.
  intros Hu Hr d' r' Hr' Hkey. subst d'.
  destruct (upload_rankings_effect faults ups today now w)
    as [(reqs & Hdb) _].
  pose proof (apply_requests_unique reqs (db w) Hu) as Hu'.
  rewrite <- Hdb in Hu'.
  destruct (upload_rankings_frame faults ups today now w)
    as ([k Hpre] & _).
  apply (NoDup_map_inj ranking_key
           (rankings_table (db (upload_rankings faults ups today now w).2)));
    try assumption.
  rewrite Hpre. apply in_or_app. left. exact Hr.
Qed.

Lemma upload_keeps_seeded_observation_witness :
  Forall (fun r' => ranking_key r' = ranking_key Sample.obs_first ->
                    r' = Sample.obs_first)
    (rankings_table
       (db (upload_rankings Sample.no_faults [Fixtures.carlsen_scraped]
              "2025-01-01" "2025-01-01T09:30:00"
              (seed_database Fixtures.disk Sample.no_faults "list.txt"
                 "2025-01-01" 2500 Sample.world0).2).2)).
Proof.
  apply Forall_forall. intros r' Hin. apply list_elem_of_In in Hin.
  revert r' Hin. apply upload_keeps_seeded_observation.
  - vm_compute. apply NoDup_singleton.
  - vm_compute. left. reflexivity.
Defined.

(* ===================================================================== *)
(** * The command line                                                   *)
(* ===================================================================== *)

Section MainFacts.
Variable fs : string -> option string.
Variable faults : nat -> bool.
Variable path_exists : string -> bool.

Lemma answered_frame (raw : string) (rest : list string) (w : World) :
  db (answered raw rest w) = db w
  /\ clock (answered raw rest w) = clock w
  /\ stdin (answered raw rest w) = rest
  /\ trace (answered raw rest w) = trace w ++ [EvPrompt raw].
Proof. repeat split. Qed.

(** The batch loop reads the console up to the first "done" and queues
    only checked entries; it touches nothing but the console. *)
Lemma batch_loop_spec (console : list string) :
  forall (acc : list (string * string)) (w : World),
    stdin w = console ->
    let res := batch_loop path_exists console acc w in
    db res.2 = db w /\ clock res.2 = clock w
    /\ (exists consumed,
           console = consumed ++ stdin res.2
           /\ trace res.2 = trace w ++ map EvPrompt consumed
           /\ match res.1 with
              | Ok l =>
                  (exists added, l = acc ++ added
                                 /\ Forall (checked_entry path_exists) added)
                  /\ exists before raw,
                       consumed = before ++ [raw] /\ is_done raw
                       /\ Forall (fun r => ~ is_done r) before
              | Raise e =>
                  e = EOFError /\ stdin res.2 = []
                  /\ Forall (fun r => ~ is_done r) console
              end).
Proof.
  induction console as [| raw rest IH]; intros acc w Hstd res; subst res.
  { cbn [batch_loop fst snd]. repeat split.
    exists []. cbn [map app]. rewrite app_nil_r.
    repeat split; [symmetry; exact Hstd | exact Hstd | constructor]. }
  assert (Hstep : forall acc',
             (exists added, acc' = acc ++ added
                            /\ Forall (checked_entry path_exists) added) ->
             let res := batch_loop path_exists rest acc'
                          (answered raw rest w) in
             ~ is_done raw ->
             db res.2 = db w /\ clock res.2 = clock w
             /\ (exists consumed,
                    raw :: rest = consumed ++ stdin res.2
                    /\ trace res.2 = trace w ++ map EvPrompt consumed
                    /\ match res.1 with
                       | Ok l =>
                           (exists added,
                               l = acc ++ added
                               /\ Forall (checked_entry path_exists) added)
                           /\ exists before raw0,
                                consumed = before ++ [raw0] /\ is_done raw0
                                /\ Forall (fun r => ~ is_done r) before
                       | Raise e =>
                           e = EOFError /\ stdin res.2 = []
                           /\ Forall (fun r => ~ is_done r) (raw :: rest)
                       end)).
  { intros acc' (added & -> & Hadd) res Hnd. subst res.
    destruct (IH (acc ++ added) (answered raw rest w) eq_refl)
      as (Hdb & Hck & consumed & Hcon & Htr & Hres).
    split; [exact Hdb |]. split; [exact Hck |].
    exists (raw :: consumed). split; [cbn; congruence |].
    split.
    { rewrite Htr. cbn [answered trace map]. rewrite <- app_assoc.
      reflexivity. }
    destruct (batch_loop path_exists rest (acc ++ added)
                (answered raw rest w)).1 as [l | e].
    - destruct Hres as ((added' & -> & Hadd') & before & raw0 & -> & Hd & Hb).
      split.
      + exists (added ++ added'). rewrite app_assoc. split; [reflexivity |].
        apply Forall_app. split; assumption.
      + exists (raw :: before), raw0. split; [reflexivity |].
        split; [exact Hd |]. constructor; assumption.
    - destruct Hres as (-> & Hnil & Hall). repeat split; try assumption.
      constructor; assumption. }
  cbn [batch_loop]. case_bool_decide as Hdone.
  { cbn [fst snd answered db clock stdin trace]. repeat split.
    exists [raw]. repeat split.
    - exists []. rewrite app_nil_r. split; [reflexivity | constructor].
    - exists [], raw. repeat split; [exact Hdone | constructor]. }
  assert (Hsame : exists added, acc = acc ++ added
                                /\ Forall (checked_entry path_exists) added).
  { exists []. rewrite app_nil_r. split; [reflexivity | constructor]. }
  destruct (split "," (Py.strip raw)) as [| part1 [| part2 [| part3 parts]]];
    try (apply (Hstep acc Hsame Hdone)).
  destruct (Date.strptime (Py.strip part2)) as [ymd |] eqn:Hd;
    [| apply (Hstep acc Hsame Hdone)].
  destruct (path_exists (Py.strip part1)) eqn:Hf; cbn [negb];
    [| apply (Hstep acc Hsame Hdone)].
  apply Hstep; [| exact Hdone].
  exists [(Py.strip part1, Py.strip part2)]. split; [reflexivity |].
  constructor; [| constructor]. unfold checked_entry. cbn [fst snd].
  rewrite Hd, !strip_idempotent.
  repeat split; [exact Hf | eexists; reflexivity].
Qed.

(** X19. The batch prompt touches only the console. It reads up to the
    first line that is "done" once stripped and lowered, and every entry
    it returns names a path of which [os.path.exists] holds (a file or
    a directory) and a date [strptime] accepts, both stripped. It
    fails, with [EOFError], exactly when the console ends before any
    such line. *)
Theorem read_batch_checks_entries (w : World) :
  let res := read_batch path_exists w in
  db res.2 = db w /\ clock res.2 = clock w
  /\ exists consumed,
       stdin w = consumed ++ stdin res.2
       /\ trace res.2 = trace w ++ map EvPrompt consumed
       /\ match res.1 with
          | Ok file_list =>
              Forall (checked_entry path_exists) file_list
              /\ exists before raw,
                   consumed = before ++ [raw] /\ is_done raw
                   /\ Forall (fun r => ~ is_done r) before
          | Raise e =>
              e = EOFError /\ stdin res.2 = []
              /\ Forall (fun r => ~ is_done r) (stdin w)
          end.
Proof.
  intros res. subst res. unfold read_batch.
  destruct (batch_loop_spec (stdin w) [] w eq_refl)
    as (Hdb & Hck & consumed & Hcon & Htr & Hres).
  split; [exact Hdb |]. split; [exact Hck |].
  exists consumed. split; [exact Hcon |]. split; [exact Htr |].
  destruct (batch_loop path_exists (stdin w) [] w).1 as [l | e]; [| exact Hres].
  destruct Hres as ((added & -> & Hadd) & Hlast). split; assumption.
Qed.

Lemma processed_prompts (consumed : list string) :
  processed (map EvPrompt consumed) = [].
Proof. induction consumed; [reflexivity | exact IHconsumed]. Qed.

Lemma confirm_refused (file_list : list (string * string))
    (min_rating : Z) (w : World) :
  Forall (fun r => Py.lower r <> "y") (stdin w) ->
  let res := confirm_and_seed fs faults file_list min_rating w in
  db res.2 = db w /\ clock res.2 = clock w
  /\ exists evs, trace res.2 = trace w ++ evs /\ processed evs = [].
Proof.
  intros Hno res. subst res. unfold confirm_and_seed, bind, input.
  destruct (stdin w) as [| c rest].
  { cbn [snd]. repeat split. exists []. rewrite app_nil_r. split; reflexivity. }
  apply Forall_cons in Hno as [Hc _].
  rewrite bool_decide_eq_false_2 by exact Hc. cbn [ret snd db clock trace].
  repeat split. exists [EvPrompt c]. split; reflexivity.
Qed.

(** X20. Nothing is seeded without consent: in the [--all] and [--batch]
    modes, when no line the console holds lowers to "y", [main] makes
    no call on the store, leaves it as it was and starts no source. *)
Theorem main_needs_consent (args : Args) (w : World) :
  arg_all args = true
  \/ truthy (arg_file args) && truthy (arg_date args) = false ->
  Forall (fun r => Py.lower r <> "y") (stdin w) ->
  let res := main fs faults path_exists args w in
  db res.2 = db w /\ clock res.2 = clock w
  /\ processed (new_events w res.2) = [].
Proof.
  intros Hmode Hno res. subst res.
  enough (H : db (main fs faults path_exists args w).2 = db w
              /\ clock (main fs faults path_exists args w).2 = clock w
              /\ exists evs,
                   trace (main fs faults path_exists args w).2
                   = trace w ++ evs
                             /\ processed evs = []).
  { destruct H as (Hdb & Hck & evs & Htr & Hp).
    split; [exact Hdb |]. split; [exact Hck |].
    unfold new_events. rewrite Htr, drop_app_length. exact Hp. }
  unfold main.
  destruct (arg_all args) eqn:Hall; [apply confirm_refused, Hno |].
  destruct Hmode as [Hmode | Hmode]; [discriminate |]. rewrite Hmode.
  assert (Hidle : db w = db w /\ clock w = clock w
                  /\ exists evs, trace w = trace w ++ evs
                                 /\ processed evs = []).
  { repeat split. exists []. rewrite app_nil_r. split; reflexivity. }
  destruct (arg_batch args); [| exact Hidle].
  unfold bind, read_batch.
  destruct (batch_loop_spec (stdin w) [] w eq_refl)
    as (Hdb & Hck & consumed & Hcon & Htr & _).
  destruct (batch_loop path_exists (stdin w) [] w) as [[l | e] w1];
    cbn [fst snd] in *.
  2:{ split; [exact Hdb |]. split; [exact Hck |].
      exists (map EvPrompt consumed).
      split; [exact Htr | apply processed_prompts]. }
  destruct l as [| s l].
  { cbn [ret snd]. split; [exact Hdb |]. split; [exact Hck |].
    exists (map EvPrompt consumed).
    split; [exact Htr | apply processed_prompts]. }
  assert (Hno1 : Forall (fun r => Py.lower r <> "y") (stdin w1)).
  { rewrite Hcon in Hno. apply Forall_app in Hno as [_ Hno]. exact Hno. }
  destruct (confirm_refused (s :: l) (arg_min_rating args) w1 Hno1)
    as (Hdb2 & Hck2 & evs & Hev & Hp2).
  split; [congruence |]. split; [congruence |].
  exists (map EvPrompt consumed ++ evs).
  rewrite Hev, Htr, <- app_assoc. split; [reflexivity |].
  rewrite processed_app, processed_prompts, Hp2. reflexivity.
Qed.

End MainFacts.

Lemma main_needs_consent_witness :
  let args := mkArgs None None 2500 true false in
  let w := Fixtures.world_typing ["list.txt, 2025-01-01"; "done"; "n"] in
  let res := main Fixtures.disk Sample.no_faults Fixtures.present args w in
  db res.2 = db w /\ clock res.2 = clock w
  /\ processed (new_events w res.2) = [].
Proof.
  apply main_needs_consent.
  - right. reflexivity.
  - repeat constructor; cbn; discriminate.
Defined.

Lemma preset_sorted : Py.sorted snd files_to_seed = files_to_seed.
Proof. vm_compute. reflexivity. Qed.

Lemma preset_dates :
  Forall (fun source => is_Some (Date.strptime source.2)) files_to_seed.
Proof. repeat constructor; eexists; vm_compute; reflexivity. Qed.

(** X21. With [--all] and a consent that lowers to "y", the sources
    started are an initial segment of the preset in the order it is
    written, the October 2024 list first; when the thirteen files are
    in place and no call on the store fails, all thirteen are seeded and
    the console is not read again. *)
Theorem main_all_runs_preset (fs : string -> option string)
    (faults : nat -> bool) (path_exists : string -> bool) (args : Args)
    (w : World) (confirm : string) (rest : list string) :
  arg_all args = true ->
  stdin w = confirm :: rest ->
  Py.lower confirm = "y" ->
  let res := main fs faults path_exists args w in
  (exists n, (0 < n)%nat
             /\ processed (new_events w res.2) = take n files_to_seed)
  /\ ((forall n, faults n = false) ->
      Forall (fun source => is_Some (fs source.1)) files_to_seed ->
      res.1 = Ok tt
      /\ processed (new_events w res.2) = files_to_seed
      /\ stdin res.2 = rest).
Proof.
  intros Hall Hstd Hy res. subst res.
  unfold main. rewrite Hall.
  unfold confirm_and_seed, bind, input. rewrite Hstd.
  rewrite bool_decide_eq_true_2 by exact Hy.
  unfold seed_multiple_files. rewrite preset_sorted.
  fold (answered confirm rest w).
  set (w1 := answered confirm rest w).
  assert (Hnew : forall evs w',
             trace w' = trace w1 ++ evs ->
             processed (new_events w w') = processed evs).
  { intros evs w' Ht. unfold new_events. rewrite Ht. subst w1.
    cbn [answered trace]. rewrite <- app_assoc, drop_app_length.
    reflexivity. }
  split.
  - destruct (seed_loop_processed fs faults files_to_seed
                (arg_min_rating args) w1) as (evs & n & Ht & Hp & Hpos & _).
    exists n. split; [apply Hpos; discriminate |].
    rewrite (Hnew _ _ Ht). exact Hp.
  - intros Hnf Hfiles.
    assert (Hq : Forall (fun source => is_Some (fs source.1)
                                       /\ is_Some (Date.strptime source.2))
                   files_to_seed).
    { pose proof preset_dates as Hd. rewrite Forall_forall in *.
      intros x Hx. split; [apply Hfiles | apply Hd]; exact Hx. }
    destruct (seed_loop_smooth fs faults files_to_seed
                (arg_min_rating args) Hnf Hq w1)
      as (Hr & Hs & evs & Ht & Hp & _).
    split; [exact Hr |]. split; [| exact Hs].
    rewrite (Hnew _ _ Ht). exact Hp.
Qed.

Lemma main_all_runs_preset_witness :
  exists n, (0 < n)%nat
    /\ processed
         (new_events (Sample.world_answering "Y")
            (main Sample.no_files Sample.no_faults (fun _ => false)
               (mkArgs None None 2500 false true)
               (Sample.world_answering "Y")).2)
       = take n files_to_seed.
Proof.
  exact (proj1 (main_all_runs_preset Sample.no_files Sample.no_faults
                  (fun _ => false) (mkArgs None None 2500 false true)
                  (Sample.world_answering "Y") "Y" [] eq_refl eq_refl
                  eq_refl)).
Defined.

(* ===================================================================== *)
(** * Dates as typed and dates as written                                *)
(* ===================================================================== *)

Lemma in_range_bounds (lo hi : N) (c : ascii) :
  Date.in_range lo hi c = true -> (lo <= Py.ord c <= hi)%N.
Proof.
  unfold Date.in_range. intros H. apply andb_true_iff in H as [H1 H2].
  apply N.leb_le in H1. apply N.leb_le in H2. lia.
Qed.

Lemma digit_value_ord (c : ascii) :
  Py.digit_value c = Z.of_N (Py.ord c) - 48.
Proof. reflexivity. Qed.

Lemma month_dash_range (s : string) (m : Z) (rest : string) :
  Date.month_dash s = Some (m, rest) -> 1 <= m <= 12.
Proof.
  unfold Date.month_dash.
  destruct s as [| a [| b [| c s]]]; try discriminate.
  - destruct (Date.in_range 49 57 a && Date.dash b) eqn:E; [| discriminate].
    intros [= <- _]. apply andb_true_iff in E as [E _].
    apply in_range_bounds in E. rewrite digit_value_ord. lia.
  - destruct ((Py.ord a =? 49)%N && Date.in_range 48 50 b && Date.dash c)
      eqn:E1.
    { intros [= <- _]. apply andb_true_iff in E1 as [E1 _].
      apply andb_true_iff in E1 as [_ E1].
      apply in_range_bounds in E1. rewrite digit_value_ord. lia. }
    destruct ((Py.ord a =? 48)%N && Date.in_range 49 57 b && Date.dash c)
      eqn:E2.
    { intros [= <- _]. apply andb_true_iff in E2 as [E2 _].
      apply andb_true_iff in E2 as [_ E2].
      apply in_range_bounds in E2. rewrite digit_value_ord. lia. }
    destruct (Date.in_range 49 57 a && Date.dash b) eqn:E3; [| discriminate].
    intros [= <- _]. apply andb_true_iff in E3 as [E3 _].
    apply in_range_bounds in E3. rewrite digit_value_ord. lia.
Qed.

Lemma day_end_range (s : string) (d : Z) :
  Date.day_end s = Some d -> 1 <= d.
Proof.
  unfold Date.day_end.
  destruct s as [| a [| b s]]; try discriminate.
  - destruct (Date.in_range 49 57 a) eqn:E; [| discriminate].
    intros [= <-]. apply in_range_bounds in E. rewrite digit_value_ord. lia.
  - destruct ((Py.ord a =? 51)%N && Date.in_range 48 49 b) eqn:E1.
    { destruct (Py.is_empty s); [| discriminate]. intros [= <-].
      apply andb_true_iff in E1 as [_ E1]. apply in_range_bounds in E1.
      rewrite digit_value_ord. lia. }
    destruct (Date.in_range 49 50 a && Py.isdigit b) eqn:E2.
    { destruct (Py.is_empty s); [| discriminate]. intros [= <-].
      apply andb_true_iff in E2 as [E2 E2'].
      apply in_range_bounds in E2. apply digit_value_bounds in E2'.
      rewrite (digit_value_ord a). lia. }
    destruct ((Py.ord a =? 48)%N && Date.in_range 49 57 b) eqn:E3.
    { destruct (Py.is_empty s); [| discriminate]. intros [= <-].
      apply andb_true_iff in E3 as [_ E3]. apply in_range_bounds in E3.
      rewrite digit_value_ord. lia. }
    destruct (Date.in_range 49 57 a); [discriminate |].
    destruct ((Py.ord a =? 32)%N && Date.in_range 49 57 b) eqn:E4;
      [| discriminate].
    destruct (Py.is_empty s); [| discriminate]. intros [= <-].
    apply andb_true_iff in E4 as [_ E4]. apply in_range_bounds in E4.
    rewrite digit_value_ord. lia.
Qed.

(** What [strptime] returns is a date of the calendar. *)
Lemma strptime_real (s : string) (ymd : Z * Z * Z) :
  Date.strptime s = Some ymd -> real_date ymd.
Proof.
  unfold Date.strptime.
  destruct s as [| y1 [| y2 [| y3 [| y4 [| d1 rest]]]]]; try discriminate.
  destruct (Py.isdigit y1 && Py.isdigit y2 && Py.isdigit y3 && Py.isdigit y4
            && Date.dash d1) eqn:E; [| discriminate].
  destruct (Date.month_dash rest) as [[m rest'] |] eqn:Em; [| discriminate].
  destruct (Date.day_end rest') as [d |] eqn:Ed; [| discriminate].
  destruct ((1 <=? _) && (d <=? Date.days_in_month _ m)) eqn:Ec;
    [| discriminate].
  intros [= <-]. unfold real_date.
  apply andb_true_iff in Ec as [Ey Edm].
  apply Z.leb_le in Ey. apply Z.leb_le in Edm.
  apply andb_true_iff in E as [E _].
  apply andb_true_iff in E as [E E4]. apply andb_true_iff in E as [E E3].
  apply andb_true_iff in E as [E1 E2].
  apply digit_value_bounds in E1, E2, E3, E4.
  apply month_dash_range in Em. apply day_end_range in Ed. lia.
Qed.

Lemma digit_char_isdigit (d : Z) : Py.isdigit (Date.digit_char d) = true.
Proof.
  unfold Py.isdigit. rewrite digit_char_ord.
  pose proof (Z.mod_pos_bound d 10 ltac:(lia)).
  apply andb_true_iff. split; apply N.leb_le; lia.
Qed.

Lemma digit_char_value (d : Z) :
  Py.digit_value (Date.digit_char d) = d mod 10.
Proof.
  rewrite digit_value_ord, digit_char_ord.
  pose proof (Z.mod_pos_bound d 10 ltac:(lia)). lia.
Qed.

Lemma month_dash_pad2 (m : Z) (rest : string) :
  1 <= m <= 12 ->
  Date.month_dash (Date.pad2 m +:+ "-" +:+ rest) = Some (m, rest).
Proof.
  intros H.
  assert (Hm : m = 1 \/ m = 2 \/ m = 3 \/ m = 4 \/ m = 5 \/ m = 6 \/ m = 7
               \/ m = 8 \/ m = 9 \/ m = 10 \/ m = 11 \/ m = 12) by lia.
  repeat (destruct Hm as [-> | Hm]; [reflexivity |]). subst m. reflexivity.
Qed.

Lemma day_end_pad2 (d : Z) :
  1 <= d <= 31 -> Date.day_end (Date.pad2 d) = Some d.
Proof.
  intros H.
  assert (Hd : exists k, (k < 31)%nat /\ d = 1 + Z.of_nat k).
  { exists (Z.to_nat (d - 1)). lia. }
  destruct Hd as (k & Hk & ->). clear H.
  do 31 (destruct k as [| k]; [reflexivity |]). lia.
Qed.

Lemma days_in_month_bound (y m : Z) : Date.days_in_month y m <= 31.
Proof.
  unfold Date.days_in_month.
  destruct (m =? 2); [destruct (Date.is_leap y); lia |].
  destruct (_ || _); lia.
Qed.

(** [strptime] reads back what [isoformat] writes. *)
Lemma strptime_isoformat (ymd : Z * Z * Z) :
  real_date ymd -> Date.strptime (Date.date_isoformat ymd) = Some ymd.
Proof.
  destruct ymd as [[y m] d]. intros (Hy & Hm & Hd).
  pose proof (days_in_month_bound y m) as Hb.
  unfold Date.date_isoformat, Date.pad4.
  change (String ?a (String ?b (Date.pad2 y)) +:+ ?t)
    with (String a (String b (String (Date.digit_char (y / 10))
            (String (Date.digit_char y) t)))).
  change ("-" +:+ ?t) with (String "-" t) at 1.
  unfold Date.strptime. rewrite !digit_char_isdigit.
  change (Date.dash "-") with true. cbn [andb].
  rewrite !digit_char_value, <- (digits4 y) by lia.
  change (String "-" (Date.pad2 d)) with ("-" +:+ Date.pad2 d).
  rewrite month_dash_pad2 by lia. rewrite day_end_pad2 by lia.
  replace (1 <=? y) with true by (symmetry; apply Z.leb_le; lia).
  replace (d <=? Date.days_in_month y m) with true
    by (symmetry; apply Z.leb_le; lia).
  reflexivity.
Qed.

(** X22. Whatever spelling of a date [strptime] accepts, the date it
    yields is a date of the calendar, and the ten-character ISO form
    written to the store is read back by [strptime] as the same date. *)
Theorem strptime_isoformat_round_trip (s : string) (ymd : Z * Z * Z) :
  Date.strptime s = Some ymd ->
  real_date ymd
  /\ Date.strptime (Date.date_isoformat ymd) = Some ymd
  /\ String.length (Date.date_isoformat ymd) = 10%nat.
Proof.
  intros H. apply strptime_real in H.
  split; [exact H |]. split; [apply strptime_isoformat, H |].
  destruct ymd as [[y m] d]. reflexivity.
Qed.

Lemma strptime_isoformat_round_trip_witness :
  real_date (2025, 1, 5)
  /\ Date.strptime (Date.date_isoformat (2025, 1, 5)) = Some (2025, 1, 5)
  /\ String.length (Date.date_isoformat (2025, 1, 5)) = 10%nat.
Proof.
  apply (strptime_isoformat_round_trip "2025-1-5"). vm_compute. reflexivity.
Defined.

Section DateSpelling.
Variable fs : string -> option string.
Variable faults : nat -> bool.

Lemma for_each_same_store (reqs : list Request) :
  forall w1 w2,
    same_store w1 w2 ->
    (for_each reqs (request faults) w1).1
    = (for_each reqs (request faults) w2).1
    /\ same_store (for_each reqs (request faults) w1).2
                  (for_each reqs (request faults) w2).2.
Proof.
  induction reqs as [| q reqs IH]; intros w1 w2 Hs.
  { split; [reflexivity | exact Hs]. }
  cbn [for_each]. unfold bind.
  assert (Hq : (request faults q w1).1 = (request faults q w2).1
               /\ same_store (request faults q w1).2
                             (request faults q w2).2).
  { destruct Hs as (Hdb & Hck & Hin). unfold request. cbn [fst snd].
    rewrite Hck, Hdb, Hin. repeat split. }
  destruct (request faults q w1) as [r1 w1'],
           (request faults q w2) as [r2 w2'].
  cbn [fst snd] in Hq. destruct Hq as [-> Hs'].
  destruct r2 as [[] | e]; [apply IH, Hs' |].
  split; [reflexivity | exact Hs'].
Qed.

(** X23. A run depends on its date only through what [strptime] makes
    of it: two spellings of one date give the same result and leave the
    same store, clock and console. *)
Theorem seed_database_date_spelling (filepath date1 date2 : string)
    (min_rating : Z) (w : World) :
  Date.strptime date1 = Date.strptime date2 ->
  let res1 := seed_database fs faults filepath date1 min_rating w in
  let res2 := seed_database fs faults filepath date2 min_rating w in
  res1.1 = res2.1 /\ same_store res1.2 res2.2.
Proof.
  intros Heq res1 res2. subst res1 res2.
  destruct (faults (clock w)) eqn:H1.
  { unfold seed_database, bind, emit, get_db_connection, request.
    cbn [clock db stdin trace]. rewrite H1. repeat split. }
  destruct (faults (S (clock w))) eqn:H2.
  { unfold seed_database, bind, emit, get_db_connection,
      get_existing_fide_ids, bind, request.
    cbn [clock db stdin trace]. rewrite H1. cbn [negb clock]. rewrite H2.
    repeat split. }
  destruct (fs filepath) as [content |] eqn:Hfs.
  2:{ unfold seed_database, bind, emit, get_db_connection,
        get_existing_fide_ids, bind, request, parse_fide_text_file.
      cbn [clock db stdin trace]. rewrite H1.
      cbn [negb clock db stdin trace]. rewrite H2, Hfs. repeat split. }
  rewrite !(seed_database_prologue _ _ _ _ _ _ _ H1 H2 Hfs).
  destruct (admitted_players min_rating (db w) content) as [| p ps];
    [repeat split |].
  destruct (Date.strptime date1) as [ymd |] eqn:Hd.
  - rewrite (write_phase _ _ _ _ _ Hd).
    rewrite (write_phase _ _ _ _ _ (eq_sym Heq)).
    apply for_each_same_store. repeat split.
  - unfold write_players_and_rankings. rewrite <- Heq, Hd. repeat split.
Qed.

End DateSpelling.

Lemma seed_database_date_spelling_witness :
  let res1 := seed_database Fixtures.disk Sample.no_faults "list.txt"
                "2025-1-1" 2500 Sample.world0 in
  let res2 := seed_database Fixtures.disk Sample.no_faults "list.txt"
                "2025-01-01" 2500 Sample.world0 in
  res1.1 = res2.1 /\ same_store res1.2 res2.2.
Proof.
  apply seed_database_date_spelling. vm_compute. reflexivity.
Defined.

(* ===================================================================== *)
(** * Month codes                                                        *)
(* ===================================================================== *)

Lemma days_in_month_lower (y m : Z) : 28 <= Date.days_in_month y m.
Proof.
  unfold Date.days_in_month.
  destruct (m =? 2); [destruct (Date.is_leap y); lia |].
  destruct (_ || _); lia.
Qed.

Lemma month_code_index (dt : datetime) :
  1 <= dt_month dt <= 12 ->
  month_code dt = code_of_index (month_index dt).
Proof.
  intros H. unfold code_of_index, month_index, month_code.
  cbn [dt_year dt_month].
  replace ((12 * dt_year dt + (dt_month dt - 1)) / 12) with (dt_year dt)
    by (Z.to_euclidean_division_equations; lia).
  replace ((12 * dt_year dt + (dt_month dt - 1)) mod 12 + 1)
    with (dt_month dt) by (Z.to_euclidean_division_equations; lia).
  reflexivity.
Qed.

(** One month later: the next index, the same day while it is at most
    28, the same time of day. *)
Lemma add_month_spec (dt : datetime) :
  real_datetime dt -> dt_day dt <= 28 ->
  match add_month dt with
  | None => month_index dt = 119999
  | Some next =>
      real_datetime next /\ month_index next = month_index dt + 1
      /\ dt_day next = dt_day dt /\ dt_time next = dt_time dt
  end.
Proof.
  intros [(Hy & Hm & Hd) Ht] H28. unfold add_month, month_index.
  pose proof (days_in_month_lower
                (if 12 <? dt_month dt + 1 then dt_year dt + 1 else dt_year dt)
                (if 12 <? dt_month dt + 1 then dt_month dt + 1 - 12
                 else dt_month dt + 1)) as Hlow.
  destruct (12 <? dt_month dt + 1) eqn:E12;
    [apply Z.ltb_lt in E12 | apply Z.ltb_ge in E12].
  - destruct (9999 <? dt_year dt + 1) eqn:E9;
      [apply Z.ltb_lt in E9; lia | apply Z.ltb_ge in E9].
    unfold real_datetime, real_date. cbn [dt_year dt_month dt_day dt_time].
    rewrite Z.min_r by lia. repeat split; lia.
  - destruct (9999 <? dt_year dt) eqn:E9;
      [apply Z.ltb_lt in E9; lia | apply Z.ltb_ge in E9].
    unfold real_datetime, real_date. cbn [dt_year dt_month dt_day dt_time].
    rewrite Z.min_r by lia. repeat split; lia.
Qed.

Lemma datetime_le_months (a b : datetime) :
  1 <= dt_month a <= 12 -> 1 <= dt_month b <= 12 ->
  datetime_le a b
  = (month_index a <? month_index b)
    || ((month_index a =? month_index b) && last_month_counts a b).
Proof.
  intros Ha Hb. unfold datetime_le, last_month_counts, month_index.
  split_comparisons; cbn; try reflexivity; lia.
Qed.

Lemma month_loop_spec (end_date : datetime) :
  real_datetime end_date ->
  forall (n fuel : nat) (current : datetime) (months : list string),
    real_datetime current -> dt_day current <= 28 ->
    months_between current end_date = n ->
    (n < fuel)%nat ->
    DownloadHistorical.month_loop fuel current end_date months
    = Some (if month_index current + Z.of_nat n =? 120000
            then Raise ValueError
            else Ok (months
                     ++ map (fun i => code_of_index
                                        (month_index current + Z.of_nat i))
                          (seq 0 n))).
Proof.
  intros He n. induction n as [| n IH];
    intros fuel current months Hc H28 Hn Hfuel;
    (destruct fuel as [| fuel]; [lia |]);
    cbn [DownloadHistorical.month_loop];
    pose proof Hc as [(Hy & Hm & Hd) Ht];
    pose proof He as [(Hye & Hme & Hde) Hte];
    rewrite (datetime_le_months current end_date) by lia;
    unfold months_between in Hn.
  - assert (Hle : (month_index current <? month_index end_date)
                  || ((month_index current =? month_index end_date)
                      && last_month_counts current end_date) = false).
    { destruct (last_month_counts current end_date);
        split_comparisons; cbn; try reflexivity; lia. }
    rewrite Hle. cbn [seq map]. rewrite app_nil_r.
    assert (month_index current <> 120000) by (unfold month_index; lia).
    destruct (Z.eqb_spec (month_index current + Z.of_nat 0) 120000);
      [lia | reflexivity].
  - assert (Hle : (month_index current <? month_index end_date)
                  || ((month_index current =? month_index end_date)
                      && last_month_counts current end_date) = true).
    { destruct (last_month_counts current end_date);
        split_comparisons; cbn; try reflexivity; lia. }
    rewrite Hle.
    pose proof (add_month_spec current Hc H28) as Hadd.
    assert (Hbound : month_index current + Z.of_nat (S n) <= 120000).
    { unfold month_index in *.
      destruct (last_month_counts current end_date);
        split_comparisons; lia. }
    destruct (add_month current) as [next |].
    + destruct Hadd as (Hnext & Hidx & Hday & Htime).
      assert (Hn' : months_between next end_date = n).
      { unfold months_between, last_month_counts. rewrite Hidx, Hday, Htime.
        fold (last_month_counts current end_date).
        destruct (last_month_counts current end_date);
          split_comparisons; lia. }
      rewrite (IH fuel next (months ++ [month_code current]) Hnext
                 ltac:(lia) Hn' ltac:(lia)).
      rewrite Hidx.
      replace (month_index current + 1 + Z.of_nat n)
        with (month_index current + Z.of_nat (S n)) by lia.
      destruct (_ =? 120000); [reflexivity |].
      do 2 f_equal. rewrite <- app_assoc. f_equal.
      cbn [seq map app]. rewrite Z.add_0_r, month_code_index by lia.
      f_equal. rewrite <- seq_shift, map_map. apply map_ext.
      intros i. f_equal. lia.
    + assert (n = 0%nat) by lia. subst n. rewrite Hadd. reflexivity.
Qed.

(** X24. For datetimes Python can build, with a start on one of the
    first 28 days of its month, [generate_month_codes] returns one code
    per month, in order, from the month of the start to the last month
    that begins a turn (the month of the end when the start's day and
    time are not later than the end's, the month before otherwise), and
    nothing when the start is later than the end. Only a range that
    includes December 9999 fails, with the [ValueError] of the step
    past it. The bound on the turns is never reached. *)
Theorem generate_month_codes_spec (start_date end_date : datetime) :
  real_datetime start_date -> real_datetime end_date ->
  dt_day start_date <= 28 ->
  let n := months_between start_date end_date in
  DownloadHistorical.generate_month_codes start_date end_date
  = Some (if month_index start_date + Z.of_nat n =? 120000
          then Raise ValueError
          else Ok (map (fun i => code_of_index
                                   (month_index start_date + Z.of_nat i))
                     (seq 0 n))).
Proof.
  intros Hs He H28 n. subst n.
  unfold DownloadHistorical.generate_month_codes.
  rewrite (month_loop_spec end_date He
             (months_between start_date end_date) _ start_date [] Hs H28
             eq_refl).
  - reflexivity.
  - unfold months_between. destruct (last_month_counts _ _);
      split_comparisons; lia.
Qed.

Lemma generate_month_codes_spec_witness :
  DownloadHistorical.generate_month_codes
    (mkDatetime 2024 11 15 0) (mkDatetime 2025 2 1 0)
  = Some (Ok ["nov24"; "dec24"; "jan25"]).
Proof.
  assert (Hs : real_datetime (mkDatetime 2024 11 15 0))
    by (vm_compute; intuition discriminate).
  assert (He : real_datetime (mkDatetime 2025 2 1 0))
    by (vm_compute; intuition discriminate).
  assert (H28 : dt_day (mkDatetime 2024 11 15 0) <= 28)
    by (vm_compute; discriminate).
  exact (generate_month_codes_spec (mkDatetime 2024 11 15 0)
           (mkDatetime 2025 2 1 0) Hs He H28).
Defined.

(* ===================================================================== *)
(** * The downloader and the monthly update                              *)
(* ===================================================================== *)

Lemma download_range :
  DownloadHistorical.generate_month_codes DownloadHistorical.start_date
    DownloadHistorical.end_date
  = Some (Ok ["oct24"; "nov24"; "dec24"; "jan25"; "feb25"; "mar25"; "apr25";
              "may25"; "jun25"; "jul25"; "aug25"; "sep25"; "oct25"]).
Proof. vm_compute. reflexivity. Qed.

Lemma zip_path_not_dir (code : string) :
  zip_path_of "historical_data" code <> "historical_data".
Proof. unfold zip_path_of. cbv [String.append]. discriminate. Qed.

Lemma txt_path_not_dir (code : string) :
  txt_path_of "historical_data" code <> "historical_data".
Proof. unfold txt_path_of. cbv [String.append]. discriminate. Qed.

Section DownloadFacts.
Variable http_get : string -> Response.
Variable unzip : string -> option (list (string * OS.node)).
Variable os_faults : nat -> bool.

(** One download: either the directory cannot be made and the exception
    leaves with nothing changed, or the directory is in place afterwards
    and at most the archive of the month has been written. *)
Lemma download_fide_data_spec (code : string) (d : OS.Disk) :
  exists out d1,
    DownloadHistorical.download_fide_data http_get os_faults code d
    = (out, d1)
    /\ ((exists e,
            out = RaisedOS e /\ OS.nodes d1 = OS.nodes d
            /\ (os_faults (OS.os_clock d) = true
                \/ exists c, OS.nodes d !! "historical_data"
                             = Some (OS.RegularFile c)))
        \/ (exists b base,
               out = Returned b
               /\ os_faults (OS.os_clock d) = false
               /\ (forall c, OS.nodes d !! "historical_data"
                             <> Some (OS.RegularFile c))
               /\ (base = OS.nodes d
                   \/ base = <["historical_data" := OS.Directory]>
                               (OS.nodes d))
               /\ base !! "historical_data" = Some OS.Directory
               /\ (OS.nodes d1 = base
                   \/ exists content,
                        http_get (archive_url code) = Status 200 content
                        /\ OS.nodes d1
                           = <[zip_path_of "historical_data" code
                               := OS.RegularFile content]> base))).
Proof.
  unfold DownloadHistorical.download_fide_data, OS.makedirs.
  destruct (os_faults (OS.os_clock d)) eqn:Hf.
  { eexists _, _. split; [reflexivity |]. left. exists OS.OSError.
    repeat split. left. reflexivity. }
  assert (Hgo : forall d1 base,
             OS.nodes d1 = base ->
             (base = OS.nodes d
              \/ base = <["historical_data" := OS.Directory]> (OS.nodes d)) ->
             base !! "historical_data" = Some OS.Directory ->
             (forall c, OS.nodes d !! "historical_data"
                        <> Some (OS.RegularFile c)) ->
             exists out d2,
               match http_get (archive_url code) with
               | Status status_code content =>
                   if status_code =? 200
                   then
                     match OS.write_file os_faults
                             (zip_path_of "historical_data" code) content
                             d1 with
                     | (Some _, d2) => (Returned false, d2)
                     | (None, d2) => (Returned true, d2)
                     end
                   else (Returned false, d1)
               | ConnectionError => (Returned false, d1)
               end = (out, d2)
               /\ exists b,
                    out = Returned b
                    /\ (OS.nodes d2 = base
                        \/ exists content,
                             http_get (archive_url code)
                             = Status 200 content
                             /\ OS.nodes d2
                                = <[zip_path_of "historical_data" code
                                    := OS.RegularFile content]> base)).
  { intros d1 base Hb _ _ _.
    destruct (http_get (archive_url code)) as [status_code content |];
      [| eexists _, _; split; [reflexivity |]; exists false;
         split; [reflexivity | left; exact Hb]].
    destruct (Z.eqb_spec status_code 200) as [-> | Hne];
      [| eexists _, _; split; [reflexivity |]; exists false;
         split; [reflexivity | left; exact Hb]].
    unfold OS.write_file.
    destruct (os_faults (OS.os_clock d1));
      [eexists _, _; split; [reflexivity |]; exists false;
       split; [reflexivity | left; exact Hb] |].
    destruct (OS.nodes d1 !! zip_path_of "historical_data" code)
      as [[c |] |];
      eexists _, _; (split; [reflexivity |]).
    - exists true. split; [reflexivity |]. right. exists content.
      split; [reflexivity |]. cbn. rewrite Hb. reflexivity.
    - exists false. split; [reflexivity |]. left. exact Hb.
    - exists true. split; [reflexivity |]. right. exists content.
      split; [reflexivity |]. cbn. rewrite Hb. reflexivity. }
  destruct (OS.nodes d !! "historical_data") as [[c |] |] eqn:Hdir.
  - eexists _, _. split; [reflexivity |]. left. exists OS.FileExistsError.
    repeat split. right. exists c. reflexivity.
  - destruct (Hgo (OS.called d) (OS.nodes d) eq_refl (or_introl eq_refl)
                Hdir ltac:(discriminate)) as (out & d2 & -> & b & -> & H).
    eexists _, _. split; [reflexivity |]. right. exists b, (OS.nodes d).
    repeat split; try assumption; try discriminate. left; reflexivity.
  - destruct (Hgo (OS.stored "historical_data" OS.Directory d)
                (<["historical_data" := OS.Directory]> (OS.nodes d))
                eq_refl (or_intror eq_refl)
                ltac:(apply lookup_insert_eq) ltac:(discriminate))
      as (out & d2 & -> & b & -> & H).
    eexists _, _. split; [reflexivity |]. right.
    exists b, (<["historical_data" := OS.Directory]> (OS.nodes d)).
    repeat split; try assumption; try discriminate.
    + right; reflexivity.
    + apply lookup_insert_eq.
Qed.

(** The loop of [main]: no turn counts a success, and only the
    directory and the archives of the months are written. *)
Lemma download_loop_spec (codes : list string) :
  forall (successful failed : nat) (d : OS.Disk),
    exists out d',
      DownloadHistorical.main_loop http_get unzip os_faults codes
        successful failed d = (out, d')
      /\ (out = Returned (successful, (failed + length codes)%nat)
          \/ exists e, out = RaisedOS e)
      /\ (forall path,
             OS.nodes d' !! path = OS.nodes d !! path
             \/ path = "historical_data"
             \/ exists code, In code codes
                             /\ path = zip_path_of "historical_data" code)
      /\ (forall path, is_Some (OS.nodes d !! path) ->
                       is_Some (OS.nodes d' !! path))
      /\ (codes <> [] ->
          (exists c, OS.nodes d !! "historical_data"
                     = Some (OS.RegularFile c)) ->
          (exists e, out = RaisedOS e) /\ OS.nodes d' = OS.nodes d)
      /\ ((forall k, os_faults k = false) ->
          (forall c, OS.nodes d !! "historical_data"
                     <> Some (OS.RegularFile c)) ->
          out = Returned (successful, (failed + length codes)%nat)).
Proof.
  induction codes as [| code codes IH]; intros successful failed d.
  { eexists _, _. split; [reflexivity |]. cbn [length].
    rewrite Nat.add_0_r. split; [left; reflexivity |].
    split; [intros path; left; reflexivity |].
    split; [intros path H; exact H |].
    split; [intros H; destruct (H eq_refl) | intros _ _; reflexivity]. }
  cbn [DownloadHistorical.main_loop].
  destruct (download_fide_data_spec code d)
    as (out & d1 & -> & [(e & -> & Hn & Hwhy)
                         | (b & base & -> & Hf & Hnot & Hbase & Hdir & Hd1)]).
  { eexists _, _. split; [reflexivity |].
    split; [right; exists e; reflexivity |].
    split; [intros path; left; rewrite Hn; reflexivity |].
    split; [intros path H; rewrite Hn; exact H |].
    split; [intros _ _; split; [exists e; reflexivity | exact Hn] |].
    intros Hnf Hreg. destruct Hwhy as [Hw | [c Hw]];
      [rewrite Hnf in Hw; discriminate | destruct (Hreg c Hw)]. }
  assert (Hstep : exists d2,
             (if b
              then
                let '(extracted, d2) :=
                  DownloadHistorical.extract_and_cleanup unzip os_faults
                    (PyBool b) d1 in
                if extracted
                then DownloadHistorical.main_loop http_get unzip os_faults
                       codes (S successful) failed d2
                else DownloadHistorical.main_loop http_get unzip os_faults
                       codes successful (S failed) d2
              else DownloadHistorical.main_loop http_get unzip os_faults
                     codes successful (S failed) d1)
             = DownloadHistorical.main_loop http_get unzip os_faults codes
                 successful (S failed) d2
             /\ OS.nodes d2 = OS.nodes d1).
  { exists d1. split; [| reflexivity]. destruct b; reflexivity. }
  destruct Hstep as (d2 & -> & Hd2). rewrite <- Hd2 in Hd1. clear Hd2 d1.
  destruct (IH successful (S failed) d2)
    as (out & d' & -> & Hout & Hframe & Hkeep & _ & Hsmooth).
  eexists _, _. split; [reflexivity |].
  replace (failed + length (code :: codes))%nat
    with (S failed + length codes)%nat by (cbn [length]; lia).
  split; [exact Hout |].
  assert (Hd2 : forall path,
             path <> "historical_data" ->
             path <> zip_path_of "historical_data" code ->
             OS.nodes d2 !! path = OS.nodes d !! path).
  { intros path Hp1 Hp2.
    destruct Hd1 as [-> | (content & _ & ->)];
      rewrite ?lookup_insert_ne by congruence;
      destruct Hbase as [-> | ->];
      rewrite ?lookup_insert_ne by congruence; reflexivity. }
  assert (Hkeep2 : forall path, is_Some (OS.nodes d !! path) ->
                                is_Some (OS.nodes d2 !! path)).
  { intros path Hs.
    destruct (decide (path = zip_path_of "historical_data" code))
      as [-> | Hp2].
    - destruct Hd1 as [-> | (content & _ & ->)].
      + destruct Hbase as [-> | ->]; [exact Hs |].
        rewrite lookup_insert_ne by (apply not_eq_sym, zip_path_not_dir).
        exact Hs.
      + rewrite lookup_insert_eq. eexists; reflexivity.
    - destruct (decide (path = "historical_data")) as [-> | Hp1].
      + destruct Hd1 as [-> | (content & _ & ->)];
          rewrite ?lookup_insert_ne by (apply zip_path_not_dir);
          rewrite Hdir; eexists; reflexivity.
      + rewrite (Hd2 path Hp1 Hp2). exact Hs. }
  split.
  { intros path.
    destruct (decide (path = "historical_data")) as [-> | Hp1];
      [right; left; reflexivity |].
    destruct (decide (path = zip_path_of "historical_data" code))
      as [-> | Hp2];
      [right; right; exists code; split; [left; reflexivity | reflexivity]
      |].
    destruct (Hframe path) as [H | [H | (c & Hin & H)]].
    - left. rewrite H. apply Hd2; assumption.
    - destruct (Hp1 H).
    - right. right. exists c. split; [right; exact Hin | exact H]. }
  split; [intros path Hs; apply Hkeep, Hkeep2, Hs |].
  split; [intros _ [c Hc]; destruct (Hnot c Hc) |].
  intros Hnf Hreg. apply Hsmooth; [exact Hnf |].
  intros c Hc.
  destruct Hd1 as [H | (content & _ & H)]; rewrite H in Hc.
  - rewrite Hdir in Hc. discriminate.
  - rewrite lookup_insert_ne in Hc by (apply zip_path_not_dir).
    rewrite Hdir in Hc. discriminate.
Qed.

(** X25. Whatever the server answers, whatever the archives hold and
    whatever the disk is like, the downloader never counts a success:
    the boolean returned by the download is what the extraction receives
    as a path, so nothing is ever extracted or removed. Its [main] ends
    with 0 successes and 13 failures, or with the exception of
    [os.makedirs], which is called outside every [try]: at the first
    month when a regular file has the name of the output directory.
    Nothing that was on the disk disappears, only the output directory
    and the archives of the months of the [--all] preset are written,
    and every list the preset names is left as it was. *)
Theorem download_main_never_extracts (d : OS.Disk) :
  exists out d',
    DownloadHistorical.main http_get unzip os_faults d = Some (out, d')
    /\ (out = Returned (0%nat, 13%nat) \/ exists e, out = RaisedOS e)
    /\ (forall path,
           OS.nodes d' !! path = OS.nodes d !! path
           \/ path = "historical_data"
           \/ exists code,
                In (txt_path_of "historical_data" code)
                   (map fst files_to_seed)
                /\ path = zip_path_of "historical_data" code)
    /\ (forall path, is_Some (OS.nodes d !! path) ->
                     is_Some (OS.nodes d' !! path))
    /\ Forall (fun source => OS.nodes d' !! source.1
                             = OS.nodes d !! source.1) files_to_seed
    /\ ((exists c, OS.nodes d !! "historical_data"
                   = Some (OS.RegularFile c)) ->
        (exists e, out = RaisedOS e) /\ OS.nodes d' = OS.nodes d)
    /\ ((forall k, os_faults k = false) ->
        (forall c, OS.nodes d !! "historical_data"
                   <> Some (OS.RegularFile c)) ->
        out = Returned (0%nat, 13%nat)).
Proof.
  unfold DownloadHistorical.main. rewrite download_range.
  destruct (download_loop_spec
              ["oct24"; "nov24"; "dec24"; "jan25"; "feb25"; "mar25";
               "apr25"; "may25"; "jun25"; "jul25"; "aug25"; "sep25";
               "oct25"] 0 0 d)
    as (out & d' & -> & Hout & Hframe & Hkeep & Hblocked & Hsmooth).
  exists out, d'. split; [reflexivity |].
  assert (Hpreset : forall code,
             In code ["oct24"; "nov24"; "dec24"; "jan25"; "feb25"; "mar25";
                      "apr25"; "may25"; "jun25"; "jul25"; "aug25"; "sep25";
                      "oct25"] ->
             In (txt_path_of "historical_data" code)
                (map fst files_to_seed)
             /\ ~ In (zip_path_of "historical_data" code)
                     (map fst files_to_seed)).
  { intros code Hin. cbn [In] in Hin.
    repeat (destruct Hin as [<- | Hin];
            [split; [vm_compute; tauto |];
             vm_compute; intros H;
             repeat (destruct H as [H | H]; [discriminate H |]); exact H
            |]).
    destruct Hin. }
  split; [exact Hout |].
  split.
  { intros path.
    destruct (Hframe path) as [H | [H | (code & Hin & H)]];
      [left; exact H | right; left; exact H |].
    right. right. exists code. split; [apply Hpreset, Hin | exact H]. }
  split; [exact Hkeep |].
  split.
  { apply Forall_forall. intros source Hs.
    apply list_elem_of_In in Hs.
    destruct (Hframe source.1) as [H | [H | (code & Hin & H)]];
      [exact H | |].
    - exfalso. revert Hs. rewrite (surjective_pairing source), H.
      cbn [fst]. vm_compute. intros Hs.
      repeat (destruct Hs as [Hs | Hs]; [discriminate Hs |]). exact Hs.
    - exfalso. apply (proj2 (Hpreset code Hin)). rewrite <- H.
      apply in_map_iff. exists source. split; [reflexivity | exact Hs]. }
  split; [apply Hblocked; discriminate | exact Hsmooth].
Qed.

End DownloadFacts.

Section UpdateFacts.
Variable http_get : string -> Response.
Variable unzip : string -> option (list (string * OS.node)).
Variable os_faults : nat -> bool.
Variable faults : nat -> bool.

Lemma first_of_month_accepted (now : datetime) :
  1 <= dt_month now <= 12 -> 1 <= dt_year now <= 9999 ->
  Date.strptime (MonthlyUpdate.first_of_month now)
  = Some (dt_year now, dt_month now, 1).
Proof.
  intros Hm Hy. apply strptime_isoformat. unfold real_date.
  pose proof (days_in_month_lower (dt_year now) (dt_month now)). lia.
Qed.

(** What the download hands over: the exception of [os.makedirs] with
    nothing changed, or nothing, or the path of the list, at which
    something exists on the disk it leaves. Without a status of 200 only
    the output directory can have been made. *)
Lemma download_monthly_data_spec (code : string) (d : OS.Disk) :
  exists out d1,
    MonthlyUpdate.download_monthly_data http_get unzip os_faults code d
    = (out, d1)
    /\ ((exists e,
            out = RaisedOS e /\ OS.nodes d1 = OS.nodes d
            /\ (os_faults (OS.os_clock d) = true
                \/ exists c, OS.nodes d !! "historical_data"
                             = Some (OS.RegularFile c)))
        \/ out = Returned None
        \/ (out = Returned (Some (txt_path_of "historical_data" code))
            /\ is_Some (OS.nodes d1 !! txt_path_of "historical_data" code)))
    /\ ((forall content,
            http_get (archive_url code) <> Status 200 content) ->
        (forall txt_file, out <> Returned (Some txt_file))
        /\ forall path, path <> "historical_data" ->
                        OS.nodes d1 !! path = OS.nodes d !! path).
Proof.
  unfold MonthlyUpdate.download_monthly_data, OS.makedirs.
  destruct (os_faults (OS.os_clock d)) eqn:Hf.
  { eexists _, _. split; [reflexivity |]. split.
    - left. exists OS.OSError. repeat split. left. reflexivity.
    - intros _. split; [discriminate | reflexivity]. }
  assert (Hgo : forall d1,
             (forall path, path <> "historical_data" ->
                           OS.nodes d1 !! path = OS.nodes d !! path) ->
             exists out d2,
               match http_get (archive_url code) with
               | Status status_code content =>
                   if status_code =? 200
                   then
                     match OS.write_file os_faults
                             (zip_path_of "historical_data" code) content
                             d1 with
                     | (Some _, d2) => (Returned None, d2)
                     | (None, d2) =>
                         match OS.open_archive os_faults unzip
                                 (zip_path_of "historical_data" code)
                                 d2 with
                         | (None, d3) => (Returned None, d3)
                         | (Some entries, d3) =>
                             match OS.extractall os_faults
                                     "historical_data" entries d3 with
                             | (Some _, d4) => (Returned None, d4)
                             | (None, d4) =>
                                 match OS.remove os_faults
                                         (zip_path_of "historical_data"
                                            code) d4 with
                                 | (Some _, d5) => (Returned None, d5)
                                 | (None, d5) =>
                                     if OS.path_exists
                                          (txt_path_of "historical_data"
                                             code) d5
                                     then (Returned
                                             (Some (txt_path_of
                                                      "historical_data"
                                                      code)), d5)
                                     else (Returned None, d5)
                                 end
                             end
                         end
                     end
                   else (Returned None, d1)
               | ConnectionError => (Returned None, d1)
               end = (out, d2)
               /\ (out = Returned None
                   \/ (out = Returned
                               (Some (txt_path_of "historical_data" code))
                       /\ is_Some (OS.nodes d2
                                   !! txt_path_of "historical_data" code)))
               /\ ((forall content,
                       http_get (archive_url code) <> Status 200 content) ->
                   (forall txt_file, out <> Returned (Some txt_file))
                   /\ forall path, path <> "historical_data" ->
                                   OS.nodes d2 !! path
                                   = OS.nodes d !! path)).
  { intros d1 Hd1.
    destruct (http_get (archive_url code)) as [status_code content |];
      [| eexists _, _; split; [reflexivity |];
         split; [left; reflexivity
                | intros _; split; [discriminate | exact Hd1]]].
    destruct (Z.eqb_spec status_code 200) as [-> | Hne];
      [| eexists _, _; split; [reflexivity |];
         split; [left; reflexivity
                | intros _; split; [discriminate | exact Hd1]]].
    assert (Hno : forall (out : Outcome (option string)) (d2 : OS.Disk),
               (forall content0,
                   Status 200 content <> Status 200 content0) ->
               (forall txt_file, out <> Returned (Some txt_file))
               /\ forall path, path <> "historical_data" ->
                               OS.nodes d2 !! path = OS.nodes d !! path)
      by (intros out d2 H; destruct (H content eq_refl)).
    destruct (OS.write_file _ _ _ d1) as [[e |] d2];
      [eexists _, _; split; [reflexivity |];
       split; [left; reflexivity | apply Hno] |].
    destruct (OS.open_archive _ _ _ d2) as [[entries |] d3];
      [| eexists _, _; split; [reflexivity |];
         split; [left; reflexivity | apply Hno]].
    destruct (OS.extractall _ _ entries d3) as [[e |] d4];
      [eexists _, _; split; [reflexivity |];
       split; [left; reflexivity | apply Hno] |].
    destruct (OS.remove _ _ d4) as [[e |] d5];
      [eexists _, _; split; [reflexivity |];
       split; [left; reflexivity | apply Hno] |].
    unfold OS.path_exists. case_bool_decide as Hex;
      eexists _, _; (split; [reflexivity |]);
      (split; [| apply Hno]).
    - right. split; [reflexivity | exact Hex].
    - left. reflexivity. }
  destruct (OS.nodes d !! "historical_data") as [[c |] |] eqn:Hdir.
  - eexists _, _. split; [reflexivity |]. split.
    + left. exists OS.FileExistsError. repeat split. right. exists c.
      reflexivity.
    + intros _. split; [discriminate | reflexivity].
  - destruct (Hgo (OS.called d) ltac:(intros; reflexivity))
      as (out & d2 & -> & Hout & Hno).
    eexists _, _. split; [reflexivity |]. split; [right; exact Hout |].
    exact Hno.
  - destruct (Hgo (OS.stored "historical_data" OS.Directory d))
      as (out & d2 & -> & Hout & Hno).
    { intros path Hp. cbn. rewrite lookup_insert_ne by congruence.
      reflexivity. }
    eexists _, _. split; [reflexivity |]. split; [right; exact Hout |].
    exact Hno.
Qed.

(** X26. The monthly update ends in one of four ways. The exception of
    [os.makedirs], called outside every [try], leaves it before any
    request, with disk and store untouched. Or there is nothing to seed
    and it returns with the store untouched. Or something exists at the
    path of the list: a regular file is seeded under the first day of
    the month of the second clock reading, a date [strptime] accepts,
    and then only the store can make the run fail; a directory makes
    the run fail with the store's error or [IsADirectoryError], the
    store unchanged. The console is never read, and without a status of
    200 the store is untouched and at most the output directory has
    been made. *)
Theorem monthly_update_outcome (now1 now2 : datetime) (d : OS.Disk)
    (w : World) :
  1 <= dt_month now2 <= 12 ->
  1000 <= dt_year now2 <= 9999 ->
  let res := MonthlyUpdate.main http_get unzip os_faults faults now1 now2
               d w in
  let out := res.1.1 in
  let d' := res.1.2 in
  let w' := res.2 in
  let txt_file := txt_path_of "historical_data" (month_code now1) in
  let data_date := MonthlyUpdate.first_of_month now2 in
  Date.strptime data_date = Some (dt_year now2, dt_month now2, 1)
  /\ stdin w' = stdin w
  /\ (((exists e, out = RaisedOS e) /\ w' = w /\ OS.nodes d' = OS.nodes d
       /\ (os_faults (OS.os_clock d) = true
           \/ exists c, OS.nodes d !! "historical_data"
                        = Some (OS.RegularFile c)))
      \/ (out = Returned tt /\ w' = w)
      \/ (exists content r,
             OS.nodes d' !! txt_file = Some (OS.RegularFile content)
             /\ seed_database (OS.files_of d') faults txt_file data_date
                  2500 w = (r, w')
             /\ ((r = Ok tt /\ out = Returned tt)
                 \/ (r = Raise APIError /\ out = Raised APIError)))
      \/ (OS.nodes d' !! txt_file = Some OS.Directory
          /\ db w' = db w
          /\ (out = Raised APIError
              \/ out = RaisedOS OS.IsADirectoryError)))
  /\ ((forall content,
          http_get (archive_url (month_code now1)) <> Status 200 content) ->
      w' = w
      /\ forall path, path <> "historical_data" ->
                      OS.nodes d' !! path = OS.nodes d !! path).
Proof.
  intros Hm Hy res out d' w' txt_file data_date.
  assert (Hd : Date.strptime data_date
               = Some (dt_year now2, dt_month now2, 1))
    by (apply first_of_month_accepted; lia).
  split; [exact Hd |].
  subst out d' w' res. unfold MonthlyUpdate.main.
  unfold MonthlyUpdate.get_current_month_code. fold data_date.
  destruct (download_monthly_data_spec (month_code now1) d)
    as (out & d1 & -> & Hout & Hno).
  fold txt_file in Hout.
  destruct Hout as [(e & -> & Hn & Hwhy) | [-> | [-> Hex]]].
  - cbn [fst snd]. split; [reflexivity |]. split.
    + left. split; [exists e; reflexivity |]. repeat split; assumption.
    + intros H. split; [reflexivity | exact (proj2 (Hno H))].
  - cbn [fst snd]. split; [reflexivity |]. split.
    + right. left. split; reflexivity.
    + intros H. split; [reflexivity | exact (proj2 (Hno H))].
  - assert (Hseed : exists out w1,
               MonthlyUpdate.seed_from_disk faults txt_file data_date d1 w
               = (out, w1)
               /\ stdin w1 = stdin w
               /\ ((exists content r,
                       OS.nodes d1 !! txt_file
                       = Some (OS.RegularFile content)
                       /\ seed_database (OS.files_of d1) faults txt_file
                            data_date 2500 w = (r, w1)
                       /\ ((r = Ok tt /\ out = Returned tt)
                           \/ (r = Raise APIError
                               /\ out = Raised APIError)))
                   \/ (OS.nodes d1 !! txt_file = Some OS.Directory
                       /\ db w1 = db w
                       /\ (out = Raised APIError
                           \/ out = RaisedOS OS.IsADirectoryError)))).
    { unfold MonthlyUpdate.seed_from_disk.
      destruct (seed_database_effect (OS.files_of d1) faults txt_file
                  data_date 2500 w) as (_ & _ & _ & _ & Hin & _).
      destruct Hex as [n Hn]. destruct n as [content |].
      - assert (Hfs : OS.files_of d1 txt_file = Some content)
          by (unfold OS.files_of; rewrite Hn; reflexivity).
        pose proof (seed_database_cases (OS.files_of d1) faults txt_file
                      data_date 2500 w) as Hc. cbn zeta in Hc.
        destruct (seed_database (OS.files_of d1) faults txt_file data_date
                    2500 w) as [[[] | e] w1] eqn:Hrun;
          cbn [fst snd] in Hc, Hin.
        + eexists _, _. split; [reflexivity |]. split; [exact Hin |].
          left. exists content, (Ok tt). split; [exact Hn |].
          split; [reflexivity | left; split; reflexivity].
        + destruct Hc as [Hc | [Hc | [(_ & Hc & _) | (_ & Hc & _)]]];
            try congruence.
          injection Hc as ->. rewrite Hn.
          eexists _, _. split; [reflexivity |]. split; [exact Hin |].
          left. exists content, (Raise APIError). split; [reflexivity |].
          split; [reflexivity | right; split; reflexivity].
      - assert (Hfs : OS.files_of d1 txt_file = None)
          by (unfold OS.files_of; rewrite Hn; reflexivity).
        destruct (seed_database_without_file (OS.files_of d1) faults
                    txt_file data_date 2500 w Hfs) as [Hr Hdb].
        destruct (seed_database (OS.files_of d1) faults txt_file data_date
                    2500 w) as [[[] | e] w1] eqn:Hrun;
          cbn [fst snd] in Hr, Hdb, Hin;
          [destruct Hr; discriminate |].
        rewrite Hn.
        destruct Hr as [Hr | Hr]; injection Hr as ->;
          (eexists _, _; split; [reflexivity |]; split; [exact Hin |];
           right; split; [reflexivity |]; split; [exact Hdb |]);
          [left | right]; reflexivity. }
    destruct Hseed as (out & w1 & -> & Hin & Hcase).
    cbn [fst snd]. split; [exact Hin |]. split.
    + right. right. exact Hcase.
    + intros H. destruct (proj1 (Hno H) txt_file eq_refl).
Qed.

End UpdateFacts.

Lemma monthly_update_outcome_witness :
  let res := MonthlyUpdate.main Fixtures.server Fixtures.archive
               Sample.no_faults Sample.no_faults Fixtures.november
               Fixtures.november Fixtures.empty_disk Sample.world0 in
  Date.strptime (MonthlyUpdate.first_of_month Fixtures.november)
  = Some (2025, 11, 1)
  /\ stdin res.2 = stdin Sample.world0.
Proof.
  pose proof (monthly_update_outcome Fixtures.server Fixtures.archive
                Sample.no_faults Sample.no_faults Fixtures.november
                Fixtures.november Fixtures.empty_disk Sample.world0) as H.
  cbn zeta in H.
  destruct H as (H1 & H2 & _); [cbn; lia | cbn; lia |].
  split; [exact H1 | exact H2].
Defined.
